(** * Order and payment reconciliation of the storefront

    A shallow embedding of the server actions of [actions/cart.ts],
    [actions/order.ts] and [actions/payment.ts] together with the tables of
    the SQL schema they work on, and the properties of the order and payment
    workflow proved about them.

    - JavaScript numbers that hold money ([price], [total_amount], [amount])
      are IEEE-754 binary64 values: the kernel's primitive [float].
    - Columns of SQL type INTEGER ([stock_quantity], [quantity]) are [Z].
    - The store (Supabase) is an explicit state [Db]; what lies outside the
      program (the identity provider, the store's refusals, the fresh row
      identifier, the payment gateway) is read from an environment [Env].
    - Every server action is a computation in the monad [M], which threads
      the store and a trace of outward calls and supports the early
      [return] of the source. *)

From Stdlib Require Import ZArith Floats Uint63 Ascii String.
From Stdlib Require Import SpecFloat FloatAxioms.
From stdpp Require Import gmap strings list.

#[local] Set Warnings "-inexact-float".
Local Open Scope string_scope.
Local Open Scope list_scope.
Local Open Scope Z_scope.

(** ** Numbers *)

(** An integer column read into a JavaScript number. Exact below [2^53];
    the INTEGER columns stay below [2^31]. *)
Definition of_int (z : Z) : float :=
  match z with
  | Z0 => 0%float
  | Zpos _ => PrimFloat.of_uint63 (Uint63.of_Z z)
  | Zneg p => (- PrimFloat.of_uint63 (Uint63.of_Z (Zpos p)))%float
  end.

(** [Math.abs(a - b) > 0.01], the amount check of both order flows. *)
Definition amount_differs (a b : float) : bool :=
  PrimFloat.ltb 0.01%float (PrimFloat.abs (a - b)%float).

(** [x || d] on a number: [d] when [x] is [0], [-0] or [NaN]. *)
Definition num_or (x d : float) : float :=
  if PrimFloat.is_nan x || PrimFloat.is_zero x then d else x.

(** [s || d] on a string: [d] when [s] is empty. *)
Definition str_or (s d : string) : string :=
  match s with EmptyString => d | _ => s end.

(** [z.string().min(1)]. *)
Definition nonempty (s : string) : bool :=
  match s with EmptyString => false | _ => true end.

(** ** Numbers written to a DECIMAL(10,2) column *)

(** A number the actions write to [orders.total_amount] travels as JSON
    text: [JSON.stringify] writes it with [Number::toString], the column
    rounds that decimal to two places, and the number read back is the
    binary64 number nearest to the rounded decimal. *)

(** [s * 10^p] against [b * 2^q]. *)
Definition compare_decimal (s p b q : Z) : comparison :=
  (s * 10 ^ Z.max p 0 * 2 ^ Z.max (- q) 0
   ?= b * 10 ^ Z.max (- p) 0 * 2 ^ Z.max q 0).

(** Does the decimal [s * 10^p] read back as the binary64 number
    [m * 2^e]? It does when it lies between the midpoints to the two
    neighbours of the number, a midpoint included when [m] is even. The
    neighbour below a power of two is half as far. *)
Definition reads_back (m e s p : Z) : bool :=
  let lo := if (m =? 2 ^ 52) && (-1074 <? e) then 4 * m - 1 else 4 * m - 2 in
  let hi := 4 * m + 2 in
  match compare_decimal s p lo (e - 2), compare_decimal s p hi (e - 2) with
  | Gt, Lt => true
  | Eq, _ | _, Eq => Z.even m
  | _, _ => false
  end.

(** The digits [s] of the multiple [s * 10^p] of [10^p] that reads back as
    [m * 2^e], if there is one: of the multiples just below and just above
    the number, the one that reads back, the nearer one when both do, the
    even one when they are as near. *)
Definition multiple_read_back (m e p : Z) : option Z :=
  let num := m * 2 ^ Z.max e 0 * 10 ^ Z.max (- p) 0 in
  let den := 2 ^ Z.max (- e) 0 * 10 ^ Z.max p 0 in
  let s := num / den in
  let below := (0 <? s) && reads_back m e s p in
  let above := reads_back m e (s + 1) p in
  if below && above then
    match (2 * (num - s * den) ?= den) with
    | Lt => Some s
    | Gt => Some (s + 1)
    | Eq => Some (if Z.even s then s else s + 1)
    end
  else if below then Some s
  else if above then Some (s + 1)
  else None.

(** [Number::toString]: the digits [s] and the exponent [p] of the decimal
    [s * 10^p] with the fewest digits that reads back as [m * 2^e],
    searched from the largest power of ten down. *)
Fixpoint shortest_decimal (fuel : nat) (m e p : Z) : Z * Z :=
  match multiple_read_back m e p, fuel with
  | Some s, _ => (s, p)
  | None, S fuel' => shortest_decimal fuel' m e (p - 1)
  | None, O => (0, p)
  end.

(** A binary64 number has a decimal of at most 17 digits that reads back
    as it; the search starts above the number's own power of ten. *)
Definition number_to_decimal (m e : Z) : Z * Z :=
  shortest_decimal 30 m e ((Z.log2 m + e) * 30103 / 100000 + 2).

(** The hundredths of [s * 10^p], rounded half away from zero as a
    [numeric] column rounds. *)
Definition hundredths (s p : Z) : Z :=
  if -2 <=? p then s * 10 ^ (p + 2)
  else (2 * s + 10 ^ (- p - 2)) / (2 * 10 ^ (- p - 2)).

(** What a [DECIMAL(10,2) NOT NULL CHECK (>= 0)] column holds, in
    hundredths, after [x] is written to it, if it takes [x]: it takes no
    [NaN] or infinity ([JSON.stringify] writes [null]), nothing that rounds
    below zero and nothing that rounds to ten digits or more before the
    point. *)
Definition column_10_2 (x : float) : option Z :=
  match Prim2SF x with
  | S754_zero _ => Some 0
  | S754_finite sign m e =>
      let '(s, p) := number_to_decimal (Zpos m) e in
      let c := hundredths s p in
      if c =? 0 then Some 0
      else if sign then None
      else if c <? 10 ^ 10 then Some c
      else None
  | S754_infinity _ | S754_nan => None
  end.

(** The number read back from the column after [x] is written to it. A
    write the column does not take is refused by the store; that refusal
    is the environment's ([store_error] below), and [x] stands for a row
    that cannot come to exist. *)
Definition decimal_10_2 (x : float) : float :=
  match column_10_2 x with
  | Some c => (of_int c / 100)%float
  | None => x
  end.
Arguments decimal_10_2 : simpl never.

(** ** Tables *)

(** The tables of the schema, with the columns the actions compute with.
    The columns they only carry along ([description], [category], the
    timestamps, the generated [id] of [order_items]) are left out. A
    DECIMAL(10,2) column holds the number the actions read from it. A
    total the actions compute is stored as [decimal_10_2] makes it; a
    price is only ever copied from one such column to another. *)

(** A row of [products]; the primary key [id] is the key of the map. *)
Record ProductRow := mkProductRow {
  name : string;
  price : float;
  stock_quantity : Z;
  is_active : bool
}.

(** A row of [cart_items]. *)
Record CartRow := mkCartRow {
  cr_id : string;
  cr_clerk_id : string;
  cr_product_id : string;
  cr_quantity : Z
}.

Inductive OrderStatus := pending | confirmed | shipped | delivered | cancelled.

(** The JSON stored in [orders.shipping_address]. [createOrder] writes no
    [customerName]; an absent [addressDetail] is [None]. *)
Record ShippingAddressJson := mkShippingAddressJson {
  sa_customerName : option string;
  sa_address : string;
  sa_postalCode : string;
  sa_addressDetail : option string;
  sa_phoneNumber : string
}.

(** A row of [orders]. *)
Record OrderRow := mkOrderRow {
  o_id : string;
  o_clerk_id : string;
  o_total_amount : float;
  o_status : OrderStatus;
  o_shipping_address : ShippingAddressJson;
  o_order_note : option string
}.

(** A row of [order_items]. *)
Record OrderItemRow := mkOrderItemRow {
  oi_order_id : string;
  oi_product_id : string;
  oi_product_name : string;
  oi_quantity : Z;
  oi_price : float
}.

(** The store. [cart_items] is kept newest first, the order in which
    [getCartItems] asks for it ([created_at] descending). *)
Record Db := mkDb {
  products : gmap string ProductRow;
  cart_items : list CartRow;
  orders : list OrderRow;
  order_items : list OrderItemRow
}.

(** ** The environment of one invocation *)

(** The calls the actions send to the store: the reads whose [error] they
    look at, and the writes. *)
Inductive StoreCall :=
| SelectCartItems
| SelectCartItem
| InsertCartItem
| UpdateCartItem
| DeleteCartItems
| SelectProduct (id : string)
| UpdateProduct (id : string)
| SelectOrder
| InsertOrder
| UpdateOrder
| DeleteOrder
| InsertOrderItems.

(** What [confirmPaymentWithToss] does: it raises (secret key not set,
    network failure, a reply that is not 2xx), or hands back the gateway's
    JSON, of which only [status] is read. *)
Inductive TossOutcome :=
| TossThrows (message : string)
| TossData (status : string).

Record Env := mkEnv {
  (** [auth()]: the caller's [userId], if there is one. *)
  auth : option string;
  (** [gen_random_uuid()] for the row this invocation inserts. *)
  gen_random_uuid : string;
  (** Does the store answer this call with an [error]? A call the store
      answers with an error is not carried out. *)
  store_error : StoreCall -> bool;
  (** The gateway's answer to [(paymentKey, orderId, amount)]. *)
  toss : string -> string -> float -> TossOutcome
}.

(** Outward calls, in the order they are made: the gateway client and the
    writes sent to the store (whether or not the store carries them out). *)
Inductive Event :=
| CallToss (paymentKey orderId : string) (amount : float)
| Write (c : StoreCall).

Record World := mkWorld {
  db : Db;
  trace : list Event
}.

(** ** The monad of server actions *)

(** A computation either has already executed a [return r] of the enclosing
    function ([inl r]) or goes on with a value ([inr a]). *)
Definition M (R A : Type) : Type := World -> (R + A) * World.

Definition ret {R A} (a : A) : M R A := fun w => (inr a, w).

Definition Return {R A} (r : R) : M R A := fun w => (inl r, w).

Definition bind {R A B} (m : M R A) (k : A -> M R B) : M R B :=
  fun w => match m w with
           | (inl r, w') => (inl r, w')
           | (inr a, w') => k a w'
           end.

Definition get_db {R} : M R Db := fun w => (inr (db w), w).

Definition put_db {R} (d : Db) : M R unit :=
  fun w => (inr tt, mkWorld d (trace w)).

Definition emit {R} (e : Event) : M R unit :=
  fun w => (inr tt, mkWorld (db w) (trace w ++ [e])).

(** Runs an action from a store, with an empty trace. *)
Definition run {R} (m : M R R) (d : Db) : R * World :=
  match m (mkWorld d []) with
  | (inl r, w) => (r, w)
  | (inr r, w) => (r, w)
  end.

Declare Scope action_scope.
Delimit Scope action_scope with action.
Notation "x <~ m ;; k" := (bind m (fun x => k))
  (at level 100, m at next level, right associativity) : action_scope.
Notation "m ;;; k" := (bind m (fun _ => k))
  (at level 100, right associativity) : action_scope.
Notation "'when' c 'return_' r ;;; k" := (if c then Return r else k)
  (at level 100, c at next level, r at next level, right associativity) : action_scope.
Local Open Scope action_scope.

(** [.single()]: exactly one row, otherwise an error. *)
Definition single {A} (rows : list A) : option A :=
  match rows with
  | [x] => Some x
  | _ => None
  end.

(** ** Results *)

(** The [error] of a [{ success: false, error }] result: one constructor
    for each message an action can answer with. *)
Inductive Failure :=
| NotAuthenticated
| InvalidInput
| CartUnavailable
| EmptyCart
| InactiveProduct (product_name : string)
| InsufficientStock (product_name : option string) (stock requested : Z)
| OutOfStock (product_name : option string)
| AmountMismatch
| PaymentNotApproved
| Thrown (message : string)
| OrderSaveFailed
| OrderItemsSaveFailed
| InternalError
| OrderNotFound
| InvalidState
| CancelFailed
| InvalidProduct
| InvalidQuantity
| ProductUnavailable
| ProductNotOnSale
| CartUpdateFailed
| CartInsertFailed
| CartClearFailed.

Inductive Result (A : Type) :=
| Success (data : A)
| Fail (error : Failure).
Arguments Success {A} data.
Arguments Fail {A} error.

(** A server action: its early [return]s and its last one have one type. *)
Definition Action (A : Type) : Type := M (Result A) (Result A).

(** ** Row-level store operations *)

Definition set_products (d : Db) (ps : gmap string ProductRow) : Db :=
  mkDb ps (cart_items d) (orders d) (order_items d).

Definition set_cart_items (d : Db) (cs : list CartRow) : Db :=
  mkDb (products d) cs (orders d) (order_items d).

Definition set_orders (d : Db) (os : list OrderRow) : Db :=
  mkDb (products d) (cart_items d) os (order_items d).

Definition set_order_items (d : Db) (ois : list OrderItemRow) : Db :=
  mkDb (products d) (cart_items d) (orders d) ois.

(** [from("cart_items").select(..., products(...)).eq("clerk_id", userId)]:
    the caller's lines, each with the product its [product_id] refers to. *)
Definition select_cart_items (userId : string) (d : Db)
  : list (CartRow * option ProductRow) :=
  map (fun r => (r, products d !! cr_product_id r))
      (filter (fun r => cr_clerk_id r = userId) (cart_items d)).

(** [from("cart_items").select().eq("clerk_id", u).eq("product_id", p)]. *)
Definition select_cart_item (userId productId : string) (d : Db)
  : list CartRow :=
  filter (fun r => cr_clerk_id r = userId ∧ cr_product_id r = productId)
         (cart_items d).

(** [update({ quantity }).eq("id", id).eq("clerk_id", userId)]. *)
Definition update_cart_quantity (id userId : string) (q : Z)
    (rows : list CartRow) : list CartRow :=
  map (fun r => if decide (cr_id r = id ∧ cr_clerk_id r = userId)
                then mkCartRow (cr_id r) (cr_clerk_id r) (cr_product_id r) q
                else r) rows.

(** The constraints of [cart_items] an insert can violate: the primary key
    and [UNIQUE(clerk_id, product_id)]. *)
Definition cart_insert_allowed (r : CartRow) (rows : list CartRow) : bool :=
  forallb (fun r' => negb (String.eqb (cr_id r') (cr_id r))
                     && negb (String.eqb (cr_clerk_id r') (cr_clerk_id r)
                              && String.eqb (cr_product_id r') (cr_product_id r)))
          rows.

(** The primary key of [orders]. *)
Definition order_insert_allowed (o : OrderRow) (rows : list OrderRow) : bool :=
  forallb (fun o' => negb (String.eqb (o_id o') (o_id o))) rows.

(** [from("orders").delete().eq("id", id)]; [order_items.order_id] is
    declared [ON DELETE CASCADE]. *)
Definition delete_order (id : string) (d : Db) : Db :=
  mkDb (products d) (cart_items d)
       (filter (fun o => o_id o ≠ id) (orders d))
       (filter (fun i => oi_order_id i ≠ id) (order_items d)).

(** ** Cart actions ([actions/cart.ts]) *)

(** An element of [validCartItems]: the line and its product. The joined
    product's [id] is the line's [product_id]. *)
Record CartItem := mkCartItem {
  ci_id : string;
  ci_clerk_id : string;
  ci_product_id : string;
  ci_quantity : Z;
  ci_products : ProductRow
}.

Inductive GetCartItemsResult :=
| CartOk (data : list CartItem) (totalAmount : float)
| CartFail (error : Failure).

(** The loop of [getCartItems]: lines whose product is missing or not
    active are left out, the others add [price * quantity] to the total. *)
Fixpoint cart_total_loop (cartItems : list (CartRow * option ProductRow))
    (totalAmount : float) (validCartItems : list CartItem)
  : float * list CartItem :=
  match cartItems with
  | [] => (totalAmount, validCartItems)
  | (item, product) :: rest =>
      match product with
      | Some p =>
          if is_active p then
            let itemTotal := (price p * of_int (cr_quantity item))%float in
            cart_total_loop rest (totalAmount + itemTotal)%float
              (validCartItems ++
                 [mkCartItem (cr_id item) (cr_clerk_id item)
                    (cr_product_id item) (cr_quantity item) p])
          else cart_total_loop rest totalAmount validCartItems
      | None => cart_total_loop rest totalAmount validCartItems
      end
  end.

Definition getCartItems (env : Env) (d : Db) : GetCartItemsResult :=
  match auth env with
  | None => CartFail NotAuthenticated
  | Some userId =>
      if store_error env SelectCartItems then CartFail CartUnavailable
      else
        let cartItems := select_cart_items userId d in
        match cartItems with
        | [] => CartOk [] 0%float
        | _ =>
            let '(totalAmount, validCartItems) :=
              cart_total_loop cartItems 0%float [] in
            CartOk validCartItems totalAmount
        end
  end.

(** [addToCart(productId, quantity)]. [quantity] is an integer by its
    type here, so [Number.isInteger] holds. The answer is the line's
    [(id, quantity)]. *)
Definition addToCart (env : Env) (productId : string) (quantity : Z)
  : Action (string * Z) :=
  match auth env with
  | None => Return (Fail NotAuthenticated)
  | Some userId =>
    when negb (nonempty productId) return_ Fail InvalidProduct ;;;
    when quantity <? 1 return_ Fail InvalidQuantity ;;;
    d <~ get_db ;;
    when store_error env (SelectProduct productId)
      return_ Fail ProductUnavailable ;;;
    match products d !! productId with
    | None => Return (Fail ProductUnavailable)
    | Some product =>
      when negb (is_active product) return_ Fail ProductNotOnSale ;;;
      let existingCartItem :=
        if store_error env SelectCartItem then None
        else single (select_cart_item userId productId d) in
      let totalQuantity :=
        match existingCartItem with
        | Some e => cr_quantity e + quantity
        | None => quantity
        end in
      when stock_quantity product <? totalQuantity
        return_ Fail (InsufficientStock None (stock_quantity product)
                        totalQuantity) ;;;
      match existingCartItem with
      | Some e =>
          let newQuantity := cr_quantity e + quantity in
          emit (Write UpdateCartItem) ;;;
          when store_error env UpdateCartItem
            return_ Fail CartUpdateFailed ;;;
          put_db (set_cart_items d
                    (update_cart_quantity (cr_id e) userId newQuantity
                       (cart_items d))) ;;;
          match single (filter (fun r => cr_id r = cr_id e
                                         ∧ cr_clerk_id r = userId)
                               (cart_items d)) with
          | None => Return (Fail CartUpdateFailed)
          | Some r => Return (Success (cr_id r, newQuantity))
          end
      | None =>
          let row := mkCartRow (gen_random_uuid env) userId productId
                       quantity in
          emit (Write InsertCartItem) ;;;
          when store_error env InsertCartItem
               || negb (cart_insert_allowed row (cart_items d))
            return_ Fail CartInsertFailed ;;;
          put_db (set_cart_items d (row :: cart_items d)) ;;;
          Return (Success (cr_id row, quantity))
      end
    end
  end.

(** Modelled from the spec: [clearCart] of [actions/cart.ts], which the
    payment action calls, is not among the sources; the spec has it "clear
    the user's cart (all lines)" and its caller reads a
    [{ success, error }] answer from it. It is an action of its own, so it
    answers its caller and does not end the caller's run. *)
Definition clearCart {R} (env : Env) : M R (Result unit) :=
  match auth env with
  | None => ret (Fail NotAuthenticated)
  | Some userId =>
      emit (Write DeleteCartItems) ;;;
      if store_error env DeleteCartItems then ret (Fail CartClearFailed)
      else
        d <~ get_db ;;
        put_db (set_cart_items d
                  (filter (fun r => cr_clerk_id r ≠ userId) (cart_items d))) ;;;
        ret (Success tt)
  end.

(** ** Input schemas ([lib/schemas/order.ts]) *)

(** [shippingAddress] as the client sends it. *)
Record ShippingAddress := mkShippingAddress {
  customerName : string;
  address : string;
  postalCode : string;
  addressDetail : option string;
  phoneNumber : string
}.

Record CreateOrderInput := mkCreateOrderInput {
  shippingAddress : ShippingAddress;
  orderNote : option string
}.

(** The [length] of a JavaScript string (UTF-16 code units) whose UTF-8
    bytes are [s]: one unit for each byte that starts a character, one more
    for a character of four bytes. *)
Fixpoint js_length (s : string) : nat :=
  match s with
  | EmptyString => 0
  | String c rest =>
      let b := nat_of_ascii c in
      ((if (128 <=? b)%nat && (b <? 192)%nat then 0 else 1)
       + (if (240 <=? b)%nat then 1 else 0)
       + js_length rest)%nat
  end.

Definition length_between (lo hi : nat) (s : string) : bool :=
  ((lo <=? js_length s) && (js_length s <=? hi))%nat.

Definition is_digit (c : ascii) : bool :=
  ((48 <=? nat_of_ascii c) && (nat_of_ascii c <=? 57))%nat.

(** A matcher gives every rest of the input a match can leave. *)
Definition Matcher := string -> list string.

Fixpoint rx_digits_exactly (n : nat) : Matcher :=
  fun s =>
    match n with
    | O => [s]
    | S n' =>
        match s with
        | String c rest => if is_digit c then rx_digits_exactly n' rest else []
        | EmptyString => []
        end
    end.

(** [\d{lo,hi}]. *)
Definition rx_digits (lo hi : nat) : Matcher :=
  fun s => flat_map (fun n => rx_digits_exactly n s) (seq lo (S hi - lo)).

(** A literal character. *)
Definition rx_char (c : ascii) : Matcher :=
  fun s =>
    match s with
    | String c' rest => if Ascii.eqb c c' then [rest] else []
    | EmptyString => []
    end.

(** [c?]. *)
Definition rx_opt (c : ascii) : Matcher :=
  fun s => s :: rx_char c s.

Definition rx_seq (m1 m2 : Matcher) : Matcher :=
  fun s => flat_map m2 (m1 s).

(** [^ m $]. *)
Definition rx_test (m : Matcher) (s : string) : bool :=
  existsb (fun rest => String.eqb rest "") (m s).

(** [/^\d{5}$/]. *)
Definition postalCodeRegex : string -> bool :=
  rx_test (rx_digits 5 5).

(** [/^0\d{1,3}-?\d{3,4}-?\d{4}$/]. *)
Definition phoneNumberRegex : string -> bool :=
  rx_test
    (rx_seq (rx_char "0")
       (rx_seq (rx_digits 1 3)
          (rx_seq (rx_opt "-")
             (rx_seq (rx_digits 3 4)
                (rx_seq (rx_opt "-") (rx_digits 4 4)))))).

(** [val.replace(/-/g, "")]. *)
Fixpoint remove_hyphens (s : string) : string :=
  match s with
  | EmptyString => EmptyString
  | String c rest =>
      if Ascii.eqb c "-" then remove_hyphens rest
      else String c (remove_hyphens rest)
  end.

(** An optional string whose empty value is turned into [undefined]. *)
Definition blank_to_undefined (o : option string) : option string :=
  match o with
  | Some EmptyString => None
  | _ => o
  end.

Definition max_length_opt (hi : nat) (o : option string) : bool :=
  match o with
  | Some s => length_between 0 hi s
  | None => true
  end.

(** [shippingAddressSchema.safeParse]: the parsed value, or [None]. *)
Definition shippingAddressSchema (a : ShippingAddress)
  : option ShippingAddress :=
  if length_between 2 50 (customerName a)
     && length_between 5 200 (address a)
     && postalCodeRegex (postalCode a)
     && max_length_opt 200 (addressDetail a)
     && phoneNumberRegex (phoneNumber a)
  then Some (mkShippingAddress (customerName a) (address a)
               (remove_hyphens (postalCode a))
               (blank_to_undefined (addressDetail a))
               (remove_hyphens (phoneNumber a)))
  else None.

Definition orderNoteSchema (o : option string) : option (option string) :=
  if max_length_opt 500 o then Some (blank_to_undefined o) else None.

Definition createOrderSchema (i : CreateOrderInput)
  : option CreateOrderInput :=
  match shippingAddressSchema (shippingAddress i),
        orderNoteSchema (orderNote i) with
  | Some a, Some n => Some (mkCreateOrderInput a n)
  | _, _ => None
  end.

(** [confirmPaymentSchema.safeParse(...).success] of [actions/payment.ts]. *)
Definition confirmPaymentSchema (paymentKey orderId : string) (amount : float)
    (shipping : option ShippingAddress) (note : option string) : bool :=
  nonempty paymentKey
  && nonempty orderId
  && PrimFloat.ltb 0%float amount
  && match shipping with
     | None => true
     | Some a =>
         nonempty (customerName a) && nonempty (address a)
         && nonempty (postalCode a) && nonempty (phoneNumber a)
     end.

(** [orderNote || null]. *)
Definition note_or_null (o : option string) : option string :=
  blank_to_undefined o.

(** ** Order actions ([actions/order.ts]) *)

(** An element of [orderItems] before it is given its [order_id]. *)
Record OrderLine := mkOrderLine {
  ol_product_id : string;
  ol_product_name : string;
  ol_quantity : Z;
  ol_price : float
}.

(** The loop of [createOrder] over the cart: the first line that is not
    purchasable ends the action; the others add to the recomputed total and
    to [orderItems]. *)
Fixpoint check_lines (cartItems : list CartItem)
    (calculatedTotalAmount : float) (orderItems : list OrderLine)
  : Failure + (float * list OrderLine) :=
  match cartItems with
  | [] => inr (calculatedTotalAmount, orderItems)
  | cartItem :: rest =>
      let product := ci_products cartItem in
      if negb (is_active product) then
        inl (InactiveProduct (name product))
      else if stock_quantity product <? ci_quantity cartItem then
        inl (InsufficientStock (Some (name product))
               (stock_quantity product) (ci_quantity cartItem))
      else if stock_quantity product =? 0 then
        inl (OutOfStock (Some (name product)))
      else
        let itemTotal :=
          (price product * of_int (ci_quantity cartItem))%float in
        check_lines rest (calculatedTotalAmount + itemTotal)%float
          (orderItems ++
             [mkOrderLine (ci_product_id cartItem) (name product)
                (ci_quantity cartItem) (price product)])
  end.

Definition to_order_item (order_id : string) (l : OrderLine) : OrderItemRow :=
  mkOrderItemRow order_id (ol_product_id l) (ol_product_name l)
    (ol_quantity l) (ol_price l).

(** The rollback both order flows run when [order_items] cannot be
    written: [await supabase.from("orders").delete().eq("id", order.id)].
    The flows do not look at what the store answers: a delete the store
    refuses leaves the row where it is. *)
Definition rollback_order {R} (env : Env) (id : string) : M R unit :=
  emit (Write DeleteOrder) ;;;
  if store_error env DeleteOrder then ret tt
  else
    d <~ get_db ;;
    put_db (delete_order id d).

(** The row [createOrder] inserts into [orders], as the table holds it. *)
Definition pending_order (env : Env) (userId : string) (total : float)
    (validatedData : CreateOrderInput) : OrderRow :=
  let a := shippingAddress validatedData in
  mkOrderRow (gen_random_uuid env) userId (decimal_10_2 total) pending
    (mkShippingAddressJson None (address a) (postalCode a)
       (addressDetail a) (phoneNumber a))
    (note_or_null (orderNote validatedData)).

(** [createOrder(orderData)]; the answer is [(orderId, totalAmount)], both
    read from the row inserted. *)
Definition createOrder (env : Env) (orderData : CreateOrderInput)
  : Action (string * float) :=
  match auth env with
  | None => Return (Fail NotAuthenticated)
  | Some userId =>
    match createOrderSchema orderData with
    | None => Return (Fail InvalidInput)
    | Some validatedData =>
      d <~ get_db ;;
      match getCartItems env d with
      | CartFail _ => Return (Fail CartUnavailable)
      | CartOk cartItems cartTotalAmount =>
        when (length cartItems =? 0)%nat return_ Fail EmptyCart ;;;
        match check_lines cartItems 0%float [] with
        | inl e => Return (Fail e)
        | inr (calculatedTotalAmount, orderItems) =>
          when amount_differs calculatedTotalAmount cartTotalAmount
            return_ Fail AmountMismatch ;;;
          let order :=
            pending_order env userId calculatedTotalAmount validatedData in
          emit (Write InsertOrder) ;;;
          when store_error env InsertOrder
               || negb (order_insert_allowed order (orders d))
            return_ Fail OrderSaveFailed ;;;
          put_db (set_orders d (orders d ++ [order])) ;;;
          let orderItemsData := map (to_order_item (o_id order)) orderItems in
          emit (Write InsertOrderItems) ;;;
          if store_error env InsertOrderItems then
            rollback_order env (o_id order) ;;;
            Return (Fail OrderItemsSaveFailed)
          else
            d' <~ get_db ;;
            put_db (set_order_items d' (order_items d' ++ orderItemsData)) ;;;
            Return (Success (o_id order, o_total_amount order))
        end
      end
    end
  end.

Definition is_pending (s : OrderStatus) : bool :=
  match s with pending => true | _ => false end.

Definition set_status (s : OrderStatus) (o : OrderRow) : OrderRow :=
  mkOrderRow (o_id o) (o_clerk_id o) (o_total_amount o) s
    (o_shipping_address o) (o_order_note o).

(** [cancelOrder(orderId)]. *)
Definition cancelOrder (env : Env) (orderId : string) : Action unit :=
  match auth env with
  | None => Return (Fail NotAuthenticated)
  | Some userId =>
    d <~ get_db ;;
    let order :=
      if store_error env SelectOrder then None
      else single (filter (fun o => o_id o = orderId ∧ o_clerk_id o = userId)
                          (orders d)) in
    match order with
    | None => Return (Fail OrderNotFound)
    | Some order =>
      when negb (is_pending (o_status order)) return_ Fail InvalidState ;;;
      emit (Write UpdateOrder) ;;;
      when store_error env UpdateOrder return_ Fail CancelFailed ;;;
      put_db (set_orders d
                (map (fun o => if decide (o_id o = orderId
                                          ∧ o_clerk_id o = userId)
                               then set_status cancelled o else o)
                     (orders d))) ;;;
      Return (Success tt)
    end
  end.

(** ** Payment action ([actions/payment.ts]) *)

(** [confirmPaymentWithToss]: the gateway client is entered, and raises or
    hands back the gateway's answer. *)
Definition confirmPaymentWithToss {R} (env : Env)
    (paymentKey orderId : string) (amount : float) : M R TossOutcome :=
  emit (CallToss paymentKey orderId amount) ;;;
  ret (toss env paymentKey orderId amount).

Definition set_stock (q : Z) (p : ProductRow) : ProductRow :=
  mkProductRow (name p) (price p) q (is_active p).

(** Step 11, the stock loop: a line whose product cannot be read, or whose
    quantity is more than the stock read, is passed over. *)
Fixpoint decrement_stock {R} (env : Env) (orderItems : list OrderItemRow)
  : M R unit :=
  match orderItems with
  | [] => ret tt
  | orderItem :: rest =>
      let id := oi_product_id orderItem in
      d <~ get_db ;;
      match (if store_error env (SelectProduct id) then None
             else products d !! id) with
      | None => ret tt
      | Some product =>
          let newStock := stock_quantity product - oi_quantity orderItem in
          if newStock <? 0 then ret tt
          else
            emit (Write (UpdateProduct id)) ;;;
            if store_error env (UpdateProduct id) then ret tt
            else put_db (set_products d
                           (alter (set_stock newStock) id (products d)))
      end ;;;
      decrement_stock env rest
  end.

(** The [order_items] row of a cart line in the payment flow. *)
Definition payment_order_item (order_id : string) (item : CartItem)
  : OrderItemRow :=
  mkOrderItemRow order_id (ci_product_id item)
    (str_or (name (ci_products item)) "상품")
    (ci_quantity item)
    (num_or (price (ci_products item)) 0%float).

(** The [shipping_address] the payment flow stores. *)
Definition payment_shipping (userId : string) (s : option ShippingAddress)
  : ShippingAddressJson :=
  match s with
  | Some a =>
      mkShippingAddressJson (Some (customerName a)) (address a)
        (postalCode a)
        (Some (match addressDetail a with Some x => x | None => "" end))
        (phoneNumber a)
  | None => mkShippingAddressJson (Some userId) "" "" (Some "") ""
  end.

(** The row the payment flow inserts into [orders], as the table holds
    it. *)
Definition confirmed_order (env : Env) (userId : string) (total : float)
    (shipping : option ShippingAddress) (note : option string) : OrderRow :=
  mkOrderRow (gen_random_uuid env) userId (decimal_10_2 total) confirmed
    (payment_shipping userId shipping) (note_or_null note).

(** [confirmPaymentAndCreateOrder(paymentKey, orderId, amount,
    shippingAddress?, orderNote?)]; the answer is
    [(orderId, paymentKey, totalAmount)]. The order name the source builds
    with [generateOrderName] is used nowhere and is left out. *)
Definition confirmPaymentAndCreateOrder (env : Env)
    (paymentKey orderId : string) (amount : float)
    (shipping : option ShippingAddress) (note : option string)
  : Action (string * string * float) :=
  match auth env with
  | None => Return (Fail NotAuthenticated)
  | Some userId =>
    when negb (confirmPaymentSchema paymentKey orderId amount shipping note)
      return_ Fail InvalidInput ;;;
    d <~ get_db ;;
    match getCartItems env d with
    | CartFail _ => Return (Fail EmptyCart)
    | CartOk cartItems cartTotalAmount =>
      when (length cartItems =? 0)%nat return_ Fail EmptyCart ;;;
      when amount_differs amount cartTotalAmount
        return_ Fail AmountMismatch ;;;
      let outOfStockItems :=
        filter (fun item => stock_quantity (ci_products item) = 0)
               cartItems in
      when (0 <? length outOfStockItems)%nat
        return_ Fail (OutOfStock None) ;;;
      paymentResult <~ confirmPaymentWithToss env paymentKey orderId amount ;;
      match paymentResult with
      | TossThrows message => Return (Fail (Thrown message))
      | TossData status =>
        when negb (String.eqb status "DONE")
          return_ Fail PaymentNotApproved ;;;
        let order :=
          confirmed_order env userId cartTotalAmount shipping note in
        emit (Write InsertOrder) ;;;
        when store_error env InsertOrder
             || negb (order_insert_allowed order (orders d))
          return_ Fail OrderSaveFailed ;;;
        put_db (set_orders d (orders d ++ [order])) ;;;
        let orderItems := map (payment_order_item (o_id order)) cartItems in
        emit (Write InsertOrderItems) ;;;
        if store_error env InsertOrderItems then
          rollback_order env (o_id order) ;;;
          Return (Fail OrderItemsSaveFailed)
        else
          d' <~ get_db ;;
          put_db (set_order_items d' (order_items d' ++ orderItems)) ;;;
          decrement_stock env orderItems ;;;
          clearCartResult <~ clearCart env ;;
          Return (Success (o_id order, paymentKey, cartTotalAmount))
      end
    end
  end.

(** ** Reading a run *)

Definition outcome {A} (x : A * World) : A := fst x.
Definition final_db {A} (x : A * World) : Db := db (snd x).
Definition calls {A} (x : A * World) : list Event := trace (snd x).

Definition is_toss_call (e : Event) : bool :=
  match e with
  | CallToss _ _ _ => true
  | Write _ => false
  end.

(** How many times the gateway client was entered. *)
Definition gateway_calls (t : list Event) : nat :=
  length (List.filter is_toss_call t).

Definition is_write (e : Event) : bool :=
  match e with
  | CallToss _ _ _ => false
  | Write _ => true
  end.

(** What a step that cannot end the action leaves behind: it goes on, with
    the order tables as they were and only writes added to the trace. *)
Definition tail_step {R A} (res : (R + A) * World) (w : World) (a : A)
    (w' : World) : Prop :=
  res = (inr a, w')
  /\ orders (db w') = orders (db w)
  /\ order_items (db w') = order_items (db w)
  /\ exists t, trace w' = trace w ++ t /\ Forall (fun e => is_write e = true) t.

(** ** The runs of the payment action *)

Definition PaymentResult : Type := Result (string * string * float).

(** The checks the payment action makes before it enters the gateway
    client all pass. *)
Definition passes_checks (env : Env) (paymentKey orderId : string)
    (amount : float) (shipping : option ShippingAddress) (note : option string)
    (d : Db) (userId : string) (items : list CartItem) (total : float)
  : Prop :=
  auth env = Some userId
  /\ confirmPaymentSchema paymentKey orderId amount shipping note = true
  /\ getCartItems env d = CartOk items total
  /\ items <> []
  /\ amount_differs amount total = false
  /\ Forall (fun item => stock_quantity (ci_products item) <> 0) items.

(** The store after the rollback of the order [order] just inserted: the
    row is gone, unless the store refuses the delete. *)
Definition after_rollback (env : Env) (d : Db) (order : OrderRow) : Db :=
  if store_error env DeleteOrder then set_orders d (orders d ++ [order])
  else delete_order (o_id order) (set_orders d (orders d ++ [order])).

(** The store after both inserts of an order flow. *)
Definition with_order (d : Db) (order : OrderRow) (lines : list OrderItemRow)
  : Db :=
  mkDb (products d) (cart_items d) (orders d ++ [order])
       (order_items d ++ lines).

(** Every way a run of [confirmPaymentAndCreateOrder] from the store [d]
    can go, with what it answers, the store it leaves and the calls it
    made. *)
Inductive PaymentRun (env : Env) (paymentKey orderId : string)
    (amount : float) (shipping : option ShippingAddress) (note : option string)
    (d : Db) : PaymentResult * World -> Prop :=
| pay_not_authenticated :
    auth env = None ->
    PaymentRun env paymentKey orderId amount shipping note d
      (Fail NotAuthenticated, mkWorld d [])
| pay_invalid_input userId :
    auth env = Some userId ->
    confirmPaymentSchema paymentKey orderId amount shipping note = false ->
    PaymentRun env paymentKey orderId amount shipping note d
      (Fail InvalidInput, mkWorld d [])
| pay_cart_unavailable userId e :
    auth env = Some userId ->
    getCartItems env d = CartFail e ->
    PaymentRun env paymentKey orderId amount shipping note d
      (Fail EmptyCart, mkWorld d [])
| pay_empty_cart userId total :
    auth env = Some userId ->
    getCartItems env d = CartOk [] total ->
    PaymentRun env paymentKey orderId amount shipping note d
      (Fail EmptyCart, mkWorld d [])
| pay_amount_mismatch userId items total :
    auth env = Some userId ->
    getCartItems env d = CartOk items total ->
    items <> [] ->
    amount_differs amount total = true ->
    PaymentRun env paymentKey orderId amount shipping note d
      (Fail AmountMismatch, mkWorld d [])
| pay_out_of_stock userId items total item :
    auth env = Some userId ->
    getCartItems env d = CartOk items total ->
    amount_differs amount total = false ->
    In item items ->
    stock_quantity (ci_products item) = 0 ->
    PaymentRun env paymentKey orderId amount shipping note d
      (Fail (OutOfStock None), mkWorld d [])
| pay_gateway_threw userId items total message :
    passes_checks env paymentKey orderId amount shipping note d
      userId items total ->
    toss env paymentKey orderId amount = TossThrows message ->
    PaymentRun env paymentKey orderId amount shipping note d
      (Fail (Thrown message),
       mkWorld d [CallToss paymentKey orderId amount])
| pay_not_approved userId items total status :
    passes_checks env paymentKey orderId amount shipping note d
      userId items total ->
    toss env paymentKey orderId amount = TossData status ->
    status <> "DONE" ->
    PaymentRun env paymentKey orderId amount shipping note d
      (Fail PaymentNotApproved,
       mkWorld d [CallToss paymentKey orderId amount])
| pay_order_not_saved userId items total :
    passes_checks env paymentKey orderId amount shipping note d
      userId items total ->
    toss env paymentKey orderId amount = TossData "DONE" ->
    store_error env InsertOrder
    || negb (order_insert_allowed
               (confirmed_order env userId total shipping note) (orders d))
    = true ->
    PaymentRun env paymentKey orderId amount shipping note d
      (Fail OrderSaveFailed,
       mkWorld d [CallToss paymentKey orderId amount; Write InsertOrder])
| pay_lines_not_saved userId items total :
    passes_checks env paymentKey orderId amount shipping note d
      userId items total ->
    toss env paymentKey orderId amount = TossData "DONE" ->
    store_error env InsertOrder = false ->
    order_insert_allowed
      (confirmed_order env userId total shipping note) (orders d) = true ->
    store_error env InsertOrderItems = true ->
    PaymentRun env paymentKey orderId amount shipping note d
      (Fail OrderItemsSaveFailed,
       mkWorld
         (after_rollback env d (confirmed_order env userId total shipping note))
         [CallToss paymentKey orderId amount; Write InsertOrder;
          Write InsertOrderItems; Write DeleteOrder])
| pay_done userId items total w2 cleared w3 :
    passes_checks env paymentKey orderId amount shipping note d
      userId items total ->
    toss env paymentKey orderId amount = TossData "DONE" ->
    store_error env InsertOrder = false ->
    order_insert_allowed
      (confirmed_order env userId total shipping note) (orders d) = true ->
    store_error env InsertOrderItems = false ->
    @decrement_stock PaymentResult env
      (map (payment_order_item (gen_random_uuid env)) items)
      (mkWorld
         (with_order d (confirmed_order env userId total shipping note)
            (map (payment_order_item (gen_random_uuid env)) items))
         [CallToss paymentKey orderId amount; Write InsertOrder;
          Write InsertOrderItems])
    = (inr tt, w2) ->
    @clearCart PaymentResult env w2 = (inr cleared, w3) ->
    PaymentRun env paymentKey orderId amount shipping note d
      (Success (gen_random_uuid env, paymentKey, total), w3).

(** ** Sample data *)

Definition sample_product : ProductRow := mkProductRow "P1" 10000%float 5 true.

(** The store of the spec's scenarios A, C and D: the cart of [user_1] is
    two units of [P1], worth 20000; another user has an order. *)
Definition sample_db : Db :=
  mkDb (<["p1" := sample_product]> ∅)
       [mkCartRow "c1" "user_1" "p1" 2]
       [mkOrderRow "o0" "user_2" 1000%float pending
          (mkShippingAddressJson None "" "" None "") None]
       [].

(** Nothing is refused and the gateway approves. *)
Definition env_ok (new_id : string) : Env :=
  mkEnv (Some "user_1") new_id (fun _ => false) (fun _ _ _ => TossData "DONE").

(** The gateway approves; every read and write of the stock loop and the
    cart clear are refused by the store. *)
Definition env_tail_fails (new_id : string) : Env :=
  mkEnv (Some "user_1") new_id
    (fun c => match c with
              | SelectProduct _ | UpdateProduct _ | DeleteCartItems => true
              | _ => false
              end)
    (fun _ _ _ => TossData "DONE").

(** ** The runs of the order action *)

Definition OrderResult : Type := Result (string * float).

(** Every way a run of [createOrder] from the store [d] can go. *)
Inductive OrderRun (env : Env) (orderData : CreateOrderInput) (d : Db)
  : OrderResult * World -> Prop :=
| ord_not_authenticated :
    auth env = None ->
    OrderRun env orderData d (Fail NotAuthenticated, mkWorld d [])
| ord_invalid_input userId :
    auth env = Some userId ->
    createOrderSchema orderData = None ->
    OrderRun env orderData d (Fail InvalidInput, mkWorld d [])
| ord_cart_unavailable userId e :
    auth env = Some userId ->
    getCartItems env d = CartFail e ->
    OrderRun env orderData d (Fail CartUnavailable, mkWorld d [])
| ord_empty_cart userId total :
    auth env = Some userId ->
    getCartItems env d = CartOk [] total ->
    OrderRun env orderData d (Fail EmptyCart, mkWorld d [])
| ord_line_rejected userId items total e :
    auth env = Some userId ->
    getCartItems env d = CartOk items total ->
    items <> [] ->
    check_lines items 0%float [] = inl e ->
    OrderRun env orderData d (Fail e, mkWorld d [])
| ord_amount_mismatch userId items total calculated lines :
    auth env = Some userId ->
    getCartItems env d = CartOk items total ->
    check_lines items 0%float [] = inr (calculated, lines) ->
    amount_differs calculated total = true ->
    OrderRun env orderData d (Fail AmountMismatch, mkWorld d [])
| ord_not_saved userId validated items total calculated lines :
    auth env = Some userId ->
    createOrderSchema orderData = Some validated ->
    getCartItems env d = CartOk items total ->
    items <> [] ->
    check_lines items 0%float [] = inr (calculated, lines) ->
    amount_differs calculated total = false ->
    store_error env InsertOrder
    || negb (order_insert_allowed
               (pending_order env userId calculated validated) (orders d))
    = true ->
    OrderRun env orderData d
      (Fail OrderSaveFailed, mkWorld d [Write InsertOrder])
| ord_lines_not_saved userId validated items total calculated lines :
    auth env = Some userId ->
    createOrderSchema orderData = Some validated ->
    getCartItems env d = CartOk items total ->
    items <> [] ->
    check_lines items 0%float [] = inr (calculated, lines) ->
    amount_differs calculated total = false ->
    store_error env InsertOrder = false ->
    order_insert_allowed
      (pending_order env userId calculated validated) (orders d) = true ->
    store_error env InsertOrderItems = true ->
    OrderRun env orderData d
      (Fail OrderItemsSaveFailed,
       mkWorld
         (after_rollback env d (pending_order env userId calculated validated))
         [Write InsertOrder; Write InsertOrderItems; Write DeleteOrder])
| ord_done userId validated items total calculated lines :
    auth env = Some userId ->
    createOrderSchema orderData = Some validated ->
    getCartItems env d = CartOk items total ->
    items <> [] ->
    check_lines items 0%float [] = inr (calculated, lines) ->
    amount_differs calculated total = false ->
    store_error env InsertOrder = false ->
    order_insert_allowed
      (pending_order env userId calculated validated) (orders d) = true ->
    store_error env InsertOrderItems = false ->
    OrderRun env orderData d
      (Success (gen_random_uuid env, decimal_10_2 calculated),
       mkWorld
         (with_order d (pending_order env userId calculated validated)
            (map (to_order_item (gen_random_uuid env)) lines))
         [Write InsertOrder; Write InsertOrderItems]).

(** A shipping form that passes [createOrderSchema]. *)
Definition sample_order_input : CreateOrderInput :=
  mkCreateOrderInput
    (mkShippingAddress "Hong Gildong" "1 Sejong-daero, Seoul" "04524" None
       "010-1234-5678")
    None.

(** The store refuses the [order_items] insert. *)
Definition env_lines_refused (new_id : string) : Env :=
  mkEnv (Some "user_1") new_id
    (fun c => match c with InsertOrderItems => true | _ => false end)
    (fun _ _ _ => TossData "DONE").

(** The store refuses the [order_items] insert and, after it, the delete of
    the rollback. *)
Definition env_rollback_refused (new_id : string) : Env :=
  mkEnv (Some "user_1") new_id
    (fun c => match c with
              | InsertOrderItems | DeleteOrder => true
              | _ => false
              end)
    (fun _ _ _ => TossData "DONE").

(** The cart of [user_1] is one unit of a product that is sold out. *)
Definition sold_out_db : Db :=
  mkDb (<["p1" := mkProductRow "P1" 10000%float 0 true]> ∅)
       [mkCartRow "c1" "user_1" "p1" 1] [] [].

(** ** The cart as the order flows see it *)

(** The element of [validCartItems] a retrieved line gives, if any. *)
Definition valid_item (row : CartRow * option ProductRow) : option CartItem :=
  match row with
  | (item, Some p) =>
      if is_active p then
        Some (mkCartItem (cr_id item) (cr_clerk_id item) (cr_product_id item)
                (cr_quantity item) p)
      else None
  | (_, None) => None
  end.

(** [Number(product.price) * item.quantity]. *)
Definition line_total (item : CartItem) : float :=
  (price (ci_products item) * of_int (ci_quantity item))%float.

(** The running total of the loops: binary64 additions, left to right. *)
Definition float_sum (items : list CartItem) (start : float) : float :=
  fold_left (fun acc item => (acc + line_total item)%float) items start.

(** The order line [createOrder] derives from a cart line. *)
Definition order_line (item : CartItem) : OrderLine :=
  mkOrderLine (ci_product_id item) (name (ci_products item))
    (ci_quantity item) (price (ci_products item)).

(** ** Stock *)

(** The stock count of a product, if the product exists. *)
Definition stock_of (d : Db) (id : string) : option Z :=
  stock_quantity <$> products d !! id.

(** The invariant of [products.stock_quantity]
    ([CHECK (stock_quantity >= 0)]). *)
Definition non_negative_stock (ps : gmap string ProductRow) : Prop :=
  forall id p, ps !! id = Some p -> 0 <= stock_quantity p.

(** What one turn of the stock loop makes of [products]. *)
Definition decrement_line (env : Env) (ps : gmap string ProductRow)
    (line : OrderItemRow) : gmap string ProductRow :=
  let id := oi_product_id line in
  match (if store_error env (SelectProduct id) then None else ps !! id) with
  | None => ps
  | Some product =>
      let newStock := stock_quantity product - oi_quantity line in
      if newStock <? 0 then ps
      else if store_error env (UpdateProduct id) then ps
           else alter (set_stock newStock) id ps
  end.

(** The cart of [user_1] holds a line of a deactivated product and two
    units of [P1]. *)
Definition deactivated_line_db : Db :=
  mkDb (<["p2" := mkProductRow "P2" 5000%float 3 false]>
          (<["p1" := sample_product]> ∅))
       [mkCartRow "c2" "user_1" "p2" 1; mkCartRow "c1" "user_1" "p1" 2]
       [] [].

(** The cart of [user_1] asks for two units of a product of which one is
    left. *)
Definition short_stock_db : Db :=
  mkDb (<["p1" := mkProductRow "P1" 10000%float 1 true]> ∅)
       [mkCartRow "c1" "user_1" "p1" 2] [] [].

(** Two products in stock, and the lines of an order of two units of the
    first and three of the second. *)
Definition two_products_db : Db :=
  mkDb (<["p2" := mkProductRow "P2" 5000%float 7 true]>
          (<["p1" := sample_product]> ∅))
       [] [] [].

Definition two_lines : list OrderItemRow :=
  [mkOrderItemRow "o1" "p1" "P1" 2 10000%float;
   mkOrderItemRow "o1" "p2" "P2" 3 5000%float].

(** The store refuses to read the row of [p1], and nothing else. *)
Definition env_p1_unreadable : Env :=
  mkEnv (Some "user_1") "o1"
    (fun c => match c with
              | SelectProduct id => String.eqb id "p1"
              | _ => false
              end)
    (fun _ _ _ => TossData "DONE").


(** ** Cancellation *)

(** An order of [user_1] that awaits payment and one that is paid. *)
Definition orders_db : Db :=
  mkDb (<["p1" := sample_product]> ∅) []
       [mkOrderRow "o1" "user_1" 20000%float pending
          (mkShippingAddressJson None "" "" None "") None;
        mkOrderRow "o2" "user_1" 10000%float confirmed
          (mkShippingAddressJson None "" "" None "") None]
       [mkOrderItemRow "o1" "p1" "P1" 2 10000%float;
        mkOrderItemRow "o2" "p1" "P1" 1 10000%float].

(** The update of [cancelOrder]. *)
Definition cancel_rows (orderId userId : string) (rows : list OrderRow)
  : list OrderRow :=
  map (fun o => if decide (o_id o = orderId ∧ o_clerk_id o = userId)
                then set_status cancelled o else o) rows.

(** ** Whole numbers in binary64 *)

(** [p * 2^k]. *)
Definition shl (p : positive) (k : nat) : positive := Nat.iter k xO p.

(** The binary64 value of a whole number, in the specification of the
    primitive floats. *)
Definition SFZ (z : Z) : spec_float := binary_normalize prec emax z 0 false.

(** The exact total of a cart whose unit prices are the whole numbers
    [whole]. *)
Definition exact_total (whole : CartItem -> Z) (items : list CartItem) : Z :=
  fold_right (fun item acc => whole item * ci_quantity item + acc) 0 items.

(** The cart of [user_1] is three units of a product that costs 0.10. *)
Definition fractional_price_db : Db :=
  mkDb (<["p1" := mkProductRow "P1" 0.1%float 10 true]> ∅)
       [mkCartRow "c1" "user_1" "p1" 3] [] [].

(** ** Line-level cart actions ([actions/cart.ts]) *)

(** The [error] of [updateCartItemQuantity] and [removeFromCart]: one
    constructor for each message they can answer with. *)
Inductive CartLineFailure :=
| LineNotAuthenticated
| LineInvalidQuantity
| LineInvalidItem
| LineNotFound
| LineProductUnavailable
| LineProductNotOnSale
| LineInsufficientStock (stock : Z)
| LineUpdateFailed
| LineDeleteFailed.

Inductive CartLineResult (A : Type) :=
| LineOk (data : A)
| LineFail (error : CartLineFailure).
Arguments LineOk {A} data.
Arguments LineFail {A} error.

Definition CartLineAction (A : Type) : Type :=
  M (CartLineResult A) (CartLineResult A).

(** [from("cart_items")....eq("id", cartItemId).eq("clerk_id", userId)]:
    the rows both line-level actions address. *)
Definition select_cart_line (cartItemId userId : string)
    (rows : list CartRow) : list CartRow :=
  filter (fun r => cr_id r = cartItemId ∧ cr_clerk_id r = userId) rows.

(** [delete().eq("id", cartItemId).eq("clerk_id", userId)]. *)
Definition delete_cart_line (cartItemId userId : string)
    (rows : list CartRow) : list CartRow :=
  filter (fun r => ¬ (cr_id r = cartItemId ∧ cr_clerk_id r = userId)) rows.

(** [updateCartItemQuantity(cartItemId, newQuantity)]. [newQuantity] is an
    integer by its type here. The answer is the line's [(id, quantity)] as
    the update hands it back. *)
Definition updateCartItemQuantity (env : Env) (cartItemId : string)
    (newQuantity : Z) : CartLineAction (string * Z) :=
  match auth env with
  | None => Return (LineFail LineNotAuthenticated)
  | Some userId =>
    when newQuantity <? 1 return_ LineFail LineInvalidQuantity ;;;
    d <~ get_db ;;
    let cartItem :=
      if store_error env SelectCartItem then None
      else single (select_cart_line cartItemId userId (cart_items d)) in
    match cartItem with
    | None => Return (LineFail LineNotFound)
    | Some cartItem =>
      let product :=
        if store_error env (SelectProduct (cr_product_id cartItem)) then None
        else products d !! cr_product_id cartItem in
      match product with
      | None => Return (LineFail LineProductUnavailable)
      | Some product =>
        when negb (is_active product) return_ LineFail LineProductNotOnSale ;;;
        when stock_quantity product <? newQuantity
          return_ LineFail (LineInsufficientStock (stock_quantity product)) ;;;
        emit (Write UpdateCartItem) ;;;
        when store_error env UpdateCartItem return_ LineFail LineUpdateFailed ;;;
        let rows :=
          update_cart_quantity cartItemId userId newQuantity (cart_items d) in
        match single (select_cart_line cartItemId userId rows) with
        | None => Return (LineFail LineUpdateFailed)
        | Some data =>
            put_db (set_cart_items d rows) ;;;
            Return (LineOk (cr_id data, cr_quantity data))
        end
      end
    end
  end.

(** [removeFromCart(cartItemId)]. The select that precedes the delete is
    read for its [data] only. *)
Definition removeFromCart (env : Env) (cartItemId : string)
  : CartLineAction unit :=
  match auth env with
  | None => Return (LineFail LineNotAuthenticated)
  | Some userId =>
    when negb (nonempty cartItemId) return_ LineFail LineInvalidItem ;;;
    d <~ get_db ;;
    let cartItem :=
      if store_error env SelectCartItem then None
      else single (select_cart_line cartItemId userId (cart_items d)) in
    match cartItem with
    | None => Return (LineFail LineNotFound)
    | Some _ =>
      emit (Write DeleteCartItems) ;;;
      when store_error env DeleteCartItems return_ LineFail LineDeleteFailed ;;;
      put_db (set_cart_items d
                (delete_cart_line cartItemId userId (cart_items d))) ;;;
      Return (LineOk tt)
    end
  end.

(** The constraints of [cart_items]: the primary key,
    [UNIQUE(clerk_id, product_id)] and [CHECK (quantity > 0)]. *)
Definition cart_constraints (rows : list CartRow) : Prop :=
  NoDup (map cr_id rows)
  /\ NoDup (map (fun r => (cr_clerk_id r, cr_product_id r)) rows)
  /\ Forall (fun r => 0 < cr_quantity r) rows.

(** The lines of [userId] in [cart_items]. *)
Definition lines_of (userId : string) (rows : list CartRow) : list CartRow :=
  filter (fun r => cr_clerk_id r = userId) rows.

(** The number the cart badge shows ([hooks/use-cart-count.ts]): the count
    of the caller's rows of [cart_items], [0] when nobody is signed in or
    the store answers with an error. *)
Definition useCartCount (env : Env) (d : Db) : nat :=
  match auth env with
  | None => 0%nat
  | Some userId =>
      if store_error env SelectCartItems then 0%nat
      else length (lines_of userId (cart_items d))
  end.

(** ** Reading orders ([actions/order.ts]) *)

(** The [error] of [getOrder] and [getOrders]. *)
Inductive OrderReadFailure :=
| ReadNotAuthenticated
| ReadNotFound
| ReadUnavailable.

(** The [Order] that [getOrder] answers with; its [order_items] carry
    [product_id], [product_name], [quantity] and [price]. *)
Record Order := mkOrder {
  ord_id : string;
  ord_clerk_id : string;
  ord_total_amount : float;
  ord_status : OrderStatus;
  ord_shipping_address : ShippingAddressJson;
  ord_order_note : option string;
  ord_order_items : list OrderLine
}.

Inductive GetOrderResult :=
| OrderOk (data : Order)
| OrderFail (error : OrderReadFailure).

(** An embedded [order_items] row as [getOrder] maps it. *)
Definition order_item_view (i : OrderItemRow) : OrderLine :=
  mkOrderLine (oi_product_id i) (oi_product_name i) (oi_quantity i)
    (oi_price i).

(** [getOrder(orderId)]: the caller's order with its lines. [.single()]
    answers zero or several rows with the error code [PGRST116]; any other
    error is the store's. *)
Definition getOrder (env : Env) (orderId : string) (d : Db)
  : GetOrderResult :=
  match auth env with
  | None => OrderFail ReadNotAuthenticated
  | Some userId =>
      if store_error env SelectOrder then OrderFail ReadUnavailable
      else
        match single (filter (fun o => o_id o = orderId ∧ o_clerk_id o = userId)
                             (orders d)) with
        | None => OrderFail ReadNotFound
        | Some order =>
            OrderOk
              (mkOrder (o_id order) (o_clerk_id order) (o_total_amount order)
                 (o_status order) (o_shipping_address order)
                 (o_order_note order)
                 (map order_item_view
                    (filter (fun i => oi_order_id i = o_id order)
                            (order_items d))))
        end
  end.

(** What the foreign key of [order_items] and the primary key of [orders]
    keep: order identifiers are unique and every line belongs to an
    order. *)
Definition orders_consistent (d : Db) : Prop :=
  NoDup (map o_id (orders d))
  /\ forall i, In i (order_items d) -> In (oi_order_id i) (map o_id (orders d)).

(** Nothing is refused; the caller is [user_2]. *)
Definition env_user_2 : Env :=
  mkEnv (Some "user_2") "-" (fun _ => false) (fun _ _ _ => TossData "DONE").

(** An element of the list [getOrders] answers with. *)
Record OrderSummary := mkOrderSummary {
  os_id : string;
  os_clerk_id : string;
  os_total_amount : float;
  os_status : OrderStatus
}.

Inductive GetOrdersResult :=
| OrdersOk (data : list OrderSummary)
| OrdersFail (error : OrderReadFailure).

Definition order_summary (o : OrderRow) : OrderSummary :=
  mkOrderSummary (o_id o) (o_clerk_id o) (o_total_amount o) (o_status o).

(** [getOrders()]: the caller's orders, newest first. [orders] holds its
    rows oldest first, the order in which the order flows append them, so
    [created_at] descending is the reverse. *)
Definition getOrders (env : Env) (d : Db) : GetOrdersResult :=
  match auth env with
  | None => OrdersFail ReadNotAuthenticated
  | Some userId =>
      if store_error env SelectOrder then OrdersFail ReadUnavailable
      else OrdersOk
             (map order_summary
                (rev (filter (fun o => o_clerk_id o = userId) (orders d))))
  end.

(** ** Digits *)

(** Every character of [s] is one of [0] to [9]. *)
Fixpoint all_digits (s : string) : bool :=
  match s with
  | EmptyString => true
  | String c rest => is_digit c && all_digits rest
  end.

(** * Properties *)

(** ** The trace *)

Lemma gateway_calls_app (t1 t2 : list Event) :
  gateway_calls (t1 ++ t2) = (gateway_calls t1 + gateway_calls t2)%nat.
Proof.
  unfold gateway_calls. now rewrite List.filter_app, length_app.
Qed.

Lemma gateway_calls_writes (t : list Event) :
  Forall (fun e => is_write e = true) t -> gateway_calls t = 0%nat.
Proof.
  induction 1 as [|e t He _ IH]; [reflexivity|].
  destruct e; [discriminate He|exact IH].
Qed.

(** ** The best-effort tail of the payment flow *)

Lemma tail_step_emit {R A} (res : (R + A) * World) (w : World) (c : StoreCall)
    (a : A) (w' : World) :
  tail_step res (mkWorld (db w) (trace w ++ [Write c])) a w' ->
  tail_step res w a w'.
Proof.
  intros (Hrun & Ho & Hi & t & Ht & Hw). cbn in *.
  repeat split; try assumption.
  exists (Write c :: t). split; [now rewrite Ht, <- app_assoc|].
  constructor; [reflexivity|assumption].
Qed.

Lemma decrement_stock_tail {R} (env : Env) (items : list OrderItemRow) :
  forall w, exists w',
    tail_step (@decrement_stock R env items w) w tt w'
    /\ cart_items (db w') = cart_items (db w).
Proof.
  induction items as [|item rest IH]; intros w.
  - exists w. repeat split. exists []. split; [now rewrite app_nil_r|constructor].
  - cbn [decrement_stock]. unfold bind at 1. cbn [get_db].
    unfold bind at 1.
    destruct (if store_error env (SelectProduct (oi_product_id item))
              then None else products (db w) !! oi_product_id item)
      as [product|].
    + destruct (stock_quantity product - oi_quantity item <? 0).
      * cbn [ret]. apply IH.
      * unfold bind at 1. cbn [emit].
        destruct (store_error env (UpdateProduct (oi_product_id item)));
          cbn [ret put_db].
        -- match goal with |- context [decrement_stock env rest ?w0] =>
             destruct (IH w0) as (w' & Hstep & Hc)
           end.
           exists w'. split; [|exact Hc].
           eapply tail_step_emit. exact Hstep.
        -- match goal with |- context [decrement_stock env rest ?w0] =>
             destruct (IH w0) as (w' & Hstep & Hc)
           end.
           exists w'. split; [|exact Hc].
           eapply (tail_step_emit _ w). exact Hstep.
    + cbn [ret]. apply IH.
Qed.

Lemma clearCart_tail {R} (env : Env) :
  forall w, exists r w',
    tail_step (@clearCart R env w) w r w'
    /\ products (db w') = products (db w).
Proof.
  intros w. unfold clearCart, tail_step.
  destruct (auth env) as [userId|].
  - unfold bind at 1. cbn [emit].
    destruct (store_error env DeleteCartItems).
    + eexists _, _. cbn. repeat split.
      exists [Write DeleteCartItems]. split; [reflexivity|].
      repeat constructor.
    + eexists _, _. cbn. repeat split.
      exists [Write DeleteCartItems]. split; [reflexivity|].
      repeat constructor.
  - eexists _, _. cbn. repeat split.
    exists []. split; [now rewrite app_nil_r|constructor].
Qed.


(** ** Payment reconciliation *)

Ltac exec :=
  cbv [run bind ret Return get_db put_db emit outcome final_db calls
       confirmPaymentWithToss rollback_order];
  cbn [fst snd db trace negb app].

Lemma no_sold_out_line (items : list CartItem) :
  filter (fun item => stock_quantity (ci_products item) = 0) items = [] ->
  Forall (fun item => stock_quantity (ci_products item) <> 0) items.
Proof.
  intros Hfilter. apply Forall_forall. intros item Hin Hz.
  assert (item ∈ filter (fun item => stock_quantity (ci_products item) = 0) items)
    as Hbad by (apply list_elem_of_filter; split; [exact Hz|exact Hin]).
  rewrite Hfilter in Hbad. inversion Hbad.
Qed.

Lemma confirmPayment_run (env : Env) (paymentKey orderId : string)
    (amount : float) (shipping : option ShippingAddress) (note : option string)
    (d : Db) :
  PaymentRun env paymentKey orderId amount shipping note d
    (run (confirmPaymentAndCreateOrder env paymentKey orderId amount
            shipping note) d).
Proof.
  unfold confirmPaymentAndCreateOrder.
  destruct (auth env) as [userId|] eqn:Hauth;
    [|exec; now apply pay_not_authenticated].
  destruct (confirmPaymentSchema paymentKey orderId amount shipping note)
    eqn:Hschema; [|exec; eapply pay_invalid_input; eassumption].
  exec.
  destruct (getCartItems env d) as [items total|e] eqn:Hcart;
    [|exec; eapply pay_cart_unavailable; eassumption].
  destruct items as [|item0 items0];
    [exec; eapply pay_empty_cart; eassumption|].
  cbn [length Nat.eqb].
  set (items := item0 :: items0) in *.
  assert (items <> []) as Hne by discriminate.
  destruct (amount_differs amount total) eqn:Hamount;
    [exec; eapply pay_amount_mismatch; eassumption|].
  destruct (filter (fun item => stock_quantity (ci_products item) = 0) items)
    as [|bad rest] eqn:Hfilter; cbn [length Nat.ltb Nat.leb].
  2:{ exec.
      assert (bad ∈ filter (fun item => stock_quantity (ci_products item) = 0) items)
        as Hbad by (rewrite Hfilter; left).
      apply list_elem_of_filter in Hbad as [Hz Hin].
      apply list_elem_of_In in Hin.
      eapply pay_out_of_stock; eassumption. }
  apply no_sold_out_line in Hfilter.
  assert (passes_checks env paymentKey orderId amount shipping note d
            userId items total) as Hpass by (repeat split; assumption).
  exec.
  destruct (toss env paymentKey orderId amount) as [message|status] eqn:Htoss;
    [eapply pay_gateway_threw; eassumption|].
  destruct (String.eqb status "DONE") eqn:Hstatus; cbn [negb].
  2:{ apply String.eqb_neq in Hstatus.
      eapply pay_not_approved; eassumption. }
  apply String.eqb_eq in Hstatus. subst status.
  destruct (store_error env InsertOrder
            || negb (order_insert_allowed
                       (confirmed_order env userId total shipping note) (orders d)))
    eqn:Hinsert;
    [eapply pay_order_not_saved; eassumption|].
  apply orb_false_iff in Hinsert as [Hfault Hpk].
  apply negb_false_iff in Hpk.
  destruct (store_error env InsertOrderItems) eqn:Hlines.
  { pose proof (pay_lines_not_saved env paymentKey orderId amount shipping note
                  d userId items total Hpass Htoss Hfault Hpk Hlines) as Hrun.
    unfold after_rollback in Hrun.
    destruct (store_error env DeleteOrder); exact Hrun. }
  exec. cbn [confirmed_order o_id].
  match goal with |- context [@decrement_stock ?R env ?l ?w] =>
    destruct (decrement_stock_tail (R := R) env l w)
      as (w2 & (Hdec & _) & _);
    rewrite Hdec;
    destruct (clearCart_tail (R := R) env w2)
      as (cleared & w3 & (Hclear & _) & _);
    rewrite Hclear
  end.
  eapply pay_done; eassumption.
Qed.

Lemma order_insert_allowed_spec (o : OrderRow) (rows : list OrderRow) :
  order_insert_allowed o rows = true <->
  forall o', In o' rows -> o_id o' <> o_id o.
Proof.
  unfold order_insert_allowed. rewrite forallb_forall.
  split; intros H o' Hin.
  - apply H in Hin. apply negb_true_iff in Hin. now apply String.eqb_neq.
  - apply negb_true_iff, String.eqb_neq. now apply H.
Qed.

(** What the best-effort tail leaves of the order tables and adds to the
    trace. *)
Lemma payment_tail {R} (env : Env) (lines : list OrderItemRow) (w0 w2 w3 : World)
    (cleared : Result unit) :
  @decrement_stock R env lines w0 = (inr tt, w2) ->
  @clearCart R env w2 = (inr cleared, w3) ->
  orders (db w3) = orders (db w0)
  /\ order_items (db w3) = order_items (db w0)
  /\ exists t, trace w3 = trace w0 ++ t
               /\ Forall (fun e => is_write e = true) t.
Proof.
  intros Hdec Hclear.
  destruct (decrement_stock_tail (R := R) env lines w0)
    as (w2' & (Hdec' & Ho2 & Hi2 & t2 & Ht2 & Hw2) & _).
  rewrite Hdec in Hdec'. injection Hdec' as <-.
  destruct (clearCart_tail (R := R) env w2)
    as (r' & w3' & (Hclear' & Ho3 & Hi3 & t3 & Ht3 & Hw3) & _).
  rewrite Hclear in Hclear'. injection Hclear' as <- <-.
  repeat split; [congruence|congruence|].
  exists (t2 ++ t3). split.
  - now rewrite Ht3, Ht2, app_assoc.
  - now apply Forall_app.
Qed.

(** The gateway client is entered at most once, and exactly on the runs
    that pass every check. *)
Lemma PaymentRun_gateway (env : Env) (paymentKey orderId : string)
    (amount : float) (shipping : option ShippingAddress) (note : option string)
    (d : Db) (x : PaymentResult * World) :
  PaymentRun env paymentKey orderId amount shipping note d x ->
  (gateway_calls (calls x) = 0%nat /\ final_db x = d /\ calls x = [])
  \/ (gateway_calls (calls x) = 1%nat
      /\ exists userId items total,
           passes_checks env paymentKey orderId amount shipping note d
             userId items total).
Proof.
  destruct 1; try (left; repeat split; reflexivity);
    right; (split; [|eauto]); try reflexivity.
  match goal with
  | Hd : decrement_stock _ _ _ = _, Hc : clearCart _ _ = _ |- _ =>
      destruct (payment_tail _ _ _ _ _ _ Hd Hc) as (_ & _ & t & Ht & Hw)
  end.
  unfold calls. cbn [snd]. rewrite Ht. cbn [trace].
  rewrite gateway_calls_app, (gateway_calls_writes t Hw). reflexivity.
Qed.

(** The tests that do guard the gateway client, and the rejection after
    it. In every run of [confirmPaymentAndCreateOrder] the gateway client
    is not entered when one of the three tests the action itself makes
    fails: the cart is empty, a line's product has stock 0, or the amount
    is more than 0.01 away from the cart total just computed. These are
    not all the tests of the cart validation: that a line asks for no more
    than the stock left is not among them. And when the gateway client was
    entered and the gateway answered a status other than [DONE], the answer
    is [PaymentNotApproved], the store is the one the run started from and
    the gateway call is the only outward call made. *)
Lemma gateway_guarded_and_rejection_clean (env : Env)
    (paymentKey orderId : string) (amount : float)
    (shipping : option ShippingAddress) (note : option string) (d : Db) :
  let x := run (confirmPaymentAndCreateOrder env paymentKey orderId amount
                  shipping note) d in
  ((forall items total,
       getCartItems env d = CartOk items total ->
       items = []
       \/ (exists item, In item items
                        /\ stock_quantity (ci_products item) = 0)
       \/ amount_differs amount total = true) ->
   gateway_calls (calls x) = 0%nat)
  /\
  (forall status,
      gateway_calls (calls x) <> 0%nat ->
      toss env paymentKey orderId amount = TossData status ->
      status <> "DONE" ->
      outcome x = Fail PaymentNotApproved
      /\ final_db x = d
      /\ calls x = [CallToss paymentKey orderId amount]).
Proof.
  intros x.
  pose proof (confirmPayment_run env paymentKey orderId amount shipping note d)
    as Hrun. fold x in Hrun.
  split.
  - intros Hinvalid.
    destruct (PaymentRun_gateway _ _ _ _ _ _ _ _ Hrun)
      as [(H0 & _)|(_ & userId & items & total & Hpass)]; [exact H0|].
    destruct Hpass as (_ & _ & Hcart & Hne & Hamount & Hstock).
    destruct (Hinvalid _ _ Hcart) as [Hempty|[(item & Hin & Hz)|Hdiff]].
    + contradiction.
    + rewrite Forall_forall in Hstock.
      apply list_elem_of_In in Hin. now apply Hstock in Hin.
    + congruence.
  - intros status Hcalled Htoss Hstatus.
    destruct Hrun; try (now contradiction Hcalled);
      try (repeat split; reflexivity); congruence.
Qed.

(** C1 (the code at the failing input). The cart of [short_stock_db] asks
    for two units of [P1], of which one is left, and the amount paid is the
    cart total. The validation of the cart that [createOrder] runs
    ([check_lines], which tests [quantity > stock_quantity] on every line)
    fails with [InsufficientStock], stock 1 and 2 requested, and
    [createOrder] answers that without a write. The payment action tests
    only for a stock of exactly 0: it enters the gateway client, once, and
    with the gateway's approval writes a [confirmed] order of two units,
    leaving the stock at 1. *)
Theorem payment_enters_gateway_past_insufficient_stock :
  let env := env_ok "o1" in
  let x := run (confirmPaymentAndCreateOrder env "pay_1" "tmp_1" 20000%float
                  None None) short_stock_db in
  let y := run (createOrder env sample_order_input) short_stock_db in
  (exists items total,
      getCartItems env short_stock_db = CartOk items total
      /\ amount_differs 20000%float total = false
      /\ check_lines items 0%float []
         = inl (InsufficientStock (Some "P1") 1 2))
  /\ outcome y = Fail (InsufficientStock (Some "P1") 1 2)
  /\ calls y = []
  /\ final_db y = short_stock_db
  /\ calls x = [CallToss "pay_1" "tmp_1" 20000%float; Write InsertOrder;
                Write InsertOrderItems; Write DeleteCartItems]
  /\ gateway_calls (calls x) = 1%nat
  /\ outcome x = Success ("o1", "pay_1", 20000%float)
  /\ (exists order,
         orders (final_db x) = [order]
         /\ o_id order = "o1" /\ o_clerk_id order = "user_1"
         /\ o_status order = confirmed)
  /\ order_items (final_db x) = [mkOrderItemRow "o1" "p1" "P1" 2 10000%float]
  /\ stock_of (final_db x) "p1" = Some 1.
Proof.
  cbv zeta. split; [|split; [|split; [|split; [|split; [|split; [|split;
    [|split; [|split]]]]]]]].
  - eexists _, _. split; [vm_compute; reflexivity|].
    split; vm_compute; reflexivity.
  - vm_compute. reflexivity.
  - vm_compute. reflexivity.
  - vm_compute. reflexivity.
  - vm_compute. reflexivity.
  - vm_compute. reflexivity.
  - vm_compute. reflexivity.
  - eexists. split; [vm_compute; reflexivity|]. repeat split.
  - vm_compute. reflexivity.
  - vm_compute. reflexivity.
Qed.

(** C2. In every run of [confirmPaymentAndCreateOrder] in which the
    gateway client was entered and the gateway answered [DONE], and in
    which the store accepts the order row (no error, its identifier is new)
    and the order lines, the answer is a success and an order of the caller
    with status [confirmed] is in the store afterwards; its total is the
    total answered as the DECIMAL(10,2) column holds it. Nothing is assumed
    of the stock loop and of the cart clear: they may fail at every call. *)
Theorem approved_payment_leaves_confirmed_order (env : Env)
    (paymentKey orderId : string) (amount : float)
    (shipping : option ShippingAddress) (note : option string) (d : Db) :
  let x := run (confirmPaymentAndCreateOrder env paymentKey orderId amount
                  shipping note) d in
  gateway_calls (calls x) <> 0%nat ->
  toss env paymentKey orderId amount = TossData "DONE" ->
  store_error env InsertOrder = false ->
  (forall o, In o (orders d) -> o_id o <> gen_random_uuid env) ->
  store_error env InsertOrderItems = false ->
  exists userId total order,
    auth env = Some userId
    /\ outcome x = Success (gen_random_uuid env, paymentKey, total)
    /\ In order (orders (final_db x))
    /\ o_id order = gen_random_uuid env
    /\ o_clerk_id order = userId
    /\ o_total_amount order = decimal_10_2 total
    /\ o_status order = confirmed.
Proof.
  intros x Hcalled Htoss Hinsert Hfresh Hlines.
  pose proof (confirmPayment_run env paymentKey orderId amount shipping note d)
    as Hrun. fold x in Hrun.
  destruct Hrun as [| | | | | | | |userId items total Hpass _ Hrefused
                    |userId items total Hpass _ _ _ Hfailed
                    |userId items total w2 cleared w3 Hpass _ _ _ _ Hdec Hclear];
    try (now contradiction Hcalled); try congruence.
  - rewrite Hinsert in Hrefused. cbn in Hrefused.
    apply negb_true_iff in Hrefused.
    assert (order_insert_allowed
              (confirmed_order env userId total shipping note) (orders d) = true)
      as Hok by (apply order_insert_allowed_spec; exact Hfresh).
    congruence.
  - destruct (payment_tail _ _ _ _ _ _ Hdec Hclear) as (Ho & _).
    exists userId, total, (confirmed_order env userId total shipping note).
    repeat split; try reflexivity; [apply Hpass|].
    unfold final_db. cbn [snd]. rewrite Ho. cbn [db with_order orders].
    apply in_or_app. right. left. reflexivity.
Qed.

Lemma approved_payment_witness :
  exists order,
    outcome (run (confirmPaymentAndCreateOrder (env_tail_fails "o1") "pay_1" "tmp_1"
                    20000%float None None) sample_db)
    = Success ("o1", "pay_1", 20000%float)
    /\ In order (orders (final_db
         (run (confirmPaymentAndCreateOrder (env_tail_fails "o1") "pay_1" "tmp_1"
                 20000%float None None) sample_db)))
    /\ o_id order = "o1" /\ o_status order = confirmed.
Proof.
  destruct (approved_payment_leaves_confirmed_order (env_tail_fails "o1")
              "pay_1" "tmp_1" 20000%float None None sample_db)
    as (userId & total & order & Hauth & Hout & Hin & Hid & _ & Htotal & Hst).
  - vm_compute. discriminate.
  - reflexivity.
  - reflexivity.
  - intros o [<-|[]]. vm_compute. discriminate.
  - reflexivity.
  - exists order. repeat split; assumption.
Defined.

(** ** Order creation *)

Lemma createOrder_run (env : Env) (orderData : CreateOrderInput) (d : Db) :
  OrderRun env orderData d (run (createOrder env orderData) d).
Proof.
  unfold createOrder.
  destruct (auth env) as [userId|] eqn:Hauth;
    [|exec; now apply ord_not_authenticated].
  destruct (createOrderSchema orderData) as [validated|] eqn:Hschema;
    [|exec; eapply ord_invalid_input; eassumption].
  exec.
  destruct (getCartItems env d) as [items total|e] eqn:Hcart;
    [|exec; eapply ord_cart_unavailable; eassumption].
  destruct items as [|item0 items0];
    [exec; eapply ord_empty_cart; eassumption|].
  cbn [length Nat.eqb].
  set (items := item0 :: items0) in *.
  assert (items <> []) as Hne by discriminate.
  destruct (check_lines items 0%float []) as [e|[calculated lines]] eqn:Hcheck;
    [exec; eapply ord_line_rejected; eassumption|].
  destruct (amount_differs calculated total) eqn:Hamount;
    [exec; eapply ord_amount_mismatch; eassumption|].
  exec.
  destruct (store_error env InsertOrder
            || negb (order_insert_allowed
                       (pending_order env userId calculated validated) (orders d)))
    eqn:Hinsert;
    [eapply ord_not_saved; eassumption|].
  apply orb_false_iff in Hinsert as [Hfault Hpk].
  apply negb_false_iff in Hpk.
  destruct (store_error env InsertOrderItems) eqn:Hlines.
  - pose proof (ord_lines_not_saved env orderData d userId validated items
                  total calculated lines Hauth Hschema Hcart Hne Hcheck Hamount
                  Hfault Hpk Hlines) as Hrun.
    unfold after_rollback in Hrun.
    destruct (store_error env DeleteOrder); exact Hrun.
  - exec.
    apply (ord_done env orderData d userId validated items total calculated
             lines); assumption.
Qed.

Lemma filter_other_ids (id : string) (rows : list OrderRow) :
  (forall o, In o rows -> o_id o <> id) ->
  filter (fun o => o_id o ≠ id) rows = rows.
Proof.
  induction rows as [|o rows IH]; intros Hfresh; [reflexivity|].
  rewrite filter_cons_True by (apply Hfresh; now left).
  f_equal. apply IH. intros o' Hin. apply Hfresh. now right.
Qed.

(** C3 (amended). In [createOrder], when the [orders] insert was sent and
    accepted by the store (no error, the identifier is new) and the
    [order_items] insert fails, the answer is the order-lines error and the
    last call made before it is the delete of the order just created. When
    the store
    carries that delete out, the [orders] table is afterwards the one the
    run started from: it has no row with the identifier of this attempt.
    The action does not look at the outcome of the delete: when the store
    refuses it, the row of this attempt, with status [pending], stays in
    [orders], and [order_items] is as it was. *)
Theorem createOrder_rolls_back_orphan_order (env : Env)
    (orderData : CreateOrderInput) (d : Db) :
  let x := run (createOrder env orderData) d in
  In (Write InsertOrder) (calls x) ->
  store_error env InsertOrder = false ->
  (forall o, In o (orders d) -> o_id o <> gen_random_uuid env) ->
  store_error env InsertOrderItems = true ->
  outcome x = Fail OrderItemsSaveFailed
  /\ calls x = [Write InsertOrder; Write InsertOrderItems; Write DeleteOrder]
  /\ (store_error env DeleteOrder = false ->
      orders (final_db x) = orders d
      /\ forall o, In o (orders (final_db x)) -> o_id o <> gen_random_uuid env)
  /\ (store_error env DeleteOrder = true ->
      exists order,
        orders (final_db x) = orders d ++ [order]
        /\ o_id order = gen_random_uuid env
        /\ o_status order = pending
        /\ order_items (final_db x) = order_items d).
Proof.
  intros x Hsent Hinsert Hfresh Hlines.
  pose proof (createOrder_run env orderData d) as Hrun. fold x in Hrun.
  assert (forall userId total validated,
             order_insert_allowed (pending_order env userId total validated)
               (orders d) = true) as Hok
    by (intros; apply order_insert_allowed_spec; exact Hfresh).
  destruct Hrun as [| | | | | |userId validated items total calculated lines
                                 _ _ _ _ _ _ Hrefused
                    |userId validated items total calculated lines| ];
    try (now destruct Hsent); try congruence.
  - rewrite Hinsert, Hok in Hrefused. discriminate Hrefused.
  - unfold final_db, outcome, calls, after_rollback. cbn [fst snd db trace].
    split; [reflexivity|]. split; [reflexivity|]. split; intros Hdelete;
      rewrite Hdelete.
    + assert (orders (delete_order (gen_random_uuid env)
                (set_orders d
                   (orders d
                    ++ [pending_order env userId calculated validated])))
              = orders d) as Horders.
      { cbn [delete_order set_orders orders].
        rewrite filter_app, (filter_other_ids _ _ Hfresh).
        rewrite filter_cons_False, filter_nil by (intros Hid; now apply Hid).
        apply app_nil_r. }
      cbn [pending_order o_id]. rewrite Horders. split; [reflexivity|exact Hfresh].
    + exists (pending_order env userId calculated validated).
      repeat split.
Qed.

Lemma createOrder_rollback_witness :
  outcome (run (createOrder (env_lines_refused "o1") sample_order_input)
             sample_db)
  = Fail OrderItemsSaveFailed
  /\ orders (final_db (run (createOrder (env_lines_refused "o1")
                              sample_order_input) sample_db))
     = orders sample_db.
Proof.
  destruct (createOrder_rolls_back_orphan_order (env_lines_refused "o1")
              sample_order_input sample_db) as (Hout & _ & Hdone & _).
  - vm_compute. tauto.
  - reflexivity.
  - intros o [<-|[]]. vm_compute. discriminate.
  - reflexivity.
  - split; [exact Hout|]. now apply Hdone.
Defined.

(** C3 (counterexample). The store refuses the [order_items] insert and
    then the delete of the rollback: [createOrder] answers the order-lines
    error, and the order of this attempt is in [orders] afterwards while
    [order_items] has no line of it. *)
Lemma refused_rollback_leaves_orphan_order :
  let x := run (createOrder (env_rollback_refused "o1") sample_order_input)
               sample_db in
  outcome x = Fail OrderItemsSaveFailed
  /\ calls x = [Write InsertOrder; Write InsertOrderItems; Write DeleteOrder]
  /\ map (fun o => (o_id o, o_status o)) (orders (final_db x))
     = [("o0", pending); ("o1", pending)]
  /\ filter (fun i => oi_order_id i = "o1") (order_items (final_db x)) = []
  /\ ~ (forall o, In o (orders (final_db x)) -> o_id o <> "o1").
Proof.
  vm_compute. repeat split.
  intros Hnone. apply (Hnone (mkOrderRow "o1" "user_1" 20000%float pending
                                (mkShippingAddressJson None
                                   "1 Sejong-daero, Seoul" "04524" None
                                   "01012345678") None)).
  - right. left. reflexivity.
  - reflexivity.
Qed.

(** ** The cart *)

Lemma cart_total_loop_spec (rows : list (CartRow * option ProductRow)) :
  forall total acc,
    cart_total_loop rows total acc
    = (float_sum (omap valid_item rows) total, acc ++ omap valid_item rows).
Proof.
  induction rows as [|[item product] rows IH]; intros total acc.
  - cbn. now rewrite app_nil_r.
  - cbn [cart_total_loop omap list_omap valid_item].
    destruct product as [p|]; [destruct (is_active p)|]; rewrite IH.
    + cbn [float_sum fold_left]. now rewrite <- app_assoc.
    + reflexivity.
    + reflexivity.
Qed.

(** What [getCartItems] hands to the order flows: the caller's lines whose
    product exists and is active, with the left-to-right binary64 sum of
    [price * quantity] over them. *)
Lemma getCartItems_ok (env : Env) (d : Db) (items : list CartItem)
    (total : float) :
  getCartItems env d = CartOk items total ->
  exists userId,
    auth env = Some userId
    /\ store_error env SelectCartItems = false
    /\ items = omap valid_item (select_cart_items userId d)
    /\ total = float_sum items 0%float.
Proof.
  unfold getCartItems. intros H.
  destruct (auth env) as [userId|]; [|discriminate].
  destruct (store_error env SelectCartItems); [discriminate|].
  exists userId. split; [reflexivity|]. split; [reflexivity|].
  destruct (select_cart_items userId d) as [|row rows] eqn:Hrows.
  - injection H as <- <-. split; reflexivity.
  - rewrite cart_total_loop_spec in H. injection H as <- <-.
    split; reflexivity.
Qed.

Lemma valid_item_active (row : CartRow * option ProductRow) (item : CartItem) :
  valid_item row = Some item -> is_active (ci_products item) = true.
Proof.
  destruct row as [r [p|]]; cbn; [|discriminate].
  destruct (is_active p) eqn:Hp; [|discriminate].
  now intros [= <-].
Qed.

(** Lines of deactivated products never reach the order flows. *)
Lemma getCartItems_active (env : Env) (d : Db) (items : list CartItem)
    (total : float) :
  getCartItems env d = CartOk items total ->
  Forall (fun item => is_active (ci_products item) = true) items.
Proof.
  intros H. apply getCartItems_ok in H as (userId & _ & _ & -> & _).
  apply Forall_forall. intros item Hin.
  apply list_elem_of_omap in Hin as (row & _ & Hrow).
  now apply valid_item_active in Hrow.
Qed.

(** The lines [createOrder] accepts give a recomputed total that is the
    same binary64 sum, and one order line each. *)
Lemma check_lines_accepts (items : list CartItem) :
  forall total acc calculated lines,
    check_lines items total acc = inr (calculated, lines) ->
    calculated = float_sum items total
    /\ lines = acc ++ map order_line items.
Proof.
  induction items as [|item items IH]; intros total acc calculated lines H.
  - cbn in H. injection H as <- <-. now rewrite app_nil_r.
  - cbn [check_lines] in H.
    destruct (negb (is_active (ci_products item))); [discriminate|].
    destruct (stock_quantity (ci_products item) <? ci_quantity item);
      [discriminate|].
    destruct (stock_quantity (ci_products item) =? 0); [discriminate|].
    apply IH in H as [-> ->]. split; [reflexivity|].
    now rewrite <- app_assoc.
Qed.

(** What [check_lines] can answer when it rejects a cart. *)
Lemma check_lines_rejects (items : list CartItem) :
  forall total acc e,
    check_lines items total acc = inl e ->
    exists item,
      In item items
      /\ ((is_active (ci_products item) = false
           /\ e = InactiveProduct (name (ci_products item)))
          \/ (stock_quantity (ci_products item) < ci_quantity item
              /\ e = InsufficientStock (Some (name (ci_products item)))
                       (stock_quantity (ci_products item))
                       (ci_quantity item))
          \/ (stock_quantity (ci_products item) = 0
              /\ ci_quantity item <= 0
              /\ e = OutOfStock (Some (name (ci_products item))))).
Proof.
  induction items as [|item items IH]; intros total acc e H.
  - discriminate H.
  - cbn [check_lines] in H.
    destruct (is_active (ci_products item)) eqn:Hactive; cbn [negb] in H.
    2:{ injection H as <-. exists item. split; [now left|]. now left. }
    destruct (stock_quantity (ci_products item) <? ci_quantity item) eqn:Hlt.
    { injection H as <-. exists item. split; [now left|].
      right. left. split; [now apply Z.ltb_lt|reflexivity]. }
    destruct (stock_quantity (ci_products item) =? 0) eqn:Hz.
    { injection H as <-. exists item. split; [now left|].
      right. right. apply Z.eqb_eq in Hz. apply Z.ltb_ge in Hlt.
      repeat split; [exact Hz|lia]. }
    apply IH in H as (item' & Hin & Hcases).
    exists item'. split; [now right|exact Hcases].
Qed.

(** ** Sold-out lines in [createOrder] *)

Lemma valid_item_quantity (userId : string) (d : Db) (item : CartItem) :
  item ∈ omap valid_item (select_cart_items userId d) ->
  exists row, row ∈ cart_items d
              /\ cr_clerk_id row = userId
              /\ ci_quantity item = cr_quantity row.
Proof.
  intros Hin. apply list_elem_of_omap in Hin as ([row p] & Hrow & Hitem).
  unfold select_cart_items in Hrow.
  apply list_elem_of_fmap in Hrow as (row' & [= <- ->] & Hrow').
  apply list_elem_of_filter in Hrow' as [Huser Hin].
  exists row. repeat split; try assumption.
  cbn in Hitem. destruct (products d !! cr_product_id row) as [p|];
    [|discriminate].
  destruct (is_active p); [|discriminate].
  now injection Hitem as <-.
Qed.

(** With the quantities the schema allows in [cart_items]
    ([CHECK (quantity > 0)]), [createOrder] never answers [OutOfStock]: a
    line whose product has no stock left is answered [InsufficientStock],
    by the test that comes first. *)
Lemma createOrder_never_out_of_stock (env : Env)
    (orderData : CreateOrderInput) (d : Db) (product_name : option string) :
  (forall row, row ∈ cart_items d -> 0 < cr_quantity row) ->
  outcome (run (createOrder env orderData) d) <> Fail (OutOfStock product_name).
Proof.
  intros Hpositive.
  pose proof (createOrder_run env orderData d) as Hrun.
  destruct Hrun as [| | | |userId items total e _ Hcart _ Hcheck| | | |];
    try discriminate.
  cbn [outcome fst]. intros [= ->].
  apply check_lines_rejects in Hcheck
    as (item & Hin & [[_ He]|[[_ He]|(_ & Hq & _)]]);
    try discriminate He.
  apply getCartItems_ok in Hcart as (userId' & _ & _ & -> & _).
  apply list_elem_of_In in Hin.
  apply valid_item_quantity in Hin as (row & Hrow & _ & Heq).
  apply Hpositive in Hrow. lia.
Qed.

(** C5 (the code at the failing input). A cart whose only line is one unit
    of a product with stock 0: [createOrder] answers [InsufficientStock]
    with stock 0 and quantity 1, where the specification has [OutOfStock];
    it writes nothing. *)
Theorem createOrder_sold_out_line_is_insufficient_stock :
  run (createOrder (env_ok "o1") sample_order_input) sold_out_db
  = (Fail (InsufficientStock (Some "P1") 0 1), mkWorld sold_out_db []).
Proof. vm_compute. reflexivity. Qed.

(** ** The stock loop *)

(** The loop always goes on to the cart clear, and changes [products] one
    line after the other. *)
Lemma decrement_stock_products {R} (env : Env) (lines : list OrderItemRow) :
  forall w, exists w',
    @decrement_stock R env lines w = (inr tt, w')
    /\ products (db w') = fold_left (decrement_line env) lines (products (db w)).
Proof.
  induction lines as [|line rest IH]; intros w.
  - exists w. split; reflexivity.
  - cbn [decrement_stock fold_left]. unfold decrement_line at 2.
    unfold bind at 1. cbn [get_db]. unfold bind at 1.
    destruct (if store_error env (SelectProduct (oi_product_id line))
              then None else products (db w) !! oi_product_id line)
      as [product|].
    + destruct (stock_quantity product - oi_quantity line <? 0).
      * cbn [ret]. apply IH.
      * unfold bind at 1. cbn [emit].
        destruct (store_error env (UpdateProduct (oi_product_id line)));
          cbn [ret put_db];
          match goal with |- context [decrement_stock env rest ?w0] =>
            destruct (IH w0) as (w' & Hrun & Hproducts)
          end; exists w'; (split; [exact Hrun|exact Hproducts]).
    + cbn [ret]. apply IH.
Qed.

Lemma decrement_line_other (env : Env) (ps : gmap string ProductRow)
    (line : OrderItemRow) (id : string) :
  id <> oi_product_id line ->
  decrement_line env ps line !! id = ps !! id.
Proof.
  intros Hne. unfold decrement_line.
  destruct (if store_error env (SelectProduct (oi_product_id line))
            then None else ps !! oi_product_id line) as [product|];
    [|reflexivity].
  destruct (stock_quantity product - oi_quantity line <? 0); [reflexivity|].
  destruct (store_error env (UpdateProduct (oi_product_id line)));
    [reflexivity|].
  apply lookup_alter_ne. congruence.
Qed.

Lemma decrement_lines_other (env : Env) (lines : list OrderItemRow)
    (id : string) :
  forall ps,
    ~ In id (map oi_product_id lines) ->
    fold_left (decrement_line env) lines ps !! id = ps !! id.
Proof.
  induction lines as [|line rest IH]; intros ps Hnotin; [reflexivity|].
  cbn [fold_left]. rewrite IH.
  - apply decrement_line_other. intros ->. apply Hnotin. now left.
  - intros Hin. apply Hnotin. now right.
Qed.

Lemma decrement_line_non_negative (env : Env) (ps : gmap string ProductRow)
    (line : OrderItemRow) :
  non_negative_stock ps -> non_negative_stock (decrement_line env ps line).
Proof.
  intros Hps id p. unfold decrement_line.
  destruct (if store_error env (SelectProduct (oi_product_id line))
            then None else ps !! oi_product_id line) as [product|];
    [|apply Hps].
  destruct (stock_quantity product - oi_quantity line <? 0) eqn:Hneg;
    [apply Hps|].
  destruct (store_error env (UpdateProduct (oi_product_id line)));
    [apply Hps|].
  apply Z.ltb_ge in Hneg.
  destruct (decide (oi_product_id line = id)) as [<-|Hne].
  - rewrite lookup_alter_eq.
    destruct (ps !! oi_product_id line) as [p0|]; [|discriminate].
    cbn. intros [= <-]. exact Hneg.
  - rewrite lookup_alter_ne by exact Hne. apply Hps.
Qed.

Lemma decrement_lines_non_negative (env : Env) (lines : list OrderItemRow) :
  forall ps,
    non_negative_stock ps ->
    non_negative_stock (fold_left (decrement_line env) lines ps).
Proof.
  induction lines as [|line rest IH]; intros ps Hps; [exact Hps|].
  cbn [fold_left]. apply IH. now apply decrement_line_non_negative.
Qed.

(** The stock a turn of the loop leaves for its own product, when the
    store answers its read and its write. *)
Lemma decrement_line_own (env : Env) (ps : gmap string ProductRow)
    (line : OrderItemRow) (p : ProductRow) :
  store_error env (SelectProduct (oi_product_id line)) = false ->
  store_error env (UpdateProduct (oi_product_id line)) = false ->
  ps !! oi_product_id line = Some p ->
  stock_quantity <$> decrement_line env ps line !! oi_product_id line
  = Some (if oi_quantity line <=? stock_quantity p
          then stock_quantity p - oi_quantity line
          else stock_quantity p).
Proof.
  intros Hselect Hupdate Hp. unfold decrement_line.
  rewrite Hselect, Hp, Hupdate.
  destruct (stock_quantity p - oi_quantity line <? 0) eqn:Hneg.
  - apply Z.ltb_lt in Hneg.
    destruct (oi_quantity line <=? stock_quantity p) eqn:Hle;
      [apply Z.leb_le in Hle; lia|].
    now rewrite Hp.
  - apply Z.ltb_ge in Hneg.
    destruct (oi_quantity line <=? stock_quantity p) eqn:Hle;
      [|apply Z.leb_gt in Hle; lia].
    rewrite lookup_alter_eq, Hp. reflexivity.
Qed.

(** The loop over [before ++ after] is the loop over [before] followed by
    the loop over [after]: no turn ends the loop. *)
Lemma decrement_stock_app {R} (env : Env) (before after : list OrderItemRow) :
  forall w, exists w1,
    @decrement_stock R env before w = (inr tt, w1)
    /\ @decrement_stock R env (before ++ after) w
       = @decrement_stock R env after w1.
Proof.
  induction before as [|line rest IH]; intros w.
  - exists w. split; reflexivity.
  - cbn [decrement_stock app]. unfold bind, get_db, emit, ret, put_db.
    destruct (if store_error env (SelectProduct (oi_product_id line))
              then None else products (db w) !! oi_product_id line)
      as [product|]; [|apply IH].
    destruct (stock_quantity product - oi_quantity line <? 0); [apply IH|].
    destruct (store_error env (UpdateProduct (oi_product_id line)));
      apply IH.
Qed.

(** C7 (amended). The stock loop of [confirmPaymentAndCreateOrder] always
    runs to its end and keeps every stock count non-negative. It is made of
    one turn per line, the turns before a line, the line's own and the
    turns after it, whatever the store answers at the other lines; when
    the store answers the read and the write of a line's product, the turn
    of that line leaves for the product the stock before the turn minus the
    line's quantity when the quantity is at most that stock, and the stock
    before the turn, unchanged, when the quantity is more; the turn changes
    no other product. So when no other line is of that product, the stock
    the loop leaves for it is the one of this rule applied to the stock
    the loop started from. *)
Theorem stock_decrement_never_negative (env : Env)
    (lines : list OrderItemRow) (d : Db) (t : list Event) :
  exists w',
    @decrement_stock PaymentResult env lines (mkWorld d t) = (inr tt, w')
    /\ (non_negative_stock (products d) ->
        non_negative_stock (products (db w')))
    /\ (forall before line after,
          lines = before ++ line :: after ->
          store_error env (SelectProduct (oi_product_id line)) = false ->
          store_error env (UpdateProduct (oi_product_id line)) = false ->
          exists w1 w2,
            @decrement_stock PaymentResult env before (mkWorld d t)
            = (inr tt, w1)
            /\ @decrement_stock PaymentResult env [line] w1 = (inr tt, w2)
            /\ @decrement_stock PaymentResult env after w2 = (inr tt, w')
            /\ (forall p,
                  products (db w1) !! oi_product_id line = Some p ->
                  stock_of (db w2) (oi_product_id line)
                  = Some (if oi_quantity line <=? stock_quantity p
                          then stock_quantity p - oi_quantity line
                          else stock_quantity p))
            /\ (forall id, id <> oi_product_id line ->
                           products (db w2) !! id = products (db w1) !! id)
            /\ (~ In (oi_product_id line) (map oi_product_id (before ++ after)) ->
                forall p,
                  products d !! oi_product_id line = Some p ->
                  stock_of (db w') (oi_product_id line)
                  = Some (if oi_quantity line <=? stock_quantity p
                          then stock_quantity p - oi_quantity line
                          else stock_quantity p))).
Proof.
  destruct (decrement_stock_products (R := PaymentResult) env lines
              (mkWorld d t)) as (w' & Hrun & Hproducts).
  cbn [db] in Hproducts.
  exists w'. split; [exact Hrun|].
  split; [rewrite Hproducts; apply decrement_lines_non_negative|].
  intros before line after -> Hselect Hupdate.
  destruct (decrement_stock_app (R := PaymentResult) env before
              (line :: after) (mkWorld d t)) as (w1 & Hbefore & Happ).
  rewrite Happ in Hrun.
  destruct (decrement_stock_app (R := PaymentResult) env [line] after w1)
    as (w2 & Hline & Happ2).
  change ([line] ++ after) with (line :: after) in Happ2.
  rewrite Happ2 in Hrun.
  destruct (decrement_stock_products (R := PaymentResult) env before
              (mkWorld d t)) as (w1' & Hbefore' & Hp1).
  rewrite Hbefore in Hbefore'. injection Hbefore' as <-. cbn [db] in Hp1.
  destruct (decrement_stock_products (R := PaymentResult) env [line] w1)
    as (w2' & Hline' & Hp2).
  rewrite Hline in Hline'. injection Hline' as <-. cbn [fold_left] in Hp2.
  destruct (decrement_stock_products (R := PaymentResult) env after w2)
    as (w'' & Hafter' & Hp3).
  rewrite Hrun in Hafter'. injection Hafter' as <-.
  exists w1, w2. unfold stock_of.
  split; [exact Hbefore|]. split; [exact Hline|]. split; [exact Hrun|].
  split; [|split].
  - intros p Hp. rewrite Hp2. now apply decrement_line_own.
  - intros id Hne. rewrite Hp2. now apply decrement_line_other.
  - intros Hnotin p Hp.
    rewrite Hp3, decrement_lines_other
      by (intros Hin; apply Hnotin; rewrite map_app; apply in_or_app;
          now right).
    rewrite Hp2. apply decrement_line_own; [exact Hselect|exact Hupdate|].
    rewrite Hp1, decrement_lines_other; [exact Hp|].
    intros Hin. apply Hnotin. rewrite map_app. apply in_or_app. now left.
Qed.

(** C7 (an instance). The store refuses to read the row of the first
    line's product: the first line is passed over and the loop goes on to
    the second, whose product goes from 7 to 4. *)
Lemma stock_decrement_witness :
  exists w',
    @decrement_stock PaymentResult env_p1_unreadable two_lines
      (mkWorld two_products_db []) = (inr tt, w')
    /\ stock_of two_products_db "p1" = Some 5
    /\ stock_of two_products_db "p2" = Some 7
    /\ stock_of (db w') "p1" = Some 5
    /\ stock_of (db w') "p2" = Some 4.
Proof.
  destruct (stock_decrement_never_negative env_p1_unreadable two_lines
              two_products_db []) as (w' & Hrun & _ & Hturn).
  exists w'. split; [exact Hrun|].
  split; [reflexivity|]. split; [reflexivity|].
  split.
  - vm_compute in Hrun. injection Hrun as <-. reflexivity.
  - destruct (Hturn [mkOrderItemRow "o1" "p1" "P1" 2 10000%float]
                (mkOrderItemRow "o1" "p2" "P2" 3 5000%float) []
                eq_refl eq_refl eq_refl)
      as (w1 & w2 & _ & _ & _ & _ & _ & Hfinal).
    apply (Hfinal ltac:(cbn; intros [H|[]]; discriminate H)
             (mkProductRow "P2" 5000%float 7 true)).
    reflexivity.
Defined.

(** No run of the payment action makes a stock count negative. *)
Lemma confirmPayment_stock_non_negative (env : Env)
    (paymentKey orderId : string) (amount : float)
    (shipping : option ShippingAddress) (note : option string) (d : Db) :
  non_negative_stock (products d) ->
  non_negative_stock
    (products (final_db (run (confirmPaymentAndCreateOrder env paymentKey
                                orderId amount shipping note) d))).
Proof.
  intros Hd.
  pose proof (confirmPayment_run env paymentKey orderId amount shipping note d)
    as Hrun.
  destruct Hrun as [| | | | | | | | |
                    |userId items total w2 cleared w3 _ _ _ _ _ Hdec Hclear];
    try exact Hd;
    try (unfold final_db, after_rollback; cbn [snd db];
         destruct (store_error env DeleteOrder); exact Hd).
  unfold final_db. cbn [snd].
  destruct (decrement_stock_products (R := PaymentResult) env
              (map (payment_order_item (gen_random_uuid env)) items)
              (mkWorld
                 (with_order d (confirmed_order env userId total shipping note)
                    (map (payment_order_item (gen_random_uuid env)) items))
                 [CallToss paymentKey orderId amount; Write InsertOrder;
                  Write InsertOrderItems]))
    as (w2' & Hdec' & Hproducts).
  rewrite Hdec in Hdec'. injection Hdec' as <-.
  destruct (clearCart_tail (R := PaymentResult) env w2)
    as (r' & w3' & (Hclear' & _) & Hsame).
  rewrite Hclear in Hclear'. injection Hclear' as <- <-.
  rewrite Hsame, Hproducts. cbn [db with_order products].
  now apply decrement_lines_non_negative.
Qed.

(** C7 (counterexample). Payment for two units of a product of which one
    is left: the order line is written with quantity 2 and the stock stays
    1, where the specification has [max(0, 1 - 2) = 0]. *)
Lemma short_stock_is_not_clamped_to_zero :
  let x := run (confirmPaymentAndCreateOrder (env_ok "o1") "pay_1" "tmp_1"
                  20000%float None None) short_stock_db in
  outcome x = Success ("o1", "pay_1", 20000%float)
  /\ order_items (final_db x)
     = [mkOrderItemRow "o1" "p1" "P1" 2 10000%float]
  /\ stock_of short_stock_db "p1" = Some 1
  /\ stock_of (final_db x) "p1" = Some 1
  /\ stock_of (final_db x) "p1" <> Some (Z.max 0 (1 - 2)).
Proof. vm_compute. repeat split. discriminate. Qed.

(** ** Validation before the gateway *)

Lemma payment_empty_cart (env : Env) (paymentKey orderId : string)
    (amount : float) (shipping : option ShippingAddress) (note : option string)
    (d : Db) (userId : string) :
  auth env = Some userId ->
  confirmPaymentSchema paymentKey orderId amount shipping note = true ->
  (forall items total, getCartItems env d = CartOk items total -> items = []) ->
  run (confirmPaymentAndCreateOrder env paymentKey orderId amount shipping
         note) d
  = (Fail EmptyCart, mkWorld d []).
Proof.
  intros Hauth Hschema Hempty. unfold confirmPaymentAndCreateOrder.
  rewrite Hauth, Hschema. exec.
  destruct (getCartItems env d) as [items total|e]; [|reflexivity].
  rewrite (Hempty items total eq_refl). reflexivity.
Qed.

Lemma payment_sold_out_line (env : Env) (paymentKey orderId : string)
    (amount : float) (shipping : option ShippingAddress) (note : option string)
    (d : Db) (userId : string) (items : list CartItem) (total : float)
    (item : CartItem) :
  auth env = Some userId ->
  confirmPaymentSchema paymentKey orderId amount shipping note = true ->
  getCartItems env d = CartOk items total ->
  amount_differs amount total = false ->
  In item items ->
  stock_quantity (ci_products item) = 0 ->
  run (confirmPaymentAndCreateOrder env paymentKey orderId amount shipping
         note) d
  = (Fail (OutOfStock None), mkWorld d []).
Proof.
  intros Hauth Hschema Hcart Hamount Hin Hz.
  unfold confirmPaymentAndCreateOrder.
  rewrite Hauth, Hschema. exec. rewrite Hcart, Hamount.
  assert (item ∈ filter (fun item => stock_quantity (ci_products item) = 0)
                        items) as Hbad
    by (apply list_elem_of_filter; split; [exact Hz|now apply list_elem_of_In]).
  destruct items as [|item0 items0]; [destruct Hin|].
  cbn [length Nat.eqb].
  destruct (filter (fun item => stock_quantity (ci_products item) = 0)
                   (item0 :: items0)) as [|bad rest];
    [inversion Hbad|reflexivity].
Qed.

(** Neither order flow answers [InactiveProduct]: the lines of
    deactivated products are gone before the flows look at the cart. *)
Lemma payment_never_inactive_product (env : Env) (paymentKey orderId : string)
    (amount : float) (shipping : option ShippingAddress) (note : option string)
    (d : Db) (product_name : string) :
  outcome (run (confirmPaymentAndCreateOrder env paymentKey orderId amount
                  shipping note) d)
  <> Fail (InactiveProduct product_name).
Proof.
  pose proof (confirmPayment_run env paymentKey orderId amount shipping note d)
    as Hrun.
  destruct Hrun; discriminate.
Qed.

Lemma createOrder_never_inactive_product (env : Env)
    (orderData : CreateOrderInput) (d : Db) (product_name : string) :
  outcome (run (createOrder env orderData) d)
  <> Fail (InactiveProduct product_name).
Proof.
  pose proof (createOrder_run env orderData d) as Hrun.
  destruct Hrun as [| | | |userId items total e _ Hcart _ Hcheck| | | |];
    try discriminate.
  cbn [outcome fst]. intros [= ->].
  apply check_lines_rejects in Hcheck
    as (item & Hin & [[Hinactive _]|[[_ He]|(_ & _ & He)]]);
    try discriminate He.
  apply getCartItems_active in Hcart. rewrite Forall_forall in Hcart.
  apply list_elem_of_In, Hcart in Hin. congruence.
Qed.

(** C6 (amended). Before it calls the gateway, the payment action rejects
    a cart that cannot be retrieved or has no line with [EmptyCart] and,
    the amount matching, a cart with a line whose product has stock 0 with
    [OutOfStock]; in both cases no call has been made and the store is
    untouched. The lines of deactivated products are not in the cart either
    order flow sees, and neither flow ever answers [InactiveProduct]. *)
Theorem payment_rejects_empty_and_sold_out_before_gateway (env : Env)
    (paymentKey orderId : string) (amount : float)
    (shipping : option ShippingAddress) (note : option string)
    (orderData : CreateOrderInput) (d : Db) :
  let x := run (confirmPaymentAndCreateOrder env paymentKey orderId amount
                  shipping note) d in
  let y := run (createOrder env orderData) d in
  (forall userId,
      auth env = Some userId ->
      confirmPaymentSchema paymentKey orderId amount shipping note = true ->
      (forall items total, getCartItems env d = CartOk items total ->
                           items = []) ->
      outcome x = Fail EmptyCart /\ calls x = [] /\ final_db x = d)
  /\
  (forall userId items total item,
      auth env = Some userId ->
      confirmPaymentSchema paymentKey orderId amount shipping note = true ->
      getCartItems env d = CartOk items total ->
      amount_differs amount total = false ->
      In item items ->
      stock_quantity (ci_products item) = 0 ->
      outcome x = Fail (OutOfStock None) /\ calls x = [] /\ final_db x = d)
  /\
  (forall items total,
      getCartItems env d = CartOk items total ->
      Forall (fun item => is_active (ci_products item) = true) items)
  /\
  (forall product_name,
      outcome x <> Fail (InactiveProduct product_name)
      /\ outcome y <> Fail (InactiveProduct product_name)).
Proof.
  intros x y. split; [|split; [|split]].
  - intros userId Hauth Hschema Hempty. subst x.
    rewrite (payment_empty_cart _ _ _ _ _ _ _ _ Hauth Hschema Hempty).
    repeat split.
  - intros userId items total item Hauth Hschema Hcart Hamount Hin Hz. subst x.
    rewrite (payment_sold_out_line _ _ _ _ _ _ _ _ _ _ _
               Hauth Hschema Hcart Hamount Hin Hz).
    repeat split.
  - apply getCartItems_active.
  - intros product_name. split.
    + apply payment_never_inactive_product.
    + apply createOrder_never_inactive_product.
Qed.

(** C6 (counterexample). The cart holds a line of the deactivated product
    [P2] and two units of [P1]: the payment action does not answer
    [InactiveProduct]; it calls the gateway and confirms an order for the
    [P1] line alone. *)
Lemma deactivated_line_is_not_rejected :
  let x := run (confirmPaymentAndCreateOrder (env_ok "o1") "pay_1" "tmp_1"
                  20000%float None None) deactivated_line_db in
  In (mkCartRow "c2" "user_1" "p2" 1) (cart_items deactivated_line_db)
  /\ is_active <$> products deactivated_line_db !! "p2" = Some false
  /\ outcome x = Success ("o1", "pay_1", 20000%float)
  /\ gateway_calls (calls x) = 1%nat
  /\ order_items (final_db x) = [mkOrderItemRow "o1" "p1" "P1" 2 10000%float].
Proof. vm_compute. repeat split. now left. Qed.

(** The part of C6 left out of the amended statement: a line that asks for
    more than the stock left (and the stock is not 0) does not stop the
    payment action; the gateway is called and the order confirmed. *)
Example payment_goes_past_insufficient_stock :
  let x := run (confirmPaymentAndCreateOrder (env_ok "o1") "pay_1" "tmp_1"
                  20000%float None None) short_stock_db in
  outcome x = Success ("o1", "pay_1", 20000%float)
  /\ gateway_calls (calls x) = 1%nat
  /\ outcome (run (createOrder (env_ok "o1") sample_order_input)
                short_stock_db)
     = Fail (InsufficientStock (Some "P1") 1 2).
Proof. vm_compute. repeat split. Qed.

(** ** A payment reference presented twice *)







(** ** Cancellation *)

Lemma select_order_none (orderId userId : string) (rows : list OrderRow) :
  (forall o, In o rows -> o_id o <> orderId) ->
  filter (fun o => o_id o = orderId ∧ o_clerk_id o = userId) rows = [].
Proof.
  induction rows as [|o rows IH]; intros Hnone; [reflexivity|].
  rewrite filter_cons_False.
  - apply IH. intros o' Hin. apply Hnone. now right.
  - intros [Hid _]. apply (Hnone o); [now left|exact Hid].
Qed.

(** With the primary key, the select of [cancelOrder] finds the order if
    it is the caller's, and nothing otherwise. *)
Lemma select_order_unique (orderId userId : string) (rows : list OrderRow)
    (order : OrderRow) :
  NoDup (map o_id rows) ->
  In order rows ->
  o_id order = orderId ->
  filter (fun o => o_id o = orderId ∧ o_clerk_id o = userId) rows
  = if decide (o_clerk_id order = userId) then [order] else [].
Proof.
  intros Hnodup Hin Hid.
  induction rows as [|o rows IH]; [destruct Hin|].
  cbn [map] in Hnodup. apply NoDup_cons in Hnodup as [Hfresh Hnodup].
  destruct Hin as [->|Hin].
  - assert (filter (fun o => o_id o = orderId ∧ o_clerk_id o = userId) rows = [])
      as Hnone.
    { apply select_order_none. intros o' Hin' Hid'. apply Hfresh.
      rewrite Hid, <- Hid'. now apply list_elem_of_In, in_map. }
    destruct (decide (o_clerk_id order = userId)) as [Hown|Hother].
    + rewrite filter_cons_True by (split; assumption). now rewrite Hnone.
    + rewrite filter_cons_False by (intros [_ Hown]; contradiction).
      exact Hnone.
  - rewrite filter_cons_False.
    + now apply IH.
    + intros [Hid' _]. apply Hfresh. rewrite Hid', <- Hid.
      now apply list_elem_of_In, in_map.
Qed.

Lemma order_by_id (orderId : string) (rows : list OrderRow) :
  (exists order, In order rows /\ o_id order = orderId)
  \/ (forall o, In o rows -> o_id o <> orderId).
Proof.
  induction rows as [|o rows [(order & Hin & Hid)|Hnone]].
  - right. intros o [].
  - left. exists order. split; [now right|exact Hid].
  - destruct (decide (o_id o = orderId)) as [Hid|Hne].
    + left. exists o. split; [now left|exact Hid].
    + right. intros o' [<-|Hin]; [exact Hne|now apply Hnone].
Qed.

Lemma cancelOrder_found (env : Env) (orderId userId : string) (d : Db)
    (order : OrderRow) :
  auth env = Some userId ->
  store_error env SelectOrder = false ->
  filter (fun o => o_id o = orderId ∧ o_clerk_id o = userId) (orders d)
  = [order] ->
  run (cancelOrder env orderId) d
  = if is_pending (o_status order) then
      if store_error env UpdateOrder
      then (Fail CancelFailed, mkWorld d [Write UpdateOrder])
      else (Success tt,
            mkWorld (set_orders d (cancel_rows orderId userId (orders d)))
              [Write UpdateOrder])
    else (Fail InvalidState, mkWorld d []).
Proof.
  intros Hauth Hselect Hfound. unfold cancelOrder.
  rewrite Hauth. exec. rewrite Hselect, Hfound. cbn [single].
  destruct (is_pending (o_status order)); cbn [negb]; [|reflexivity].
  destruct (store_error env UpdateOrder); reflexivity.
Qed.

Lemma cancelOrder_not_found (env : Env) (orderId userId : string) (d : Db) :
  auth env = Some userId ->
  filter (fun o => o_id o = orderId ∧ o_clerk_id o = userId) (orders d) = [] ->
  run (cancelOrder env orderId) d = (Fail OrderNotFound, mkWorld d []).
Proof.
  intros Hauth Hnone. unfold cancelOrder.
  rewrite Hauth. exec. rewrite Hnone.
  destruct (store_error env SelectOrder); reflexivity.
Qed.

Lemma is_pending_spec (s : OrderStatus) : is_pending s = true <-> s = pending.
Proof. destruct s; cbn; split; congruence. Qed.

Lemma cancel_rows_target (orderId userId : string) (rows : list OrderRow)
    (order : OrderRow) :
  In order rows -> o_id order = orderId -> o_clerk_id order = userId ->
  In (set_status cancelled order) (cancel_rows orderId userId rows).
Proof.
  intros Hin Hid Hown. unfold cancel_rows.
  apply in_map_iff. exists order. split; [|exact Hin].
  now rewrite decide_True by (split; assumption).
Qed.

Lemma cancel_rows_other (orderId userId : string) (rows : list OrderRow)
    (o : OrderRow) :
  In o rows -> o_id o <> orderId -> In o (cancel_rows orderId userId rows).
Proof.
  intros Hin Hne. unfold cancel_rows.
  apply in_map_iff. exists o. split; [|exact Hin].
  now rewrite decide_False by (intros [Hid _]; contradiction).
Qed.

(** C9. With the primary key of [orders] and a store that answers the
    select and the update of the action, [cancelOrder] succeeds exactly when
    an order with the given identifier exists, is the caller's and has
    status [pending]. When it succeeds that order is in the store
    afterwards with status [cancelled] and its other columns as they were,
    no order with the given identifier has another status, every other
    order, the products, the cart lines and the order lines are as before,
    and the only outward call is the update of the order: nothing is
    restocked and the gateway is not called. An own order whose status is
    not [pending] is rejected with [InvalidState], without any call, and
    the store is left as it was. *)
Theorem cancelOrder_only_own_pending_order (env : Env) (orderId : string)
    (d : Db) :
  let x := run (cancelOrder env orderId) d in
  NoDup (map o_id (orders d)) ->
  store_error env SelectOrder = false ->
  store_error env UpdateOrder = false ->
  (outcome x = Success tt <->
   exists userId order,
     auth env = Some userId
     /\ In order (orders d)
     /\ o_id order = orderId
     /\ o_clerk_id order = userId
     /\ o_status order = pending)
  /\
  (outcome x = Success tt ->
   (forall order, In order (orders d) -> o_id order = orderId ->
                  In (mkOrderRow (o_id order) (o_clerk_id order)
                        (o_total_amount order) cancelled
                        (o_shipping_address order) (o_order_note order))
                     (orders (final_db x)))
   /\ (forall o, In o (orders (final_db x)) -> o_id o = orderId ->
                 o_status o = cancelled)
   /\ (forall o, In o (orders d) -> o_id o <> orderId ->
                 In o (orders (final_db x)))
   /\ length (orders (final_db x)) = length (orders d)
   /\ products (final_db x) = products d
   /\ cart_items (final_db x) = cart_items d
   /\ order_items (final_db x) = order_items d
   /\ calls x = [Write UpdateOrder])
  /\
  (forall userId order,
      auth env = Some userId ->
      In order (orders d) ->
      o_id order = orderId ->
      o_clerk_id order = userId ->
      o_status order <> pending ->
      outcome x = Fail InvalidState /\ final_db x = d /\ calls x = []).
Proof.
  intros x Hpk Hselect Hupdate. subst x.
  destruct (auth env) as [userId|] eqn:Hauth.
  2:{ unfold cancelOrder. rewrite Hauth. exec. split; [|split].
      - split; [discriminate|]. intros (u & o & Hu & _). discriminate Hu.
      - discriminate.
      - intros u order Hu. discriminate Hu. }
  destruct (order_by_id orderId (orders d)) as [(order & Hin & Hid)|Hnone].
  2:{ rewrite (cancelOrder_not_found env orderId userId d Hauth)
        by (now apply select_order_none).
      unfold outcome. cbn [fst]. split; [|split].
      - split; [discriminate|].
        intros (u & o & _ & Hin & Hid & _). now apply Hnone in Hin.
      - discriminate.
      - intros u o _ Hin Hid. now apply Hnone in Hin. }
  pose proof (select_order_unique orderId userId (orders d) order Hpk Hin Hid)
    as Hfilter.
  assert (forall o, In o (orders d) -> o_id o = orderId -> o = order) as Honly.
  { intros o Hin' Hid'.
    pose proof (select_order_unique orderId (o_clerk_id o) (orders d) o
                  Hpk Hin' Hid') as Ho.
    pose proof (select_order_unique orderId (o_clerk_id o) (orders d) order
                  Hpk Hin Hid) as Horder.
    rewrite decide_True in Ho by reflexivity. rewrite Ho in Horder.
    destruct (decide (o_clerk_id order = o_clerk_id o)); congruence. }
  destruct (decide (o_clerk_id order = userId)) as [Hown|Hother].
  2:{ rewrite (cancelOrder_not_found env orderId userId d Hauth Hfilter).
      unfold outcome. cbn [fst]. split; [|split].
      - split; [discriminate|].
        intros (u & o & Hu & Hin' & Hid' & Hown' & _).
        apply Honly in Hin'; [|exact Hid']. congruence.
      - discriminate.
      - intros u o Hu Hin' Hid' Hown'.
        apply Honly in Hin'; [|exact Hid']. congruence. }
  rewrite (cancelOrder_found env orderId userId d order Hauth Hselect Hfilter).
  rewrite Hupdate.
  destruct (is_pending (o_status order)) eqn:Hpending.
  - apply is_pending_spec in Hpending.
    unfold outcome, final_db, calls. cbn [fst snd db trace set_orders orders
      products cart_items order_items].
    split; [|split].
    + split; [|reflexivity]. intros _. exists userId, order. now repeat split.
    + intros _. repeat split.
      * intros o Hin' Hid'. apply Honly in Hin' as ->; [|exact Hid'].
        now apply (cancel_rows_target orderId userId (orders d) order).
      * intros o Hin' Hid'. unfold cancel_rows in Hin'.
        apply in_map_iff in Hin' as (o0 & <- & Hin0).
        destruct (decide (o_id o0 = orderId ∧ o_clerk_id o0 = userId))
          as [_|Hno]; [reflexivity|].
        apply Honly in Hin0 as ->; [|exact Hid'].
        contradiction Hno. now split.
      * intros o Hin' Hne. now apply cancel_rows_other.
      * unfold cancel_rows. apply length_map.
    + intros u o Hu Hin' Hid' _ Hstatus.
      apply Honly in Hin' as ->; [|exact Hid']. contradiction.
  - unfold outcome, final_db, calls. cbn [fst snd db trace].
    split; [|split].
    + split; [discriminate|].
      intros (u & o & _ & Hin' & Hid' & _ & Hstatus).
      apply Honly in Hin' as ->; [|exact Hid'].
      apply is_pending_spec in Hstatus. congruence.
    + discriminate.
    + intros. repeat split.
Qed.

Lemma cancelOrder_witness :
  (outcome (run (cancelOrder (env_ok "-") "o1") orders_db) = Success tt
   /\ In (mkOrderRow "o1" "user_1" 20000%float cancelled
            (mkShippingAddressJson None "" "" None "") None)
         (orders (final_db (run (cancelOrder (env_ok "-") "o1") orders_db)))
   /\ forall o,
        In o (orders (final_db (run (cancelOrder (env_ok "-") "o1")
                                 orders_db))) ->
        o_id o = "o1" -> o_status o = cancelled)
  /\ outcome (run (cancelOrder (env_ok "-") "o2") orders_db)
     = Fail InvalidState.
Proof.
  split.
  - assert (NoDup (map o_id (orders orders_db))) as Hpk
      by (apply (bool_decide_unpack _); vm_compute; exact I).
    pose proof (cancelOrder_only_own_pending_order (env_ok "-") "o1" orders_db
                  Hpk eq_refl eq_refl) as (Hiff & Hdone & _).
    assert (outcome (run (cancelOrder (env_ok "-") "o1") orders_db)
            = Success tt) as Hok.
    { apply Hiff.
      exists "user_1", (mkOrderRow "o1" "user_1" 20000%float pending
                          (mkShippingAddressJson None "" "" None "") None).
      repeat split. now left. }
    destruct (Hdone Hok) as (Hrow & Hstatus & _).
    split; [exact Hok|]. split; [|exact Hstatus].
    apply (Hrow (mkOrderRow "o1" "user_1" 20000%float pending
                   (mkShippingAddressJson None "" "" None "") None));
      [now left|reflexivity].
  - apply (cancelOrder_only_own_pending_order (env_ok "-") "o2" orders_db)
      with (userId := "user_1")
           (order := mkOrderRow "o2" "user_1" 10000%float confirmed
                       (mkShippingAddressJson None "" "" None "") None).
    + apply (bool_decide_unpack _). vm_compute. exact I.
    + reflexivity.
    + reflexivity.
    + reflexivity.
    + right. now left.
    + reflexivity.
    + reflexivity.
    + discriminate.
Defined.

(** ** Adding to the cart *)

Section UniqueKey.
Context {A K : Type} (key : A -> K) (P : A -> Prop)
        `{forall x, Decision (P x)}.

Lemma filter_none (rows : list A) :
  (forall r, In r rows -> ~ P r) -> filter P rows = [].
Proof.
  induction rows as [|r rows IH]; intros Hnone; [reflexivity|].
  rewrite filter_cons_False by (apply Hnone; now left).
  apply IH. intros r' Hin. apply Hnone. now right.
Qed.

(** A select on a unique key gives the one row that has it. *)
Lemma filter_singleton (rows : list A) (e : A) :
  NoDup (map key rows) ->
  In e rows ->
  P e ->
  (forall r, P r -> key r = key e) ->
  filter P rows = [e].
Proof.
  intros Hnodup Hin He Hkey.
  induction rows as [|r rows IH]; [destruct Hin|].
  cbn [map] in Hnodup. apply NoDup_cons in Hnodup as [Hfresh Hnodup].
  destruct Hin as [->|Hin].
  - rewrite filter_cons_True by exact He.
    rewrite filter_none; [reflexivity|].
    intros r' Hin' Hr'. apply Hfresh. rewrite <- (Hkey r' Hr').
    now apply list_elem_of_In, in_map.
  - rewrite filter_cons_False; [now apply IH|].
    intros Hr. apply Hfresh. rewrite (Hkey r Hr).
    now apply list_elem_of_In, in_map.
Qed.
End UniqueKey.

Lemma update_cart_quantity_in (id userId : string) (q : Z)
    (rows : list CartRow) (r' : CartRow) :
  In r' (update_cart_quantity id userId q rows) ->
  exists r, In r rows
            /\ cr_clerk_id r' = cr_clerk_id r
            /\ cr_product_id r' = cr_product_id r
            /\ cr_id r' = cr_id r
            /\ cr_quantity r'
               = if decide (cr_id r = id ∧ cr_clerk_id r = userId)
                 then q else cr_quantity r.
Proof.
  unfold update_cart_quantity. intros Hin.
  apply in_map_iff in Hin as (r & <- & Hin).
  exists r. split; [exact Hin|].
  destruct (decide (cr_id r = id ∧ cr_clerk_id r = userId)); now repeat split.
Qed.

(** [addToCart] when the caller already has a line for the product. *)
Lemma addToCart_existing (env : Env) (productId : string) (quantity : Z)
    (d : Db) (userId : string) (product : ProductRow) (e : CartRow) :
  auth env = Some userId ->
  nonempty productId = true ->
  1 <= quantity ->
  store_error env (SelectProduct productId) = false ->
  products d !! productId = Some product ->
  is_active product = true ->
  store_error env SelectCartItem = false ->
  select_cart_item userId productId d = [e] ->
  store_error env UpdateCartItem = false ->
  filter (fun r => cr_id r = cr_id e ∧ cr_clerk_id r = userId) (cart_items d)
  = [e] ->
  run (addToCart env productId quantity) d
  = (if stock_quantity product <? cr_quantity e + quantity then
       (Fail (InsufficientStock None (stock_quantity product)
                (cr_quantity e + quantity)),
        mkWorld d [])
     else
       (Success (cr_id e, cr_quantity e + quantity),
        mkWorld
          (set_cart_items d
             (update_cart_quantity (cr_id e) userId (cr_quantity e + quantity)
                (cart_items d)))
          [Write UpdateCartItem])).
Proof.
  intros Hauth Hid Hq Hselect Hproduct Hactive Hline He Hupdate Hrow.
  unfold addToCart. rewrite Hauth, Hid. cbn [negb].
  assert ((quantity <? 1) = false) as -> by (apply Z.ltb_ge; exact Hq).
  exec. rewrite Hselect, Hproduct, Hactive. cbn [negb].
  rewrite Hline, He. cbn [single].
  destruct (stock_quantity product <? cr_quantity e + quantity);
    [reflexivity|].
  rewrite Hupdate, Hrow. reflexivity.
Qed.

(** [addToCart] when the caller has no line for the product. *)
Lemma addToCart_new (env : Env) (productId : string) (quantity : Z)
    (d : Db) (userId : string) (product : ProductRow) :
  auth env = Some userId ->
  nonempty productId = true ->
  1 <= quantity ->
  store_error env (SelectProduct productId) = false ->
  products d !! productId = Some product ->
  is_active product = true ->
  select_cart_item userId productId d = [] ->
  store_error env InsertCartItem = false ->
  cart_insert_allowed
    (mkCartRow (gen_random_uuid env) userId productId quantity)
    (cart_items d) = true ->
  run (addToCart env productId quantity) d
  = (if stock_quantity product <? quantity then
       (Fail (InsufficientStock None (stock_quantity product) quantity),
        mkWorld d [])
     else
       (Success (gen_random_uuid env, quantity),
        mkWorld
          (set_cart_items d
             (mkCartRow (gen_random_uuid env) userId productId quantity
              :: cart_items d))
          [Write InsertCartItem])).
Proof.
  intros Hauth Hid Hq Hselect Hproduct Hactive Hnone Hinsert Hallowed.
  unfold addToCart. rewrite Hauth, Hid. cbn [negb].
  assert ((quantity <? 1) = false) as -> by (apply Z.ltb_ge; exact Hq).
  exec. rewrite Hselect, Hproduct, Hactive. cbn [negb].
  rewrite Hnone.
  assert ((if store_error env SelectCartItem then None else single [])
          = @None CartRow) as -> by (now destruct (store_error env SelectCartItem)).
  destruct (stock_quantity product <? quantity); [reflexivity|].
  rewrite Hinsert, Hallowed. reflexivity.
Qed.

Lemma cart_insert_allowed_spec (row : CartRow) (rows : list CartRow) :
  (forall r, In r rows -> cr_id r <> cr_id row) ->
  (forall r, In r rows ->
             ~ (cr_clerk_id r = cr_clerk_id row
                /\ cr_product_id r = cr_product_id row)) ->
  cart_insert_allowed row rows = true.
Proof.
  intros Hpk Hunique. unfold cart_insert_allowed.
  apply forallb_forall. intros r Hin.
  apply andb_true_iff. split.
  - apply negb_true_iff, String.eqb_neq. now apply Hpk.
  - apply negb_true_iff, andb_false_iff.
    destruct (String.eqb (cr_clerk_id r) (cr_clerk_id row)) eqn:Hu;
      [|now left].
    right. apply String.eqb_neq. intros Hp.
    apply (Hunique r Hin). split; [now apply String.eqb_eq|exact Hp].
Qed.

(** C10. For a signed-in caller, an existing active product, a quantity
    of at least 1, a store that answers every call, and a cart table that
    respects its primary key and [UNIQUE(clerk_id, product_id)]: when the
    caller already has a line for the product, [addToCart] compares the sum
    of the line's quantity and the requested one with the stock; if the sum
    is more than the stock the call fails, with the stock and the sum in
    its answer, and the store is untouched; otherwise the line's quantity
    becomes exactly the sum and the other lines stay. Without such a line
    the requested quantity is compared instead, and a new line with that
    quantity is added. Whenever the call has changed the store, the
    caller's line for the product has a quantity of at most the stock. *)
Theorem addToCart_checks_sum_against_stock (env : Env) (productId : string)
    (quantity : Z) (d : Db) (userId : string) (product : ProductRow) :
  let x := run (addToCart env productId quantity) d in
  let mine := fun r : CartRow =>
                cr_clerk_id r = userId /\ cr_product_id r = productId in
  auth env = Some userId ->
  nonempty productId = true ->
  1 <= quantity ->
  products d !! productId = Some product ->
  is_active product = true ->
  (forall c, store_error env c = false) ->
  NoDup (map cr_id (cart_items d)) ->
  NoDup (map (fun r => (cr_clerk_id r, cr_product_id r)) (cart_items d)) ->
  (forall r, In r (cart_items d) -> cr_id r <> gen_random_uuid env) ->
  (forall e,
      In e (cart_items d) -> mine e ->
      (stock_quantity product < cr_quantity e + quantity ->
       outcome x = Fail (InsufficientStock None (stock_quantity product)
                           (cr_quantity e + quantity))
       /\ final_db x = d /\ calls x = [])
      /\
      (cr_quantity e + quantity <= stock_quantity product ->
       outcome x = Success (cr_id e, cr_quantity e + quantity)
       /\ In (mkCartRow (cr_id e) userId productId (cr_quantity e + quantity))
             (cart_items (final_db x))
       /\ (forall r, In r (cart_items (final_db x)) -> mine r ->
                     cr_quantity r = cr_quantity e + quantity)
       /\ (forall r, In r (cart_items d) -> ~ mine r ->
                     In r (cart_items (final_db x)))
       /\ length (cart_items (final_db x)) = length (cart_items d)))
  /\
  ((forall r, In r (cart_items d) -> ~ mine r) ->
   (stock_quantity product < quantity ->
    outcome x = Fail (InsufficientStock None (stock_quantity product) quantity)
    /\ final_db x = d /\ calls x = [])
   /\
   (quantity <= stock_quantity product ->
    outcome x = Success (gen_random_uuid env, quantity)
    /\ cart_items (final_db x)
       = mkCartRow (gen_random_uuid env) userId productId quantity
         :: cart_items d))
  /\
  (final_db x <> d ->
   forall r, In r (cart_items (final_db x)) -> mine r ->
             cr_quantity r <= stock_quantity product).
Proof.
  intros x mine Hauth Hid Hq Hproduct Hactive Hstore Hpk Hunique Hfresh.
  assert (forall e, In e (cart_items d) -> mine e ->
            x = (if stock_quantity product <? cr_quantity e + quantity then
                   (Fail (InsufficientStock None (stock_quantity product)
                            (cr_quantity e + quantity)),
                    mkWorld d [])
                 else
                   (Success (cr_id e, cr_quantity e + quantity),
                    mkWorld
                      (set_cart_items d
                         (update_cart_quantity (cr_id e) userId
                            (cr_quantity e + quantity) (cart_items d)))
                      [Write UpdateCartItem]))) as Hexisting.
  { intros e Hin [Huser Hprod]. subst x.
    apply (addToCart_existing env productId quantity d userId product e);
      try assumption; try apply Hstore.
    - unfold select_cart_item.
      apply filter_singleton
        with (key := fun r => (cr_clerk_id r, cr_product_id r));
        try assumption; [now split|].
      intros r [Hu Hp]. cbn. congruence.
    - apply filter_singleton with (key := cr_id); try assumption;
        [now split|]. now intros r [Hr _]. }
  assert ((forall r, In r (cart_items d) -> ~ mine r) ->
          x = (if stock_quantity product <? quantity then
                 (Fail (InsufficientStock None (stock_quantity product)
                          quantity),
                  mkWorld d [])
               else
                 (Success (gen_random_uuid env, quantity),
                  mkWorld
                    (set_cart_items d
                       (mkCartRow (gen_random_uuid env) userId productId
                          quantity :: cart_items d))
                    [Write InsertCartItem]))) as Hnew.
  { intros Hnone. subst x.
    apply (addToCart_new env productId quantity d userId product);
      try assumption; try apply Hstore.
    - unfold select_cart_item. now apply filter_none.
    - apply cart_insert_allowed_spec; [exact Hfresh|exact Hnone]. }
  assert (forall e q r,
             In e (cart_items d) -> mine e ->
             In r (update_cart_quantity (cr_id e) userId q (cart_items d)) ->
             mine r -> cr_quantity r = q) as Hupdated.
  { intros e q r Hin [Huser Hprod] Hr [Hru Hrp].
    apply update_cart_quantity_in in Hr
      as (r0 & Hin0 & Hu0 & Hp0 & _ & Hq0).
    assert (filter (fun r => cr_clerk_id r = userId ∧ cr_product_id r = productId)
                   (cart_items d) = [e]) as Hone.
    { apply filter_singleton
        with (key := fun r => (cr_clerk_id r, cr_product_id r));
        try assumption; [now split|].
      intros r1 [Hu Hp]. cbn. congruence. }
    assert (r0 ∈ filter (fun r => cr_clerk_id r = userId
                                  ∧ cr_product_id r = productId)
                        (cart_items d)) as Hr0.
    { apply list_elem_of_filter. split; [split; congruence|].
      now apply list_elem_of_In. }
    rewrite Hone in Hr0. apply list_elem_of_singleton in Hr0 as ->.
    rewrite decide_True in Hq0 by (now split). exact Hq0. }
  split; [|split].
  - intros e Hin Hmine. pose proof (Hexisting e Hin Hmine) as Hx.
    destruct Hmine as [Huser Hprod]. split.
    + intros Hlt. apply Z.ltb_lt in Hlt. rewrite Hlt in Hx. rewrite Hx.
      repeat split.
    + intros Hle. apply Z.ltb_ge in Hle. rewrite Hle in Hx. rewrite Hx.
      unfold outcome, final_db. cbn [fst snd db set_cart_items cart_items].
      split; [reflexivity|]. split; [|split; [|split]].
      * unfold update_cart_quantity. apply in_map_iff. exists e.
        split; [|exact Hin].
        rewrite decide_True by (now split). now rewrite Huser, Hprod.
      * intros r Hr Hmine. now apply (Hupdated e _ r Hin).
      * intros r Hr Hnot. unfold update_cart_quantity.
        apply in_map_iff. exists r. split; [|exact Hr].
        rewrite decide_False; [reflexivity|].
        intros [Hrid Hru]. apply Hnot.
        assert (r = e) as ->; [|now split].
        assert (filter (fun r => cr_id r = cr_id e) (cart_items d) = [e])
          as Hone
          by (apply filter_singleton with (key := cr_id); try assumption;
              [reflexivity|now intros]).
        assert (r ∈ filter (fun r => cr_id r = cr_id e) (cart_items d)) as Hr'
          by (apply list_elem_of_filter; split;
              [exact Hrid|now apply list_elem_of_In]).
        rewrite Hone in Hr'. now apply list_elem_of_singleton in Hr'.
      * unfold update_cart_quantity. apply length_map.
  - intros Hnone. pose proof (Hnew Hnone) as Hx. split.
    + intros Hlt. apply Z.ltb_lt in Hlt. rewrite Hlt in Hx. rewrite Hx.
      repeat split.
    + intros Hle. apply Z.ltb_ge in Hle. rewrite Hle in Hx. rewrite Hx.
      split; reflexivity.
  - intros Hchanged r Hr Hmine.
    assert ((exists e, In e (cart_items d) /\ mine e)
            \/ (forall r, In r (cart_items d) -> ~ mine r)) as [(e & Hin & He)|Hnone].
    { clear -d. induction (cart_items d) as [|r rows [(e & Hin & He)|Hnone]].
      - right. intros r [].
      - left. exists e. split; [now right|exact He].
      - destruct (decide (cr_clerk_id r = userId ∧ cr_product_id r = productId))
          as [Hr|Hr].
        + left. exists r. split; [now left|exact Hr].
        + right. intros r' [<-|Hin]; [exact Hr|now apply Hnone]. }
    + pose proof (Hexisting e Hin He) as Hx.
      destruct (stock_quantity product <? cr_quantity e + quantity) eqn:Hlt;
        rewrite Hx in Hchanged, Hr;
        unfold final_db in Hchanged, Hr; cbn [snd db] in Hchanged, Hr;
        [contradiction|].
      cbn [set_cart_items cart_items] in Hr.
      rewrite (Hupdated e _ r Hin He Hr Hmine).
      now apply Z.ltb_ge in Hlt.
    + pose proof (Hnew Hnone) as Hx.
      destruct (stock_quantity product <? quantity) eqn:Hlt;
        rewrite Hx in Hchanged, Hr;
        unfold final_db in Hchanged, Hr; cbn [snd db] in Hchanged, Hr;
        [contradiction|].
      cbn [set_cart_items cart_items] in Hr.
      destruct Hr as [<-|Hr]; [cbn; now apply Z.ltb_ge in Hlt|].
      now apply Hnone in Hr.
Qed.

Lemma addToCart_witness :
  outcome (run (addToCart (env_ok "c9") "p1" 3) sample_db)
  = Success ("c1", 5)
  /\ outcome (run (addToCart (env_ok "c9") "p1" 4) sample_db)
     = Fail (InsufficientStock None 5 6).
Proof.
  split.
  - apply (addToCart_checks_sum_against_stock (env_ok "c9") "p1" 3 sample_db
             "user_1" sample_product)
      with (e := mkCartRow "c1" "user_1" "p1" 2);
      try reflexivity; try (apply (bool_decide_unpack _); vm_compute; exact I).
    + intros r [<-|[]]. discriminate.
    + now left.
  - apply (addToCart_checks_sum_against_stock (env_ok "c9") "p1" 4 sample_db
             "user_1" sample_product)
      with (e := mkCartRow "c1" "user_1" "p1" 2);
      try reflexivity; try (apply (bool_decide_unpack _); vm_compute; exact I).
    + intros r [<-|[]]. discriminate.
    + now left.
Defined.

(** ** Whole numbers in binary64 *)

Lemma shl_S p k : shl p (S k) = xO (shl p k).
Proof. reflexivity. Qed.

Lemma shl_add p j k : shl (shl p j) k = shl p (k + j).
Proof. unfold shl. now rewrite Nat.iter_add. Qed.

Lemma shl_spec p k : Zpos (shl p k) = Zpos p * 2 ^ Z.of_nat k.
Proof.
  induction k as [|k IH].
  - cbn. lia.
  - rewrite shl_S, Pos2Z.inj_xO, IH, Nat2Z.inj_succ, Z.pow_succ_r by lia. lia.
Qed.

Lemma pos_iter_xO p d : Pos.iter xO p d = shl p (Pos.to_nat d).
Proof. unfold shl. apply Pos2Nat.inj_iter. Qed.

Lemma digits_shl p k :
  Zpos (digits2_pos (shl p k)) = Zpos (digits2_pos p) + Z.of_nat k.
Proof.
  induction k as [|k IH].
  - cbn. lia.
  - rewrite shl_S. cbn [digits2_pos]. rewrite Pos2Z.inj_succ, IH. lia.
Qed.

Lemma digits_bounds p :
  2 ^ (Zpos (digits2_pos p) - 1) <= Zpos p < 2 ^ Zpos (digits2_pos p).
Proof.
  induction p as [p IH|p IH|].
  - cbn [digits2_pos]. rewrite Pos2Z.inj_succ.
    replace (Z.succ (Zpos (digits2_pos p)) - 1) with (Z.succ (Zpos (digits2_pos p) - 1)) by lia.
    rewrite !Z.pow_succ_r by lia. lia.
  - cbn [digits2_pos]. rewrite Pos2Z.inj_succ.
    replace (Z.succ (Zpos (digits2_pos p)) - 1) with (Z.succ (Zpos (digits2_pos p) - 1)) by lia.
    rewrite !Z.pow_succ_r by lia. lia.
  - cbn. lia.
Qed.

Lemma iter_pos_nat {A} (f : A -> A) (n : positive) (x : A) :
  SpecFloat.iter_pos f n x = Nat.iter (Pos.to_nat n) f x.
Proof.
  revert x. induction n as [n IH|n IH|]; intros x; cbn [SpecFloat.iter_pos].
  - rewrite !IH, Pos2Nat.inj_xI.
    replace (S (2 * Pos.to_nat n))%nat with (Pos.to_nat n + S (Pos.to_nat n))%nat
      by lia.
    rewrite Nat.iter_add, Nat.iter_succ_r. reflexivity.
  - rewrite !IH, Pos2Nat.inj_xO.
    replace (2 * Pos.to_nat n)%nat with (Pos.to_nat n + Pos.to_nat n)%nat by lia.
    now rewrite Nat.iter_add.
  - reflexivity.
Qed.

Lemma shr_exact (p : positive) (s k : nat) :
  Nat.iter s shr_1 (Build_shr_record (Zpos (shl p (s + k))) false false)
  = Build_shr_record (Zpos (shl p k)) false false.
Proof.
  revert k. induction s as [|s IH]; intros k; [reflexivity|].
  rewrite Nat.iter_succ.
  replace (S s + k)%nat with (s + S k)%nat by lia.
  rewrite IH, shl_S. reflexivity.
Qed.

Lemma fexp_small (d : Z) : 0 < d -> fexp prec emax d = d - 53.
Proof. intros Hd. unfold fexp, emin, prec, emax. lia. Qed.

(** Shifting [n * 2^k] down to 53 digits loses nothing when [n] has at
    most 53 digits. *)
Lemma shr_fexp_exact (n : positive) (k : nat) :
  let dn := Zpos (digits2_pos n) in
  let j := Z.to_nat (53 - dn) in
  dn <= 53 ->
  53 <= dn + Z.of_nat k ->
  shr_fexp prec emax (Zpos (shl n k)) (- Z.of_nat k) loc_Exact
  = (Build_shr_record (Zpos (shl n j)) false false, dn - 53).
Proof.
  intros dn j Hdn Hk. unfold shr_fexp. cbn [Zdigits2 shr_record_of_loc].
  rewrite digits_shl. fold dn.
  replace (dn + Z.of_nat k + - Z.of_nat k) with dn by lia.
  rewrite fexp_small by (unfold dn; lia).
  unfold shr.
  destruct (dn - 53 - - Z.of_nat k) as [|s|s] eqn:Hs.
  - assert (k = j) as -> by (unfold j; lia).
    f_equal. unfold j. lia.
  - rewrite iter_pos_nat.
    assert (k = Pos.to_nat s + j)%nat as -> by (unfold j; lia).
    rewrite shr_exact. f_equal. lia.
  - lia.
Qed.

Lemma round_aux_exact (n : positive) (k : nat) :
  let dn := Zpos (digits2_pos n) in
  let j := Z.to_nat (53 - dn) in
  dn <= 53 ->
  53 <= dn + Z.of_nat k ->
  binary_round_aux prec emax false (Zpos (shl n k)) (- Z.of_nat k) loc_Exact
  = S754_finite false (shl n j) (dn - 53).
Proof.
  intros dn j Hdn Hk. unfold binary_round_aux.
  rewrite (shr_fexp_exact n k Hdn Hk). fold dn j.
  cbn [shr_m loc_of_shr_record round_nearest_even].
  replace (dn - 53) with (- Z.of_nat j) at 1 by (unfold j; lia).
  rewrite (shr_fexp_exact n j Hdn) by (unfold j; lia). fold dn j.
  cbn [shr_m].
  replace (dn - 53 <=? emax - prec) with true; [reflexivity|].
  symmetry. apply Z.leb_le. unfold emax, prec. lia.
Qed.

(** Rounding [n * 2^k * 2^-k] gives [n], in its normal form. *)
Lemma round_exact (n : positive) (k : nat) :
  let dn := Zpos (digits2_pos n) in
  let j := Z.to_nat (53 - dn) in
  dn <= 53 ->
  binary_round prec emax false (shl n k) (- Z.of_nat k)
  = S754_finite false (shl n j) (dn - 53).
Proof.
  intros dn j Hdn.
  unfold binary_round. rewrite digits_shl. fold dn.
  replace (dn + Z.of_nat k + - Z.of_nat k) with dn by lia.
  rewrite fexp_small by (unfold dn; lia).
  unfold shl_align.
  destruct (dn - 53 - - Z.of_nat k) as [|s|s] eqn:Hs.
  - apply (round_aux_exact n k Hdn). fold dn. lia.
  - apply (round_aux_exact n k Hdn). fold dn. lia.
  - rewrite pos_iter_xO, shl_add.
    replace (Pos.to_nat s + k)%nat with j by (unfold j; lia).
    replace (dn - 53) with (- Z.of_nat j) at 1 by (unfold j; lia).
    apply (round_aux_exact n j Hdn). fold dn. unfold j. lia.
Qed.

Lemma digits_le_53 (n : positive) :
  Zpos n < 2 ^ 53 -> Zpos (digits2_pos n) <= 53.
Proof.
  intros Hn. pose proof (digits_bounds n) as [Hlo _].
  assert (2 ^ (Zpos (digits2_pos n) - 1) < 2 ^ 53) as Hlt by lia.
  apply Z.pow_lt_mono_r_iff in Hlt; lia.
Qed.

Lemma SFZ_pos (n : positive) :
  Zpos n < 2 ^ 53 ->
  SFZ (Zpos n)
  = S754_finite false
      (shl n (Z.to_nat (53 - Zpos (digits2_pos n))))
      (Zpos (digits2_pos n) - 53).
Proof.
  intros Hn. unfold SFZ, binary_normalize.
  apply (round_exact n 0 (digits_le_53 n Hn)).
Qed.

Lemma shl_mul (a b : positive) (j k : nat) :
  (shl a j * shl b k)%positive = shl (a * b) (j + k).
Proof.
  apply Pos2Z.inj. rewrite Pos2Z.inj_mul, !shl_spec, Pos2Z.inj_mul.
  rewrite Nat2Z.inj_add, Z.pow_add_r by lia. ring.
Qed.

Lemma shl_plus (a b : positive) (k : nat) :
  (shl a k + shl b k)%positive = shl (a + b) k.
Proof.
  apply Pos2Z.inj. rewrite Pos2Z.inj_add, !shl_spec, Pos2Z.inj_add. ring.
Qed.

Lemma digits_mul (a b : positive) :
  Zpos (digits2_pos a) + Zpos (digits2_pos b) - 1
  <= Zpos (digits2_pos (a * b)).
Proof.
  pose proof (digits_bounds a) as [Ha _].
  pose proof (digits_bounds b) as [Hb _].
  pose proof (digits_bounds (a * b)) as [_ Hab].
  rewrite Pos2Z.inj_mul in Hab.
  assert (2 ^ (Zpos (digits2_pos a) - 1) * 2 ^ (Zpos (digits2_pos b) - 1)
          <= Zpos a * Zpos b) as Hlo
    by (apply Z.mul_le_mono_nonneg; lia).
  rewrite <- Z.pow_add_r in Hlo by lia.
  assert (2 ^ (Zpos (digits2_pos a) - 1 + (Zpos (digits2_pos b) - 1))
          < 2 ^ Zpos (digits2_pos (a * b))) as Hlt by lia.
  apply Z.pow_lt_mono_r_iff in Hlt; lia.
Qed.

Lemma SFZ_mul_pos (a b : positive) :
  Zpos (a * b) < 2 ^ 53 ->
  SF64mul (SFZ (Zpos a)) (SFZ (Zpos b)) = SFZ (Zpos (a * b)).
Proof.
  intros Hab.
  assert (Zpos a < 2 ^ 53) as Ha by (rewrite Pos2Z.inj_mul in Hab; nia).
  assert (Zpos b < 2 ^ 53) as Hb by (rewrite Pos2Z.inj_mul in Hab; nia).
  rewrite (SFZ_pos a Ha), (SFZ_pos b Hb), (SFZ_pos (a * b) Hab).
  unfold SF64mul, SFmul. cbn [xorb]. rewrite shl_mul.
  pose proof (digits_le_53 a Ha) as Hda.
  pose proof (digits_le_53 b Hb) as Hdb.
  pose proof (digits_mul a b) as Hd.
  replace (Zpos (digits2_pos a) - 53 + (Zpos (digits2_pos b) - 53))
    with (- Z.of_nat (Z.to_nat (53 - Zpos (digits2_pos a))
                      + Z.to_nat (53 - Zpos (digits2_pos b)))) by lia.
  apply round_aux_exact; [now apply digits_le_53|lia].
Qed.

Lemma fst_shl_align (m : positive) (e e' : Z) :
  e' <= e -> fst (shl_align m e e') = shl m (Z.to_nat (e - e')).
Proof.
  intros He. unfold shl_align.
  destruct (e' - e) as [|d|d] eqn:Hd.
  - replace (e - e') with 0 by lia. reflexivity.
  - lia.
  - cbn [fst]. rewrite pos_iter_xO. f_equal. lia.
Qed.

Lemma SFZ_add_pos (a b : positive) :
  Zpos (a + b) < 2 ^ 53 ->
  SF64add (SFZ (Zpos a)) (SFZ (Zpos b)) = SFZ (Zpos (a + b)).
Proof.
  intros Hab.
  assert (Zpos a < 2 ^ 53) as Ha by lia.
  assert (Zpos b < 2 ^ 53) as Hb by lia.
  rewrite (SFZ_pos a Ha), (SFZ_pos b Hb), (SFZ_pos (a + b) Hab).
  pose proof (digits_le_53 a Ha) as Hda.
  pose proof (digits_le_53 b Hb) as Hdb.
  unfold SF64add, SFadd. cbn [cond_Zopp].
  set (ez := Z.min (Zpos (digits2_pos a) - 53) (Zpos (digits2_pos b) - 53)).
  rewrite !fst_shl_align by (unfold ez; lia).
  rewrite !shl_add.
  replace (Z.to_nat (Zpos (digits2_pos a) - 53 - ez)
           + Z.to_nat (53 - Zpos (digits2_pos a)))%nat
    with (Z.to_nat (- ez)) by (unfold ez; lia).
  replace (Z.to_nat (Zpos (digits2_pos b) - 53 - ez)
           + Z.to_nat (53 - Zpos (digits2_pos b)))%nat
    with (Z.to_nat (- ez)) by (unfold ez; lia).
  rewrite <- Pos2Z.inj_add, shl_plus. cbn [binary_normalize].
  replace ez with (- Z.of_nat (Z.to_nat (- ez))) at 2 by (unfold ez; lia).
  apply round_exact. now apply digits_le_53.
Qed.

Lemma SFZ_shape (z : Z) :
  0 <= z < 2 ^ 53 ->
  SFZ z = S754_zero false \/ exists m e, SFZ z = S754_finite false m e.
Proof.
  intros Hz. destruct z as [|n|n]; [now left| |lia].
  right. rewrite SFZ_pos by lia. eauto.
Qed.

Lemma SFZ_add (a b : Z) :
  0 <= a -> 0 <= b -> a + b < 2 ^ 53 ->
  SF64add (SFZ a) (SFZ b) = SFZ (a + b).
Proof.
  intros Ha Hb Hab.
  destruct a as [|a|a]; [|destruct b as [|b|b]|]; try lia.
  - rewrite Z.add_0_l.
    destruct (SFZ_shape b) as [Hz|(m & e & Hf)]; [lia| |];
      [rewrite Hz|rewrite Hf]; reflexivity.
  - rewrite Z.add_0_r. rewrite SFZ_pos by lia. reflexivity.
  - now apply SFZ_add_pos.
Qed.

Lemma SFZ_mul (a b : Z) :
  0 <= a < 2 ^ 53 -> 0 <= b < 2 ^ 53 -> a * b < 2 ^ 53 ->
  SF64mul (SFZ a) (SFZ b) = SFZ (a * b).
Proof.
  intros Ha Hb Hab.
  destruct a as [|a|a]; [|destruct b as [|b|b]|]; try lia.
  - rewrite Z.mul_0_l.
    destruct (SFZ_shape b Hb) as [Hz|(m & e & Hf)];
      [rewrite Hz|rewrite Hf]; reflexivity.
  - rewrite Z.mul_0_r. rewrite SFZ_pos by lia. reflexivity.
  - now apply SFZ_mul_pos.
Qed.

Lemma Prim2SF_of_int (z : Z) :
  0 <= z < 2 ^ 53 -> Prim2SF (of_int z) = SFZ z.
Proof.
  intros Hz. destruct z as [|n|n]; [reflexivity| |lia].
  unfold of_int. rewrite of_uint63_spec, Uint63.of_Z_spec.
  rewrite Z.mod_small; [reflexivity|].
  change wB with (2 ^ 63).
  assert (2 ^ 53 < 2 ^ 63) by reflexivity. lia.
Qed.

Lemma of_int_add (a b : Z) :
  0 <= a -> 0 <= b -> a + b < 2 ^ 53 ->
  (of_int a + of_int b)%float = of_int (a + b).
Proof.
  intros Ha Hb Hab. apply Prim2SF_inj.
  rewrite add_spec, !Prim2SF_of_int by lia. now apply SFZ_add.
Qed.

Lemma of_int_mul (a b : Z) :
  0 <= a < 2 ^ 53 -> 0 <= b < 2 ^ 53 -> a * b < 2 ^ 53 ->
  (of_int a * of_int b)%float = of_int (a * b).
Proof.
  intros Ha Hb Hab. apply Prim2SF_inj.
  rewrite mul_spec, !Prim2SF_of_int by lia. now apply SFZ_mul.
Qed.

(** ** The cart total *)

Lemma exact_total_nonneg (whole : CartItem -> Z) (items : list CartItem) :
  (forall item, In item items -> 0 <= whole item /\ 0 <= ci_quantity item) ->
  0 <= exact_total whole items.
Proof.
  induction items as [|item rest IH]; intros Hitems; [cbn; lia|].
  cbn [exact_total fold_right]. fold (exact_total whole rest).
  destruct (Hitems item) as [Hw Hq]; [now left|].
  assert (0 <= exact_total whole rest)
    by (apply IH; intros i Hi; apply Hitems; now right).
  nia.
Qed.

(** The running binary64 total of whole prices is the exact total as long
    as that stays below [2^53]. *)
Lemma float_sum_whole (whole : CartItem -> Z) (items : list CartItem) :
  forall z,
    0 <= z ->
    (forall item, In item items ->
                  0 <= whole item
                  /\ price (ci_products item) = of_int (whole item)
                  /\ 1 <= ci_quantity item < 2 ^ 31) ->
    z + exact_total whole items < 2 ^ 53 ->
    float_sum items (of_int z) = of_int (z + exact_total whole items).
Proof.
  induction items as [|item rest IH]; intros z Hz Hitems Hbound.
  - cbn. now rewrite Z.add_0_r.
  - cbn [exact_total fold_right] in *. fold (exact_total whole rest) in *.
    destruct (Hitems item) as (Hw & Hprice & Hq); [now left|].
    assert (0 <= exact_total whole rest) as Hrest.
    { apply exact_total_nonneg. intros i Hi.
      destruct (Hitems i) as (? & _ & ?); [now right|]. lia. }
    assert (2 ^ 31 < 2 ^ 53) as Hpow by reflexivity.
    assert (whole item * ci_quantity item < 2 ^ 53) as Hline by nia.
    assert (whole item < 2 ^ 53) as Hwhole by nia.
    unfold float_sum. cbn [fold_left]. fold (float_sum rest).
    unfold line_total. rewrite Hprice.
    rewrite of_int_mul by lia.
    rewrite of_int_add by nia.
    rewrite IH; [f_equal; lia|nia| |lia].
    intros i Hi. apply Hitems. now right.
Qed.

(** C8 (amended). For a cart of any number of lines whose unit prices are
    whole numbers, with quantities from 1 to below [2^31] and an exact
    total below [2^53], the total [getCartItems] computes is the exact sum
    of unit price times quantity, and so is the total [createOrder]
    computes again when it accepts the cart. *)
Theorem cart_total_exact_for_whole_prices (env : Env) (d : Db)
    (items : list CartItem) (total : float) (whole : CartItem -> Z) :
  getCartItems env d = CartOk items total ->
  (forall item, In item items ->
                0 <= whole item
                /\ price (ci_products item) = of_int (whole item)
                /\ 1 <= ci_quantity item < 2 ^ 31) ->
  exact_total whole items < 2 ^ 53 ->
  total = of_int (exact_total whole items)
  /\ forall calculated lines,
       check_lines items 0%float [] = inr (calculated, lines) ->
       calculated = of_int (exact_total whole items).
Proof.
  intros Hcart Hitems Hbound.
  apply getCartItems_ok in Hcart as (_ & _ & _ & _ & ->).
  assert (float_sum items 0%float = of_int (exact_total whole items)) as Hsum
    by (apply (float_sum_whole whole items 0); [lia|exact Hitems|lia]).
  split; [exact Hsum|].
  intros calculated lines Hcheck.
  apply check_lines_accepts in Hcheck as [-> _]. exact Hsum.
Qed.

Lemma cart_total_witness :
  exists total,
    getCartItems (env_ok "-") sample_db
    = CartOk [mkCartItem "c1" "user_1" "p1" 2 sample_product] total
    /\ total = of_int (10000 * 2).
Proof.
  exists 20000%float.
  assert (getCartItems (env_ok "-") sample_db
          = CartOk [mkCartItem "c1" "user_1" "p1" 2 sample_product]
              20000%float) as Hcart by (vm_compute; reflexivity).
  split; [exact Hcart|].
  refine (proj1 (cart_total_exact_for_whole_prices (env_ok "-") sample_db
                   [mkCartItem "c1" "user_1" "p1" 2 sample_product]
                   20000%float (fun _ => 10000) Hcart _ _)).
  - intros item [<-|[]]. cbn. repeat split; lia.
  - cbn. lia.
Defined.

(** A thousand lines of whole prices, summed by the loop itself. *)
Example thousand_lines_total :
  float_sum (replicate 1000 (mkCartItem "c1" "user_1" "p1" 3
                               (mkProductRow "P1" 89000%float 150 true)))
    0%float
  = of_int (1000 * (89000 * 3)).
Proof. vm_compute. reflexivity. Qed.

(** C8 (counterexample). Three units at the price 0.10: the total is the
    binary64 product [0.1 * 3 = 0.30000000000000004], which is not the
    binary64 number of the exact decimal sum 0.30. *)
Lemma fractional_price_total_drifts :
  exists items total,
    getCartItems (env_ok "-") fractional_price_db = CartOk items total
    /\ map (fun item => (price (ci_products item), ci_quantity item)) items
       = [(0.1%float, 3)]
    /\ total = 0.30000000000000004%float
    /\ total <> 0.3%float.
Proof.
  eexists _, _. split; [vm_compute; reflexivity|].
  split; [reflexivity|]. split; [reflexivity|].
  intros H. apply (f_equal Prim2SF) in H. vm_compute in H. discriminate H.
Qed.

(** ** Totals as the store holds them *)

(** What [total_amount DECIMAL(10,2)] keeps of a number: a whole amount as
    it is; the binary64 sum [0.1 * 3] as [0.3]; [1.005], which the action
    writes with these four digits, as [1.01]; and anything below half a
    hundredth as [0]. *)
Example decimal_10_2_samples :
  decimal_10_2 20000%float = 20000%float
  /\ decimal_10_2 0.30000000000000004%float = 0.3%float
  /\ decimal_10_2 1.005%float = 1.01%float
  /\ decimal_10_2 19999.994999%float = 19999.99%float
  /\ decimal_10_2 0.004%float = 0%float.
Proof. vm_compute. repeat split. Qed.

(** Three units at the price 0.10, paid with 0.30: the payment action
    answers the total it computed, [0.30000000000000004], and the order
    it wrote holds, and [getOrder] reads back, [0.3]. [createOrder]
    answers the total of the row it inserted, [0.3]. *)
Example fractional_total_is_stored_rounded :
  let x := run (confirmPaymentAndCreateOrder (env_ok "o1") "pay_1" "tmp_1"
                  0.3%float None None) fractional_price_db in
  let y := run (createOrder (env_ok "o1") sample_order_input)
             fractional_price_db in
  outcome x = Success ("o1", "pay_1", 0.30000000000000004%float)
  /\ map o_total_amount (orders (final_db x)) = [0.3%float]
  /\ (exists order,
         getOrder (env_ok "-") "o1" (final_db x) = OrderOk order
         /\ ord_total_amount order = 0.3%float)
  /\ outcome y = Success ("o1", 0.3%float)
  /\ map o_total_amount (orders (final_db y)) = [0.3%float].
Proof.
  cbv zeta. split; [vm_compute; reflexivity|].
  split; [vm_compute; reflexivity|].
  split; [eexists; split; [vm_compute; reflexivity|reflexivity]|].
  split; vm_compute; reflexivity.
Qed.

(** ** The scenarios of the specification *)

(** Scenario A: a cart of two units of [P1] at 10000 with stock 5 becomes a
    [pending] order of 20000; the stock is not touched. *)
Example scenario_A :
  let x := run (createOrder (env_ok "o1") sample_order_input) sample_db in
  outcome x = Success ("o1", 20000%float)
  /\ map (fun o => (o_id o, o_status o)) (orders (final_db x))
     = [("o0", pending); ("o1", pending)]
  /\ products (final_db x) = products sample_db
  /\ gateway_calls (calls x) = 0%nat.
Proof. vm_compute. repeat split. Qed.

(** Scenario B: two units asked of a product of which one is left; no
    order row is written. *)
Example scenario_B :
  run (createOrder (env_ok "o1") sample_order_input) short_stock_db
  = (Fail (InsufficientStock (Some "P1") 1 2), mkWorld short_stock_db []).
Proof. vm_compute. reflexivity. Qed.

(** Scenario C: the cart is worth 20000 and 19999 is claimed; the gateway
    is not called. *)
Example scenario_C :
  run (confirmPaymentAndCreateOrder (env_ok "o1") "pay_1" "tmp_1"
         19999%float None None) sample_db
  = (Fail AmountMismatch, mkWorld sample_db []).
Proof. vm_compute. reflexivity. Qed.

(** Scenario D: the amount matches and the gateway approves; the order is
    [confirmed], the stock of [P1] goes from 5 to 3 and the cart is
    emptied. *)
Example scenario_D :
  let x := run (confirmPaymentAndCreateOrder (env_ok "o1") "pay_1" "tmp_1"
                  20000%float None None) sample_db in
  outcome x = Success ("o1", "pay_1", 20000%float)
  /\ map (fun o => (o_id o, o_status o)) (orders (final_db x))
     = [("o0", pending); ("o1", confirmed)]
  /\ stock_of (final_db x) "p1" = Some 3
  /\ cart_items (final_db x) = []
  /\ calls x = [CallToss "pay_1" "tmp_1" 20000%float; Write InsertOrder;
                Write InsertOrderItems; Write (UpdateProduct "p1");
                Write DeleteCartItems].
Proof. vm_compute. repeat split. Qed.

(** Scenario D with a best-effort tail that fails at every call: the
    answer and the order are the same, the stock and the cart stay. *)
Example scenario_D_failing_tail :
  let x := run (confirmPaymentAndCreateOrder (env_tail_fails "o1") "pay_1"
                  "tmp_1" 20000%float None None) sample_db in
  outcome x = Success ("o1", "pay_1", 20000%float)
  /\ map (fun o => (o_id o, o_status o)) (orders (final_db x))
     = [("o0", pending); ("o1", confirmed)]
  /\ stock_of (final_db x) "p1" = Some 5
  /\ cart_items (final_db x) = cart_items sample_db.
Proof. vm_compute. repeat split. Qed.

(** Scenario E: a [confirmed] order cannot be cancelled; a [pending] order
    of the caller becomes [cancelled]. *)
Example scenario_E :
  run (cancelOrder (env_ok "-") "o2") orders_db
  = (Fail InvalidState, mkWorld orders_db [])
  /\ map (fun o => (o_id o, o_status o))
         (orders (final_db (run (cancelOrder (env_ok "-") "o1") orders_db)))
     = [("o1", cancelled); ("o2", confirmed)].
Proof. vm_compute. split; reflexivity. Qed.

(** * Cart lines, order reading and input schemas *)

(** ** Line-level cart actions *)

Lemma single_spec {A} (rows : list A) (x : A) :
  single rows = Some x <-> rows = [x].
Proof.
  split.
  - destruct rows as [|a [|b rest]]; cbn; intros [= ->]; reflexivity.
  - intros ->. reflexivity.
Qed.

Lemma select_cart_line_in (cartItemId userId : string) (rows : list CartRow)
    (r : CartRow) :
  In r (select_cart_line cartItemId userId rows) <->
  In r rows /\ cr_id r = cartItemId /\ cr_clerk_id r = userId.
Proof.
  unfold select_cart_line.
  rewrite <- !list_elem_of_In, list_elem_of_filter. tauto.
Qed.

Lemma select_cart_line_update (cartItemId userId : string) (q : Z)
    (rows : list CartRow) :
  select_cart_line cartItemId userId
    (update_cart_quantity cartItemId userId q rows)
  = map (fun r => mkCartRow (cr_id r) (cr_clerk_id r) (cr_product_id r) q)
        (select_cart_line cartItemId userId rows).
Proof.
  unfold select_cart_line, update_cart_quantity.
  induction rows as [|r rows IH]; [reflexivity|].
  cbn [map]. rewrite !filter_cons.
  destruct (decide (cr_id r = cartItemId ∧ cr_clerk_id r = userId)) as [Hr|Hr].
  - cbn [cr_id cr_clerk_id].
    destruct (decide (cr_id r = cartItemId ∧ cr_clerk_id r = userId));
      [|contradiction].
    cbn [map]. now rewrite IH.
  - destruct (decide (cr_id r = cartItemId ∧ cr_clerk_id r = userId));
      [contradiction|].
    apply IH.
Qed.

(** What a run of [updateCartItemQuantity] that answers with success has
    gone through. *)
Lemma updateCartItemQuantity_ok (env : Env) (cartItemId : string)
    (newQuantity : Z) (d : Db) (data : string * Z) :
  outcome (run (updateCartItemQuantity env cartItemId newQuantity) d)
  = LineOk data ->
  exists userId line product,
    auth env = Some userId
    /\ 1 <= newQuantity
    /\ store_error env SelectCartItem = false
    /\ select_cart_line cartItemId userId (cart_items d) = [line]
    /\ store_error env (SelectProduct (cr_product_id line)) = false
    /\ products d !! cr_product_id line = Some product
    /\ is_active product = true
    /\ newQuantity <= stock_quantity product
    /\ store_error env UpdateCartItem = false
    /\ run (updateCartItemQuantity env cartItemId newQuantity) d
       = (LineOk (cartItemId, newQuantity),
          mkWorld
            (set_cart_items d
               (update_cart_quantity cartItemId userId newQuantity
                  (cart_items d)))
            [Write UpdateCartItem]).
Proof.
  unfold updateCartItemQuantity.
  destruct (auth env) as [userId|] eqn:Hauth; [|discriminate].
  destruct (newQuantity <? 1) eqn:Hq; [discriminate|].
  exec.
  destruct (store_error env SelectCartItem) eqn:Hsel; [discriminate|].
  destruct (single (select_cart_line cartItemId userId (cart_items d)))
    as [line|] eqn:Hline; [|discriminate].
  apply single_spec in Hline.
  destruct (store_error env (SelectProduct (cr_product_id line))) eqn:Hsp;
    [discriminate|].
  destruct (products d !! cr_product_id line) as [product|] eqn:Hp;
    [|discriminate].
  destruct (is_active product) eqn:Hact; [|discriminate].
  cbn [negb].
  destruct (stock_quantity product <? newQuantity) eqn:Hstock; [discriminate|].
  exec.
  destruct (store_error env UpdateCartItem) eqn:Hup; [discriminate|].
  rewrite select_cart_line_update, Hline. cbn [map single].
  exec. cbn [cr_id cr_quantity].
  assert (cr_id line = cartItemId) as Hid.
  { assert (In line (select_cart_line cartItemId userId (cart_items d)))
      as Hin by (rewrite Hline; now left).
    now apply select_cart_line_in in Hin. }
  rewrite Hid. intros _.
  exists userId, line, product.
  repeat split; try reflexivity; try assumption; lia.
Qed.

Lemma removeFromCart_ok (env : Env) (cartItemId : string) (d : Db)
    (data : unit) :
  outcome (run (removeFromCart env cartItemId) d) = LineOk data ->
  exists userId line,
    auth env = Some userId
    /\ nonempty cartItemId = true
    /\ store_error env SelectCartItem = false
    /\ select_cart_line cartItemId userId (cart_items d) = [line]
    /\ store_error env DeleteCartItems = false
    /\ run (removeFromCart env cartItemId) d
       = (LineOk tt,
          mkWorld
            (set_cart_items d
               (delete_cart_line cartItemId userId (cart_items d)))
            [Write DeleteCartItems]).
Proof.
  unfold removeFromCart.
  destruct (auth env) as [userId|] eqn:Hauth; [|discriminate].
  destruct (nonempty cartItemId) eqn:Hid; [|discriminate].
  exec.
  destruct (store_error env SelectCartItem) eqn:Hsel; [discriminate|].
  destruct (single (select_cart_line cartItemId userId (cart_items d)))
    as [line|] eqn:Hline; [|discriminate].
  apply single_spec in Hline.
  exec.
  destruct (store_error env DeleteCartItems) eqn:Hdel; [discriminate|].
  exec. intros _.
  exists userId, line. repeat split; try reflexivity; assumption.
Qed.

Lemma updateCartItemQuantity_refused (env : Env) (cartItemId : string)
    (newQuantity : Z) (d : Db) (e : CartLineFailure) :
  outcome (run (updateCartItemQuantity env cartItemId newQuantity) d)
  = LineFail e ->
  final_db (run (updateCartItemQuantity env cartItemId newQuantity) d) = d.
Proof.
  unfold updateCartItemQuantity. exec.
  repeat case_match; simplify_eq; cbn; try reflexivity; try discriminate.
Qed.

Lemma removeFromCart_refused (env : Env) (cartItemId : string) (d : Db)
    (e : CartLineFailure) :
  outcome (run (removeFromCart env cartItemId) d) = LineFail e ->
  final_db (run (removeFromCart env cartItemId) d) = d.
Proof.
  unfold removeFromCart. exec.
  repeat case_match; simplify_eq; cbn; try reflexivity; try discriminate.
Qed.

(** X1. [updateCartItemQuantity] answers with success only for a line of
    the caller whose product exists and is on sale, and only with a
    quantity between 1 and the product's stock; the line then holds
    exactly that quantity, no line is added or removed, and the update is
    the only write sent to the store. *)
Theorem updateCartItemQuantity_success_is_within_stock (env : Env)
    (cartItemId : string) (newQuantity : Z) (d : Db) (data : string * Z) :
  let x := run (updateCartItemQuantity env cartItemId newQuantity) d in
  outcome x = LineOk data ->
  data = (cartItemId, newQuantity)
  /\ exists userId line product,
       auth env = Some userId
       /\ In line (cart_items d)
       /\ cr_id line = cartItemId
       /\ cr_clerk_id line = userId
       /\ products d !! cr_product_id line = Some product
       /\ is_active product = true
       /\ 1 <= newQuantity <= stock_quantity product
       /\ In (mkCartRow cartItemId userId (cr_product_id line) newQuantity)
             (cart_items (final_db x))
       /\ (forall r, In r (cart_items (final_db x)) ->
                     cr_id r = cartItemId -> cr_clerk_id r = userId ->
                     cr_quantity r = newQuantity)
       /\ length (cart_items (final_db x)) = length (cart_items d)
       /\ calls x = [Write UpdateCartItem].
Proof.
  intros x Hok. subst x.
  pose proof Hok as Hok'.
  apply updateCartItemQuantity_ok in Hok'
    as (userId & line & product & Hauth & Hq & _ & Hline & _ & Hp & Hact
        & Hstock & _ & Hrun).
  rewrite Hrun in Hok |- *. cbn [outcome final_db calls fst snd db trace] in *.
  injection Hok as <-. split; [reflexivity|].
  assert (In line (select_cart_line cartItemId userId (cart_items d))) as Hin
    by (rewrite Hline; now left).
  apply select_cart_line_in in Hin as (Hin & Hid & Hclerk).
  exists userId, line, product.
  repeat split; try assumption.
  - cbn [set_cart_items cart_items]. unfold update_cart_quantity.
    apply in_map_iff. exists line. split; [|assumption].
    destruct (decide (cr_id line = cartItemId ∧ cr_clerk_id line = userId))
      as [_|Hn]; [|tauto].
    now rewrite Hid, Hclerk.
  - intros r Hr Hrid Hrclerk. cbn [set_cart_items cart_items] in Hr.
    apply update_cart_quantity_in in Hr
      as (r0 & _ & Hc & _ & Hi & Hquantity).
    rewrite Hquantity.
    destruct (decide (cr_id r0 = cartItemId ∧ cr_clerk_id r0 = userId))
      as [_|Hn]; [reflexivity|].
    exfalso. apply Hn. split; congruence.
  - cbn [set_cart_items cart_items]. unfold update_cart_quantity.
    apply length_map.
Qed.

Lemma updateCartItemQuantity_witness :
  outcome (run (updateCartItemQuantity (env_ok "-") "c1" 5) sample_db)
  = LineOk ("c1", 5)
  /\ In (mkCartRow "c1" "user_1" "p1" 5)
        (cart_items (final_db (run (updateCartItemQuantity (env_ok "-") "c1" 5)
                                 sample_db))).
Proof.
  assert (outcome (run (updateCartItemQuantity (env_ok "-") "c1" 5) sample_db)
          = LineOk ("c1", 5)) as Hok by (vm_compute; reflexivity).
  split; [exact Hok|].
  destruct (updateCartItemQuantity_success_is_within_stock
              (env_ok "-") "c1" 5 sample_db ("c1", 5) Hok)
    as (_ & userId & line & product & Hauth & Hin & _ & _ & _ & _ & _ & Hrow & _).
  injection Hauth as <-.
  destruct Hin as [<-|[]]. exact Hrow.
Defined.

(** X2. A line-level cart action that answers with an error has changed
    nothing: after a refused [updateCartItemQuantity] or [removeFromCart]
    the store is the one the action started from. *)
Theorem refused_line_action_changes_nothing (env : Env) (cartItemId : string)
    (newQuantity : Z) (d : Db) :
  (forall e,
      outcome (run (updateCartItemQuantity env cartItemId newQuantity) d)
      = LineFail e ->
      final_db (run (updateCartItemQuantity env cartItemId newQuantity) d) = d)
  /\
  (forall e,
      outcome (run (removeFromCart env cartItemId) d) = LineFail e ->
      final_db (run (removeFromCart env cartItemId) d) = d).
Proof.
  split; intros e.
  - apply updateCartItemQuantity_refused.
  - apply removeFromCart_refused.
Qed.

(** X3. A cart line that belongs to another user is answered exactly like
    a line that does not exist: [updateCartItemQuantity] and
    [removeFromCart] answer [LineNotFound], send no write and leave the
    store as it was. *)
Theorem line_of_another_user_is_not_found (env : Env) (cartItemId : string)
    (newQuantity : Z) (d : Db) (userId : string) :
  auth env = Some userId ->
  (forall r, In r (cart_items d) -> cr_id r = cartItemId ->
             cr_clerk_id r <> userId) ->
  (1 <= newQuantity ->
   run (updateCartItemQuantity env cartItemId newQuantity) d
   = (LineFail LineNotFound, mkWorld d []))
  /\
  (nonempty cartItemId = true ->
   run (removeFromCart env cartItemId) d
   = (LineFail LineNotFound, mkWorld d [])).
Proof.
  intros Hauth Hforeign.
  assert (select_cart_line cartItemId userId (cart_items d) = []) as Hnone.
  { unfold select_cart_line. apply filter_none.
    intros r Hr [Hid Hclerk]. exact (Hforeign r Hr Hid Hclerk). }
  split.
  - intros Hq. unfold updateCartItemQuantity. rewrite Hauth.
    destruct (newQuantity <? 1) eqn:Hlt; [lia|].
    exec. rewrite Hnone.
    destruct (store_error env SelectCartItem); reflexivity.
  - intros Hid. unfold removeFromCart. rewrite Hauth, Hid.
    exec. rewrite Hnone.
    destruct (store_error env SelectCartItem); reflexivity.
Qed.

Lemma line_of_another_user_witness :
  run (updateCartItemQuantity env_user_2 "c1" 1) sample_db
  = (LineFail LineNotFound, mkWorld sample_db [])
  /\ run (removeFromCart env_user_2 "c1") sample_db
     = (LineFail LineNotFound, mkWorld sample_db []).
Proof.
  destruct (line_of_another_user_is_not_found env_user_2 "c1" 1 sample_db
              "user_2" eq_refl) as [Hupdate Hremove].
  - intros r [<-|[]] _. cbn. discriminate.
  - split; [apply Hupdate; lia|apply Hremove; reflexivity].
Defined.

Lemma lines_of_update (u cartItemId userId : string) (q : Z)
    (rows : list CartRow) :
  u <> userId ->
  lines_of u (update_cart_quantity cartItemId userId q rows) = lines_of u rows.
Proof.
  intros Hu. unfold lines_of, update_cart_quantity.
  induction rows as [|r rows IH]; [reflexivity|].
  cbn [map]. rewrite !filter_cons, IH.
  destruct (decide (cr_id r = cartItemId ∧ cr_clerk_id r = userId))
    as [[_ Hr]|_]; [|reflexivity].
  cbn [cr_clerk_id].
  destruct (decide (cr_clerk_id r = u)); [congruence|reflexivity].
Qed.

Lemma lines_of_delete (u cartItemId userId : string) (rows : list CartRow) :
  u <> userId ->
  lines_of u (delete_cart_line cartItemId userId rows) = lines_of u rows.
Proof.
  intros Hu. unfold lines_of, delete_cart_line.
  induction rows as [|r rows IH]; [reflexivity|].
  rewrite !filter_cons.
  case_decide as Hr.
  - rewrite filter_cons, IH. reflexivity.
  - rewrite IH.
    destruct (decide (cr_clerk_id r = u)) as [Hc|]; [|reflexivity].
    destruct Hr as [_ Hclerk]. congruence.
Qed.

(** X4. No cart action touches the lines of a user other than its caller:
    whatever [addToCart], [updateCartItemQuantity] and [removeFromCart]
    answer, the lines of every other user are the same after the run as
    before it. *)
Theorem cart_actions_leave_other_users_lines (env : Env) (productId : string)
    (quantity : Z) (cartItemId : string) (newQuantity : Z) (d : Db)
    (u : string) :
  auth env <> Some u ->
  lines_of u (cart_items (final_db (run (addToCart env productId quantity) d)))
  = lines_of u (cart_items d)
  /\ lines_of u (cart_items (final_db
       (run (updateCartItemQuantity env cartItemId newQuantity) d)))
     = lines_of u (cart_items d)
  /\ lines_of u (cart_items (final_db (run (removeFromCart env cartItemId) d)))
     = lines_of u (cart_items d).
Proof.
  intros Hu. repeat split.
  - unfold addToCart. exec.
    repeat case_match; simplify_eq; cbn [fst snd db cart_items set_cart_items];
      try reflexivity; try (apply lines_of_update; congruence).
    all: unfold lines_of; rewrite filter_cons; cbn [cr_clerk_id].
    all: case_decide; [congruence|reflexivity].
  - unfold updateCartItemQuantity. exec.
    repeat case_match; simplify_eq; cbn [fst snd db cart_items set_cart_items];
      try reflexivity.
    apply lines_of_update. congruence.
  - unfold removeFromCart. exec.
    repeat case_match; simplify_eq; cbn [fst snd db cart_items set_cart_items];
      try reflexivity.
    apply lines_of_delete. congruence.
Qed.

Lemma other_users_lines_witness :
  lines_of "user_1"
    (cart_items (final_db (run (removeFromCart env_user_2 "c1") sample_db)))
  = [mkCartRow "c1" "user_1" "p1" 2].
Proof.
  rewrite (proj2 (proj2 (cart_actions_leave_other_users_lines env_user_2 "p1"
                           1 "c1" 1 sample_db "user_1" ltac:(discriminate)))).
  reflexivity.
Defined.

Lemma update_cart_quantity_ids (id userId : string) (q : Z)
    (rows : list CartRow) :
  map cr_id (update_cart_quantity id userId q rows) = map cr_id rows.
Proof.
  unfold update_cart_quantity. rewrite map_map. apply map_ext.
  intros r. now case_decide.
Qed.

Lemma update_cart_quantity_keys (id userId : string) (q : Z)
    (rows : list CartRow) :
  map (fun r => (cr_clerk_id r, cr_product_id r))
      (update_cart_quantity id userId q rows)
  = map (fun r => (cr_clerk_id r, cr_product_id r)) rows.
Proof.
  unfold update_cart_quantity. rewrite map_map. apply map_ext.
  intros r. now case_decide.
Qed.

Lemma update_keeps_cart_constraints (id userId : string) (q : Z)
    (rows : list CartRow) :
  0 < q ->
  cart_constraints rows ->
  cart_constraints (update_cart_quantity id userId q rows).
Proof.
  intros Hq (Hids & Hkeys & Hpos). unfold cart_constraints.
  rewrite update_cart_quantity_ids, update_cart_quantity_keys.
  repeat split; try assumption.
  unfold update_cart_quantity. apply Forall_forall.
  intros r' Hr'. apply list_elem_of_In, in_map_iff in Hr' as (r & <- & Hr).
  case_decide; [exact Hq|].
  rewrite Forall_forall in Hpos. apply Hpos. now apply list_elem_of_In.
Qed.

Lemma filter_keeps_cart_constraints (P : CartRow -> Prop)
    `{forall r, Decision (P r)} (rows : list CartRow) :
  cart_constraints rows -> cart_constraints (filter P rows).
Proof.
  intros (Hids & Hkeys & Hpos). repeat split.
  - eapply sublist_NoDup; [exact Hids|].
    apply (fmap_sublist cr_id), sublist_filter.
  - eapply sublist_NoDup; [exact Hkeys|].
    apply (fmap_sublist (fun r => (cr_clerk_id r, cr_product_id r))),
      sublist_filter.
  - rewrite Forall_forall in Hpos |- *. intros r Hr.
    apply list_elem_of_filter in Hr as [_ Hr]. now apply Hpos.
Qed.

Lemma cart_insert_allowed_inv (row : CartRow) (rows : list CartRow) :
  cart_insert_allowed row rows = true ->
  ~ In (cr_id row) (map cr_id rows)
  /\ ~ In (cr_clerk_id row, cr_product_id row)
          (map (fun r => (cr_clerk_id r, cr_product_id r)) rows).
Proof.
  unfold cart_insert_allowed. rewrite forallb_forall. intros Hall.
  split; intros Hin; apply in_map_iff in Hin as (r & Heq & Hr);
    specialize (Hall r Hr); apply andb_true_iff in Hall as [Hid Hkey].
  - rewrite Heq, String.eqb_refl in Hid. discriminate.
  - injection Heq as Hc Hp.
    rewrite Hc, Hp, !String.eqb_refl in Hkey. discriminate.
Qed.

Lemma insert_keeps_cart_constraints (row : CartRow) (rows : list CartRow) :
  0 < cr_quantity row ->
  cart_insert_allowed row rows = true ->
  cart_constraints rows ->
  cart_constraints (row :: rows).
Proof.
  intros Hq Hallowed (Hids & Hkeys & Hpos).
  apply cart_insert_allowed_inv in Hallowed as [Hid Hkey].
  split; [|split]; cbn [map].
  - apply NoDup_cons. now rewrite list_elem_of_In.
  - apply NoDup_cons. now rewrite list_elem_of_In.
  - apply List.Forall_cons; assumption.
Qed.

Lemma selected_line_positive (userId productId : string) (d : Db)
    (e : CartRow) :
  cart_constraints (cart_items d) ->
  single (select_cart_item userId productId d) = Some e ->
  0 < cr_quantity e.
Proof.
  intros (_ & _ & Hpos) He. apply single_spec in He.
  rewrite Forall_forall in Hpos. apply Hpos.
  assert (e ∈ select_cart_item userId productId d) as Hin
    by (rewrite He; apply list_elem_of_here).
  unfold select_cart_item in Hin.
  now apply list_elem_of_filter in Hin as [_ Hin].
Qed.

(** X5. [addToCart] keeps the constraints of [cart_items] in every run:
    if the line identifiers are unique, no user has two lines of one
    product and every quantity is positive before the run, the same holds
    after it, whatever the action answers. *)
Theorem addToCart_keeps_cart_constraints (env : Env) (productId : string)
    (quantity : Z) (d : Db) :
  cart_constraints (cart_items d) ->
  cart_constraints
    (cart_items (final_db (run (addToCart env productId quantity) d))).
Proof.
  intros Hok. unfold addToCart. exec.
  repeat case_match; simplify_eq;
    cbn [fst snd db cart_items set_cart_items] in *; try assumption.
  1, 2: apply update_keeps_cart_constraints; [|assumption];
        match goal with
        | H : single (select_cart_item _ _ _) = Some _ |- _ =>
            apply (selected_line_positive _ _ _ _ Hok) in H
        end; lia.
  all: match goal with
       | H : _ || negb (cart_insert_allowed _ _) = false |- _ =>
           apply orb_false_iff in H as [_ H]; apply negb_false_iff in H
       end.
  all: apply insert_keeps_cart_constraints; [cbn; lia|assumption..].
Qed.

Lemma addToCart_constraints_witness :
  cart_constraints
    (cart_items (final_db (run (addToCart (env_ok "c9") "p1" 3) sample_db))).
Proof.
  apply addToCart_keeps_cart_constraints.
  split; [|split]; cbn [sample_db cart_items map].
  - apply NoDup_singleton.
  - apply NoDup_singleton.
  - apply List.Forall_cons; [reflexivity|apply List.Forall_nil].
Defined.

(** X6. [updateCartItemQuantity] and [removeFromCart] keep the constraints
    of [cart_items] in every run: unique line identifiers, at most one
    line per user and product, positive quantities. *)
Theorem line_actions_keep_cart_constraints (env : Env) (cartItemId : string)
    (newQuantity : Z) (d : Db) :
  cart_constraints (cart_items d) ->
  cart_constraints
    (cart_items (final_db
       (run (updateCartItemQuantity env cartItemId newQuantity) d)))
  /\ cart_constraints
       (cart_items (final_db (run (removeFromCart env cartItemId) d))).
Proof.
  intros Hok. split.
  - unfold updateCartItemQuantity. exec.
    repeat case_match; simplify_eq;
      cbn [fst snd db cart_items set_cart_items] in *; try assumption.
    apply update_keeps_cart_constraints; [lia|assumption].
  - unfold removeFromCart. exec.
    repeat case_match; simplify_eq;
      cbn [fst snd db cart_items set_cart_items] in *; try assumption.
    unfold delete_cart_line. now apply filter_keeps_cart_constraints.
Qed.

Lemma line_actions_constraints_witness :
  cart_constraints
    (cart_items (final_db
       (run (updateCartItemQuantity (env_ok "-") "c1" 5) sample_db)))
  /\ cart_constraints
       (cart_items (final_db (run (removeFromCart (env_ok "-") "c1")
                                sample_db))).
Proof.
  apply line_actions_keep_cart_constraints.
  split; [|split]; cbn [sample_db cart_items map].
  - apply NoDup_singleton.
  - apply NoDup_singleton.
  - apply List.Forall_cons; [reflexivity|apply List.Forall_nil].
Defined.

Lemma filter_complement_length {A} (P : A -> Prop) `{forall x, Decision (P x)}
    (rows : list A) :
  (length (filter P rows) + length (filter (fun x => ¬ P x) rows)
   = length rows)%nat.
Proof.
  induction rows as [|r rows IH]; [reflexivity|].
  rewrite !filter_cons. destruct (decide (P r)) as [Hr|Hr].
  - case_decide; [contradiction|]. cbn [length]. lia.
  - case_decide; [|contradiction]. cbn [length]. lia.
Qed.

(** X7. [removeFromCart] answers with success only for a line of the
    caller; afterwards the store holds the rows it held before except that
    line, exactly one row fewer, and the delete is the only write sent to
    the store. *)
Theorem removeFromCart_removes_exactly_the_callers_line (env : Env)
    (cartItemId : string) (d : Db) (data : unit) :
  let x := run (removeFromCart env cartItemId) d in
  outcome x = LineOk data ->
  exists userId line,
    auth env = Some userId
    /\ In line (cart_items d)
    /\ cr_id line = cartItemId
    /\ cr_clerk_id line = userId
    /\ (forall r, In r (cart_items (final_db x)) <->
                  In r (cart_items d)
                  /\ ~ (cr_id r = cartItemId /\ cr_clerk_id r = userId))
    /\ S (length (cart_items (final_db x))) = length (cart_items d)
    /\ products (final_db x) = products d
    /\ calls x = [Write DeleteCartItems].
Proof.
  intros x Hok. subst x.
  apply removeFromCart_ok in Hok
    as (userId & line & Hauth & _ & _ & Hline & _ & Hrun).
  rewrite Hrun.
  cbn [outcome final_db calls fst snd db trace set_cart_items cart_items
       products].
  assert (In line (select_cart_line cartItemId userId (cart_items d))) as Hin
    by (rewrite Hline; now left).
  apply select_cart_line_in in Hin as (Hin & Hid & Hclerk).
  exists userId, line.
  do 4 (split; [assumption|]). split; [|split; [|split; reflexivity]].
  - intros r. unfold delete_cart_line.
    rewrite <- !list_elem_of_In, list_elem_of_filter. tauto.
  - pose proof (filter_complement_length
                  (fun r => cr_id r = cartItemId ∧ cr_clerk_id r = userId)
                  (cart_items d)) as Hlen.
    unfold select_cart_line in Hline. unfold delete_cart_line.
    rewrite Hline in Hlen. cbn [length] in Hlen. lia.
Qed.

Lemma removeFromCart_witness :
  exists userId line,
    auth (env_ok "-") = Some userId
    /\ In line (cart_items sample_db)
    /\ cr_id line = "c1"
    /\ cart_items (final_db (run (removeFromCart (env_ok "-") "c1") sample_db))
       = [].
Proof.
  destruct (removeFromCart_removes_exactly_the_callers_line
              (env_ok "-") "c1" sample_db tt eq_refl)
    as (userId & line & Hauth & Hin & Hid & _).
  exists userId, line. repeat split; assumption || reflexivity.
Defined.

Lemma filter_keeps_all {A} (P : A -> Prop) `{forall x, Decision (P x)}
    (rows : list A) :
  (forall r, In r rows -> P r) -> filter P rows = rows.
Proof.
  induction rows as [|r rows IH]; intros Hall; [reflexivity|].
  rewrite filter_cons. case_decide as Hr.
  - f_equal. apply IH. intros r' Hr'. apply Hall. now right.
  - exfalso. apply Hr, Hall. now left.
Qed.

(** What a run of [addToCart] that answers with success for a product the
    caller has no line of has done: it inserted the line. *)
Lemma addToCart_inserted (env : Env) (productId : string) (quantity : Z)
    (d : Db) (userId : string) (data : string * Z) :
  auth env = Some userId ->
  (forall r, In r (cart_items d) ->
             ~ (cr_clerk_id r = userId /\ cr_product_id r = productId)) ->
  outcome (run (addToCart env productId quantity) d) = Success data ->
  data = (gen_random_uuid env, quantity)
  /\ 1 <= quantity
  /\ cart_insert_allowed
       (mkCartRow (gen_random_uuid env) userId productId quantity)
       (cart_items d) = true
  /\ run (addToCart env productId quantity) d
     = (Success (gen_random_uuid env, quantity),
        mkWorld
          (set_cart_items d
             (mkCartRow (gen_random_uuid env) userId productId quantity
              :: cart_items d))
          [Write InsertCartItem]).
Proof.
  intros Hauth Hnone.
  assert (select_cart_item userId productId d = []) as Hsel.
  { unfold select_cart_item. apply filter_none. exact Hnone. }
  unfold addToCart. rewrite Hauth.
  destruct (nonempty productId); [|discriminate].
  destruct (quantity <? 1) eqn:Hq; [discriminate|].
  exec. rewrite Hsel. cbn [single].
  repeat case_match; simplify_eq; cbn [fst snd]; try discriminate.
  all: intros [= <-]; cbn [cr_id] in *.
  all: match goal with
       | H : _ || negb (cart_insert_allowed _ _) = false |- _ =>
           apply orb_false_iff in H as [_ H]; apply negb_false_iff in H
       end.
  all: repeat split; try assumption; lia.
Qed.

(** X8. Adding a product the caller has no line of and then removing the
    line by the identifier [addToCart] answered with gives back the store
    the two actions started from. *)
Theorem addToCart_then_removeFromCart_restores_store (env1 env2 : Env)
    (productId : string) (quantity : Z) (d : Db) (userId id : string)
    (q : Z) :
  let x1 := run (addToCart env1 productId quantity) d in
  let x2 := run (removeFromCart env2 id) (final_db x1) in
  auth env1 = Some userId ->
  auth env2 = Some userId ->
  (forall r, In r (cart_items d) ->
             ~ (cr_clerk_id r = userId /\ cr_product_id r = productId)) ->
  outcome x1 = Success (id, q) ->
  id <> "" ->
  store_error env2 SelectCartItem = false ->
  store_error env2 DeleteCartItems = false ->
  outcome x2 = LineOk tt /\ final_db x2 = d.
Proof.
  intros x1 x2 Hauth1 Hauth2 Hnone Hok Hid Hsel Hdel. subst x1 x2.
  apply (addToCart_inserted env1 productId quantity d userId (id, q) Hauth1
           Hnone) in Hok as (Hdata & Hq & Hallowed & Hrun).
  injection Hdata as -> ->.
  rewrite Hrun. cbn [final_db snd db].
  apply cart_insert_allowed_inv in Hallowed as [Hfresh _].
  cbn [cr_id] in Hfresh.
  assert (forall r, In r (cart_items d) -> cr_id r <> gen_random_uuid env1)
    as Hother.
  { intros r Hr Heq. apply Hfresh. apply in_map_iff. now exists r. }
  unfold removeFromCart. rewrite Hauth2.
  destruct (nonempty (gen_random_uuid env1)) eqn:Hne;
    [|destruct (gen_random_uuid env1); [contradiction|discriminate]].
  exec. rewrite Hsel, Hdel.
  cbn [set_cart_items cart_items].
  unfold select_cart_line, delete_cart_line. rewrite !filter_cons.
  cbn [cr_id cr_clerk_id].
  destruct (decide (gen_random_uuid env1 = gen_random_uuid env1
                    ∧ userId = userId)) as [_|Hn]; [|tauto].
  case_decide as Hn; [tauto|].
  rewrite (filter_none _ (cart_items d)).
  2: { intros r Hr [Heq _]. exact (Hother r Hr Heq). }
  cbn [single]. exec. cbn [set_cart_items cart_items products orders
                            order_items].
  split; [reflexivity|].
  rewrite (filter_keeps_all _ (cart_items d)).
  - destruct d; reflexivity.
  - intros r Hr [Heq _]. exact (Hother r Hr Heq).
Qed.

Lemma addToCart_removeFromCart_witness :
  final_db (run (removeFromCart (env_ok "-") "c9")
              (final_db (run (addToCart (env_ok "c9") "p1" 1)
                           (set_cart_items sample_db []))))
  = set_cart_items sample_db [].
Proof.
  refine (proj2 (addToCart_then_removeFromCart_restores_store
                   (env_ok "c9") (env_ok "-") "p1" 1
                   (set_cart_items sample_db []) "user_1" "c9" 1
                   eq_refl eq_refl _ eq_refl _ eq_refl eq_refl)).
  - intros r [].
  - discriminate.
Defined.

Lemma getCartItems_answers (env : Env) (d : Db) (userId : string) :
  auth env = Some userId ->
  store_error env SelectCartItems = false ->
  getCartItems env d
  = CartOk (omap valid_item (select_cart_items userId d))
      (float_sum (omap valid_item (select_cart_items userId d)) 0%float).
Proof.
  intros Hauth Hsel. unfold getCartItems. rewrite Hauth, Hsel.
  destruct (select_cart_items userId d) as [|row rows] eqn:Hrows;
    [reflexivity|].
  rewrite cart_total_loop_spec. reflexivity.
Qed.

(** X9. After [updateCartItemQuantity] has answered with success, the cart
    the caller reads with [getCartItems] holds the line with the new
    quantity, and that quantity is within the stock of the line's
    product. *)
Theorem updated_quantity_shows_in_cart (env : Env) (cartItemId : string)
    (newQuantity : Z) (d : Db) (data : string * Z) :
  let x := run (updateCartItemQuantity env cartItemId newQuantity) d in
  outcome x = LineOk data ->
  store_error env SelectCartItems = false ->
  exists items total item,
    getCartItems env (final_db x) = CartOk items total
    /\ In item items
    /\ ci_id item = cartItemId
    /\ ci_quantity item = newQuantity
    /\ newQuantity <= stock_quantity (ci_products item).
Proof.
  intros x Hok Hread. subst x.
  apply updateCartItemQuantity_ok in Hok
    as (userId & line & product & Hauth & Hq & _ & Hline & _ & Hp & Hact
        & Hstock & _ & Hrun).
  rewrite Hrun. cbn [final_db snd db].
  rewrite (getCartItems_answers env _ userId Hauth Hread).
  assert (In line (select_cart_line cartItemId userId (cart_items d))) as Hin
    by (rewrite Hline; now left).
  apply select_cart_line_in in Hin as (Hin & Hid & Hclerk).
  eexists _, _,
    (mkCartItem cartItemId userId (cr_product_id line) newQuantity product).
  split; [reflexivity|]. split; [|repeat split; assumption].
  apply list_elem_of_In, list_elem_of_omap.
  exists (mkCartRow cartItemId userId (cr_product_id line) newQuantity,
          Some product).
  split; [|cbn; now rewrite Hact].
  unfold select_cart_items. cbn [set_cart_items cart_items products].
  apply list_elem_of_fmap.
  exists (mkCartRow cartItemId userId (cr_product_id line) newQuantity).
  split; [cbn; now rewrite Hp|].
  apply list_elem_of_filter. split; [reflexivity|].
  unfold update_cart_quantity. apply list_elem_of_In, in_map_iff.
  exists line. split; [|assumption].
  case_decide as Hn; [|tauto]. now rewrite Hid, Hclerk.
Qed.

Lemma updated_quantity_witness :
  exists items total item,
    getCartItems (env_ok "-")
      (final_db (run (updateCartItemQuantity (env_ok "-") "c1" 5) sample_db))
    = CartOk items total
    /\ In item items /\ ci_id item = "c1" /\ ci_quantity item = 5.
Proof.
  destruct (updated_quantity_shows_in_cart (env_ok "-") "c1" 5 sample_db
              ("c1", 5) eq_refl eq_refl)
    as (items & total & item & Hget & Hin & Hid & Hq & _).
  exists items, total, item. repeat split; assumption.
Defined.

Lemma update_cart_quantity_twice (id userId : string) (q : Z)
    (rows : list CartRow) :
  update_cart_quantity id userId q (update_cart_quantity id userId q rows)
  = update_cart_quantity id userId q rows.
Proof.
  unfold update_cart_quantity. rewrite map_map. apply map_ext.
  intros r. destruct (decide (cr_id r = id ∧ cr_clerk_id r = userId)) as [Hr|Hr].
  - cbn [cr_id cr_clerk_id cr_product_id]. now case_decide.
  - now case_decide.
Qed.

(** X10. [updateCartItemQuantity] is idempotent: repeating a change of
    quantity that was answered with success is answered the same and
    leaves the store as the first change left it. *)
Theorem updateCartItemQuantity_twice_is_once (env : Env) (cartItemId : string)
    (newQuantity : Z) (d : Db) (data : string * Z) :
  let x1 := run (updateCartItemQuantity env cartItemId newQuantity) d in
  let x2 := run (updateCartItemQuantity env cartItemId newQuantity)
                (final_db x1) in
  outcome x1 = LineOk data ->
  outcome x2 = LineOk data /\ final_db x2 = final_db x1.
Proof.
  intros x1 x2 Hok. subst x1 x2.
  pose proof Hok as Hok'.
  apply updateCartItemQuantity_ok in Hok'
    as (userId & line & product & Hauth & Hq & Hsel & Hline & Hsp & Hp & Hact
        & Hstock & Hup & Hrun).
  rewrite Hrun in Hok |- *. cbn [outcome final_db fst snd db] in Hok |- *.
  injection Hok as <-.
  unfold updateCartItemQuantity. rewrite Hauth.
  destruct (newQuantity <? 1) eqn:Hlt; [lia|].
  exec. rewrite Hsel. cbn [set_cart_items cart_items products].
  rewrite !select_cart_line_update, Hline. cbn [map single cr_product_id].
  rewrite Hsp, Hp, Hact. cbn [negb].
  destruct (stock_quantity product <? newQuantity) eqn:Hs; [lia|].
  exec. rewrite Hup. cbn [map single]. exec.
  cbn [cr_id cr_quantity set_cart_items cart_items products orders
       order_items].
  rewrite update_cart_quantity_twice.
  assert (cr_id line = cartItemId) as Hid.
  { assert (In line (select_cart_line cartItemId userId (cart_items d)))
      as Hin by (rewrite Hline; now left).
    now apply select_cart_line_in in Hin. }
  rewrite Hid. split; reflexivity.
Qed.

Lemma updateCartItemQuantity_twice_witness :
  outcome (run (updateCartItemQuantity (env_ok "-") "c1" 5)
             (final_db (run (updateCartItemQuantity (env_ok "-") "c1" 5)
                          sample_db)))
  = LineOk ("c1", 5).
Proof.
  exact (proj1 (updateCartItemQuantity_twice_is_once (env_ok "-") "c1" 5
                  sample_db ("c1", 5) eq_refl)).
Defined.

(** X11. A line that [removeFromCart] has removed is gone for its owner:
    removing it again is answered [LineNotFound], sends no write and
    changes nothing. *)
Theorem removeFromCart_twice_is_not_found (env1 env2 : Env)
    (cartItemId : string) (d : Db) (data : unit) :
  let x1 := run (removeFromCart env1 cartItemId) d in
  outcome x1 = LineOk data ->
  auth env2 = auth env1 ->
  run (removeFromCart env2 cartItemId) (final_db x1)
  = (LineFail LineNotFound, mkWorld (final_db x1) []).
Proof.
  intros x1 Hok Hauth2. subst x1.
  apply removeFromCart_ok in Hok
    as (userId & line & Hauth & Hne & _ & _ & _ & Hrun).
  rewrite Hrun. cbn [final_db snd db].
  unfold removeFromCart. rewrite Hauth2, Hauth, Hne.
  exec. cbn [set_cart_items cart_items].
  assert (select_cart_line cartItemId userId
            (delete_cart_line cartItemId userId (cart_items d)) = [])
    as ->.
  { unfold select_cart_line. apply filter_none.
    intros r Hr Hmatch. unfold delete_cart_line in Hr.
    apply list_elem_of_In, list_elem_of_filter in Hr as [Hnot _].
    exact (Hnot Hmatch). }
  destruct (store_error env2 SelectCartItem); reflexivity.
Qed.

Lemma removeFromCart_twice_witness :
  outcome (run (removeFromCart (env_ok "-") "c1")
             (final_db (run (removeFromCart (env_ok "-") "c1") sample_db)))
  = LineFail LineNotFound.
Proof.
  rewrite (removeFromCart_twice_is_not_found (env_ok "-") (env_ok "-") "c1"
             sample_db tt eq_refl eq_refl).
  reflexivity.
Defined.

Lemma lines_of_update_length (u id userId : string) (q : Z)
    (rows : list CartRow) :
  length (lines_of u (update_cart_quantity id userId q rows))
  = length (lines_of u rows).
Proof.
  unfold lines_of, update_cart_quantity.
  induction rows as [|r rows IH]; [reflexivity|].
  cbn [map]. rewrite !filter_cons.
  assert (cr_clerk_id
            (if decide (cr_id r = id ∧ cr_clerk_id r = userId)
             then mkCartRow (cr_id r) (cr_clerk_id r) (cr_product_id r) q
             else r) = cr_clerk_id r) as -> by now case_decide.
  case_decide; cbn [length]; now rewrite IH.
Qed.

(** X12. The cart badge counts lines, not units: when [addToCart] answers
    with success for a product the caller already has a line of, the count
    [useCartCount] shows stays the same, and for a product the caller has
    no line of it goes up by one, whatever the quantity added. *)
Theorem cart_badge_counts_lines_not_units (env : Env) (productId : string)
    (quantity : Z) (d : Db) (userId : string) (data : string * Z) :
  let x := run (addToCart env productId quantity) d in
  auth env = Some userId ->
  store_error env SelectCartItems = false ->
  outcome x = Success data ->
  ((exists e, In e (cart_items d)
              /\ cr_clerk_id e = userId /\ cr_product_id e = productId) ->
   useCartCount env (final_db x) = useCartCount env d)
  /\
  ((forall r, In r (cart_items d) ->
              ~ (cr_clerk_id r = userId /\ cr_product_id r = productId)) ->
   useCartCount env (final_db x) = S (useCartCount env d)).
Proof.
  intros x Hauth Hcount Hok. subst x. unfold useCartCount.
  rewrite Hauth, Hcount. split.
  - intros (e & He & Hclerk & Hproduct). revert Hok.
    unfold addToCart. rewrite Hauth. exec.
    repeat case_match; simplify_eq;
      cbn [fst snd db cart_items set_cart_items] in *;
      try discriminate; intros _.
    1: apply lines_of_update_length.
    all: exfalso.
    all: match goal with
         | H : _ || negb (cart_insert_allowed _ _) = false |- _ =>
             apply orb_false_iff in H as [_ H];
             apply negb_false_iff, cart_insert_allowed_inv in H as [_ H];
             apply H
         end.
    all: cbn [cr_clerk_id cr_product_id]; apply in_map_iff;
      exists e; split; [reflexivity|assumption].
  - intros Hnone.
    apply (addToCart_inserted env productId quantity d userId data Hauth Hnone)
      in Hok as (_ & _ & _ & Hrun).
    rewrite Hrun. cbn [final_db snd db set_cart_items cart_items].
    unfold lines_of. rewrite filter_cons. cbn [cr_clerk_id].
    case_decide; [reflexivity|contradiction].
Qed.

Lemma cart_badge_witness :
  useCartCount (env_ok "c9")
    (final_db (run (addToCart (env_ok "c9") "p1" 3) sample_db))
  = useCartCount (env_ok "c9") sample_db.
Proof.
  refine (proj1 (cart_badge_counts_lines_not_units (env_ok "c9") "p1" 3
                   sample_db "user_1" ("c1", 5) eq_refl eq_refl eq_refl) _).
  exists (mkCartRow "c1" "user_1" "p1" 2).
  split; [now left|split; reflexivity].
Defined.

(** X13. An [addToCart] that answers with an error has changed nothing,
    provided the line identifiers of [cart_items] are unique (its primary
    key): the store after the run is the store before it. *)
Theorem refused_addToCart_changes_nothing (env : Env) (productId : string)
    (quantity : Z) (d : Db) (e : Failure) :
  let x := run (addToCart env productId quantity) d in
  NoDup (map cr_id (cart_items d)) ->
  outcome x = Fail e ->
  final_db x = d.
Proof.
  intros x Hids. subst x. unfold addToCart. exec.
  repeat case_match; simplify_eq; cbn [fst snd db] in *;
    try reflexivity; try discriminate.
  all: exfalso.
  all: match goal with
       | H : single (select_cart_item ?u _ ?d0) = Some ?e0,
         Hnone : single (filter _ (cart_items ?d0)) = None |- _ =>
           apply single_spec in H;
           assert (e0 ∈ select_cart_item u productId d0) as Hin
             by (rewrite H; apply list_elem_of_here);
           unfold select_cart_item in Hin;
           apply list_elem_of_filter in Hin as [[Hclerk _] Hin];
           apply list_elem_of_In in Hin;
           rewrite (filter_singleton cr_id _ (cart_items d0) e0 Hids Hin)
             in Hnone; [discriminate Hnone|now split|now intros r [Hr _]]
       end.
Qed.

Lemma refused_addToCart_witness :
  final_db (run (addToCart (env_ok "c9") "p1" 4) sample_db) = sample_db.
Proof.
  apply (refused_addToCart_changes_nothing (env_ok "c9") "p1" 4 sample_db
           (InsufficientStock None 5 6)).
  - apply NoDup_singleton.
  - reflexivity.
Defined.

Lemma omap_length_le {A B} (f : A -> option B) (l : list A) :
  (length (omap f l) <= length l)%nat.
Proof.
  induction l as [|a l IH]; [reflexivity|].
  cbn [omap list_omap length]. destruct (f a); cbn [length]; lia.
Qed.

(** X14. What [getCartItems] lists: exactly the caller's cart lines whose
    product exists and is on sale, each with its quantity and its product;
    the total is the sum of price times quantity over these lines, added
    from left to right; and the lines listed are never more than the
    count the cart badge shows (its count query answered as the select of
    [getCartItems] was, not refused), which also counts the lines left
    out. *)
Theorem getCartItems_lists_the_callers_purchasable_lines (env : Env) (d : Db)
    (items : list CartItem) (total : float) :
  getCartItems env d = CartOk items total ->
  exists userId,
    auth env = Some userId
    /\ (forall item,
           In item items <->
           exists row,
             In row (cart_items d)
             /\ cr_clerk_id row = userId
             /\ products d !! cr_product_id row = Some (ci_products item)
             /\ is_active (ci_products item) = true
             /\ item = mkCartItem (cr_id row) userId (cr_product_id row)
                         (cr_quantity row) (ci_products item))
    /\ total = float_sum items 0%float
    /\ (length items <= useCartCount env d)%nat.
Proof.
  intros Hcart.
  apply getCartItems_ok in Hcart as (userId & Hauth & Hsel & -> & ->).
  exists userId. split; [exact Hauth|]. split; [|split; [reflexivity|]].
  - intros item. rewrite <- list_elem_of_In, list_elem_of_omap. split.
    + intros ([row product] & Hrow & Hvalid).
      unfold select_cart_items in Hrow.
      apply list_elem_of_fmap in Hrow as (row' & [= <- ->] & Hrow).
      apply list_elem_of_filter in Hrow as [Hclerk Hrow].
      apply list_elem_of_In in Hrow.
      cbn [valid_item] in Hvalid.
      destruct (products d !! cr_product_id row) as [p|] eqn:Hp;
        [|discriminate].
      destruct (is_active p) eqn:Hactive; [|discriminate].
      injection Hvalid as <-. cbn [ci_products].
      exists row. rewrite Hclerk. repeat split; assumption.
    + intros (row & Hrow & Hclerk & Hp & Hactive & ->).
      exists (row, Some (ci_products item)). split.
      * unfold select_cart_items. apply list_elem_of_fmap.
        exists row. cbn [ci_products]. rewrite Hp.
        split; [reflexivity|].
        apply list_elem_of_filter. split; [exact Hclerk|].
        now apply list_elem_of_In.
      * cbn [valid_item ci_products] in *. rewrite Hactive.
        now rewrite Hclerk.
  - unfold useCartCount. rewrite Hauth, Hsel.
    etransitivity; [apply omap_length_le|].
    unfold select_cart_items, lines_of. now rewrite length_map.
Qed.

Lemma getCartItems_lists_witness :
  (length [mkCartItem "c1" "user_1" "p1" 2 sample_product]
   <= useCartCount (env_ok "-") deactivated_line_db)%nat.
Proof.
  destruct (getCartItems_lists_the_callers_purchasable_lines (env_ok "-")
              deactivated_line_db
              [mkCartItem "c1" "user_1" "p1" 2 sample_product] 20000%float)
    as (userId & _ & _ & _ & Hcount).
  - vm_compute. reflexivity.
  - exact Hcount.
Defined.

(** ** Order actions *)

(** A number is never more than 0.01 away from itself, whatever it is
    (a [NaN] compares false). *)
Lemma amount_differs_same (x : float) : amount_differs x x = false.
Proof.
  unfold amount_differs. rewrite ltb_spec, abs_spec, sub_spec.
  unfold SF64sub, SFsub.
  destruct (Prim2SF x) as [[|]|[|]| |s m e]; try reflexivity.
  rewrite Z.min_id, Z.sub_diag. reflexivity.
Qed.

(** X15. [createOrder] never answers [AmountMismatch]: the total it
    recomputes from the cart lines is the sum [getCartItems] computed from
    the same lines in the same order, so the two never differ. *)
Theorem createOrder_never_amount_mismatch (env : Env)
    (orderData : CreateOrderInput) (d : Db) :
  outcome (run (createOrder env orderData) d) <> Fail AmountMismatch.
Proof.
  pose proof (createOrder_run env orderData d) as Hrun.
  destruct Hrun as [| | | |userId items total e _ _ _ Hcheck
                    |userId items total calculated lines _ Hcart Hcheck Hdiff
                    | | |];
    try discriminate.
  - cbn [outcome fst]. intros [= ->].
    apply check_lines_rejects in Hcheck
      as (item & _ & [[_ He]|[[_ He]|(_ & _ & He)]]); discriminate He.
  - exfalso.
    apply getCartItems_ok in Hcart as (_ & _ & _ & _ & ->).
    apply check_lines_accepts in Hcheck as [-> _].
    rewrite amount_differs_same in Hdiff. discriminate.
Qed.

Lemma getCartItems_ext (env : Env) (d1 d2 : Db) :
  products d1 = products d2 ->
  cart_items d1 = cart_items d2 ->
  getCartItems env d1 = getCartItems env d2.
Proof.
  intros Hp Hc. unfold getCartItems, select_cart_items.
  now rewrite Hp, Hc.
Qed.

(** X16. [createOrder] reserves nothing: in every run the products (and
    so the stock) and the cart lines are the same after it as before, the
    gateway is not called, and the cart the caller reads afterwards is the
    cart that was just ordered. *)
Theorem createOrder_leaves_stock_and_cart (env : Env)
    (orderData : CreateOrderInput) (d : Db) :
  let x := run (createOrder env orderData) d in
  products (final_db x) = products d
  /\ cart_items (final_db x) = cart_items d
  /\ gateway_calls (calls x) = 0%nat
  /\ getCartItems env (final_db x) = getCartItems env d.
Proof.
  intros x. subst x.
  pose proof (createOrder_run env orderData d) as Hrun.
  assert (products (final_db (run (createOrder env orderData) d)) = products d
          /\ cart_items (final_db (run (createOrder env orderData) d))
             = cart_items d
          /\ gateway_calls (calls (run (createOrder env orderData) d)) = 0%nat)
    as (Hp & Hc & Hg).
  { destruct Hrun; unfold after_rollback;
      try destruct (store_error env DeleteOrder); repeat split; reflexivity. }
  repeat split; try assumption.
  now apply getCartItems_ext.
Qed.

Lemma with_order_consistent (d : Db) (order : OrderRow)
    (lines : list OrderItemRow) :
  orders_consistent d ->
  order_insert_allowed order (orders d) = true ->
  (forall i, In i lines -> oi_order_id i = o_id order) ->
  orders_consistent (with_order d order lines).
Proof.
  intros [Hids Hfk] Hallowed Hlines.
  rewrite order_insert_allowed_spec in Hallowed.
  unfold orders_consistent. cbn [with_order orders order_items].
  rewrite map_app. cbn [map]. split.
  - apply NoDup_app. split; [exact Hids|]. split; [|apply NoDup_singleton].
    intros id Hin Hnew. apply list_elem_of_In in Hin.
    apply list_elem_of_In in Hnew as [<-|[]].
    apply in_map_iff in Hin as (o & Heq & Ho).
    exact (Hallowed o Ho Heq).
  - intros i Hi. apply in_or_app. apply in_app_or in Hi as [Hi|Hi].
    + left. now apply Hfk.
    + right. left. symmetry. now apply Hlines.
Qed.

Lemma rolled_back_order (d : Db) (order : OrderRow) :
  order_insert_allowed order (orders d) = true ->
  delete_order (o_id order) (set_orders d (orders d ++ [order]))
  = mkDb (products d) (cart_items d) (orders d)
      (filter (fun i => oi_order_id i ≠ o_id order) (order_items d)).
Proof.
  intros Hallowed. rewrite order_insert_allowed_spec in Hallowed.
  unfold delete_order.
  cbn [set_orders products cart_items orders order_items].
  rewrite filter_app, (filter_other_ids _ _ Hallowed).
  rewrite filter_cons. case_decide; [contradiction|].
  rewrite filter_nil, app_nil_r. reflexivity.
Qed.

Lemma rolled_back_consistent (env : Env) (d : Db) (order : OrderRow) :
  orders_consistent d ->
  order_insert_allowed order (orders d) = true ->
  orders_consistent (after_rollback env d order).
Proof.
  intros Hok Hallowed. unfold after_rollback.
  destruct (store_error env DeleteOrder).
  - pose proof (with_order_consistent d order [] Hok Hallowed) as Hkept.
    destruct Hkept as [Hids Hfk]; [intros i []|].
    cbn [with_order orders order_items] in Hids, Hfk.
    rewrite app_nil_r in Hfk. split; assumption.
  - destruct Hok as [Hids Hfk]. rewrite (rolled_back_order _ _ Hallowed).
    split; [exact Hids|].
    cbn [orders order_items]. intros i Hi.
    apply list_elem_of_In, list_elem_of_filter in Hi as [_ Hi].
    now apply Hfk, list_elem_of_In.
Qed.

(** X17. [createOrder] keeps the order tables consistent in every run,
    the rollback included: if order identifiers are unique and every row
    of [order_items] belongs to a row of [orders] before the run, the same
    holds after it. *)
Theorem createOrder_keeps_orders_consistent (env : Env)
    (orderData : CreateOrderInput) (d : Db) :
  orders_consistent d ->
  orders_consistent (final_db (run (createOrder env orderData) d)).
Proof.
  intros Hok.
  pose proof (createOrder_run env orderData d) as Hrun.
  destruct Hrun as [| | | | | | |userId validated items total calculated lines
                                  _ _ _ _ _ _ _ Hallowed _
                    |userId validated items total calculated lines
                       _ _ _ _ _ _ _ Hallowed _];
    cbn [final_db snd db]; try assumption.
  - apply (rolled_back_consistent env d
             (pending_order env userId calculated validated) Hok Hallowed).
  - apply with_order_consistent; [assumption..|].
    intros i Hi. apply in_map_iff in Hi as (l & <- & _). reflexivity.
Qed.

Lemma createOrder_consistent_witness :
  orders_consistent
    (final_db (run (createOrder (env_lines_refused "o1") sample_order_input)
                 sample_db))
  /\ orders_consistent
       (final_db (run (createOrder (env_ok "o1") sample_order_input)
                    sample_db)).
Proof.
  assert (orders_consistent sample_db) as Hok.
  { split; [apply NoDup_singleton|intros i []]. }
  split; apply createOrder_keeps_orders_consistent; exact Hok.
Defined.

Lemma orders_consistent_ext (d1 d2 : Db) :
  orders d1 = orders d2 ->
  order_items d1 = order_items d2 ->
  orders_consistent d2 -> orders_consistent d1.
Proof.
  unfold orders_consistent. intros -> ->. tauto.
Qed.

Lemma cancel_rows_ids (orderId userId : string) (rows : list OrderRow) :
  map o_id (cancel_rows orderId userId rows) = map o_id rows.
Proof.
  unfold cancel_rows. rewrite map_map. apply map_ext.
  intros o. now case_decide.
Qed.

(** X18. [confirmPaymentAndCreateOrder] and [cancelOrder] keep the order
    tables consistent in every run: unique order identifiers, and every
    row of [order_items] attached to a row of [orders]. *)
Theorem payment_and_cancel_keep_orders_consistent (env : Env)
    (paymentKey orderId : string) (amount : float)
    (shipping : option ShippingAddress) (note : option string)
    (cancelled_id : string) (d : Db) :
  orders_consistent d ->
  orders_consistent
    (final_db (run (confirmPaymentAndCreateOrder env paymentKey orderId amount
                      shipping note) d))
  /\ orders_consistent (final_db (run (cancelOrder env cancelled_id) d)).
Proof.
  intros Hok. split.
  - pose proof (confirmPayment_run env paymentKey orderId amount shipping note
                  d) as Hrun.
    destruct Hrun as [| | | | | | | |
                      |userId items total _ _ _ Hallowed _
                      |userId items total w2 cleared w3 _ _ _ Hallowed _
                         Hdec Hclear];
      cbn [final_db snd db]; try assumption.
    + apply (rolled_back_consistent env d
               (confirmed_order env userId total shipping note) Hok Hallowed).
    + destruct (payment_tail env _ _ _ _ _ Hdec Hclear) as (Ho & Hi & _).
      cbn [db] in Ho, Hi.
      apply (orders_consistent_ext _ _ Ho Hi).
      apply with_order_consistent; [assumption..|].
      intros i Hin. apply in_map_iff in Hin as (l & <- & _). reflexivity.
  - unfold cancelOrder.
    destruct (auth env) as [userId|]; [|exact Hok].
    exec.
    repeat case_match; simplify_eq; cbn [fst snd db] in *; try assumption.
    destruct Hok as [Hids Hfk]. split.
    + cbn [set_orders orders].
      change (NoDup (map o_id (cancel_rows cancelled_id userId (orders d)))).
      now rewrite cancel_rows_ids.
    + cbn [set_orders orders order_items].
      change (forall i, In i (order_items d) ->
                        In (oi_order_id i)
                           (map o_id (cancel_rows cancelled_id userId (orders d)))).
      now rewrite cancel_rows_ids.
Qed.

Lemma payment_and_cancel_consistent_witness :
  orders_consistent
    (final_db (run (confirmPaymentAndCreateOrder (env_ok "o1") "pay_1" "tmp_1"
                      20000%float None None) sample_db))
  /\ orders_consistent (final_db (run (cancelOrder (env_ok "-") "o1")
                                    orders_db)).
Proof.
  split.
  - apply (payment_and_cancel_keep_orders_consistent (env_ok "o1") "pay_1"
             "tmp_1" 20000%float None None "-" sample_db).
    split; [apply NoDup_singleton|intros i []].
  - apply (payment_and_cancel_keep_orders_consistent (env_ok "-") "pay_1"
             "tmp_1" 20000%float None None "o1" orders_db).
    split.
    + cbn. apply NoDup_cons. split; [|apply NoDup_singleton].
      intros Hin. apply list_elem_of_In in Hin as [Heq|[]]. discriminate.
    + intros i [<-|[<-|[]]]; cbn; tauto.
Defined.

(** Reading back the order an order flow has just stored. *)
Lemma getOrder_with_order (env : Env) (d d' : Db) (order : OrderRow)
    (lines : list OrderItemRow) :
  orders_consistent d ->
  order_insert_allowed order (orders d) = true ->
  (forall i, In i lines -> oi_order_id i = o_id order) ->
  auth env = Some (o_clerk_id order) ->
  store_error env SelectOrder = false ->
  orders d' = orders d ++ [order] ->
  order_items d' = order_items d ++ lines ->
  getOrder env (o_id order) d'
  = OrderOk (mkOrder (o_id order) (o_clerk_id order) (o_total_amount order)
               (o_status order) (o_shipping_address order)
               (o_order_note order) (map order_item_view lines)).
Proof.
  intros [_ Hfk] Hallowed Hlines Hauth Hsel Ho Hi.
  rewrite order_insert_allowed_spec in Hallowed.
  unfold getOrder. rewrite Hauth, Hsel, Ho, Hi.
  rewrite filter_app, (select_order_none _ _ _ Hallowed).
  rewrite filter_cons. case_decide as Hn; [|tauto].
  rewrite filter_nil. cbn [app single].
  do 2 f_equal.
  rewrite filter_app, (filter_none _ (order_items d)),
    (filter_keeps_all _ lines); [reflexivity|exact Hlines|].
  intros i Hin Heq. apply Hfk in Hin.
  apply in_map_iff in Hin as (o & Hoid & Hoin).
  apply (Hallowed o Hoin). congruence.
Qed.

Lemma order_item_view_to_order_item (id : string) (lines : list OrderLine) :
  map order_item_view (map (to_order_item id) lines) = lines.
Proof.
  rewrite map_map. rewrite <- (map_id lines) at 2. apply map_ext.
  now intros [].
Qed.

(** X19. The order [createOrder] answers with can be read back: after a
    successful [createOrder], [getOrder] with the identifier it answered
    gives the caller an order with that identifier, the caller as owner,
    the total answered, the status [pending], the parsed address and
    phone number of the form, and one line per cart line, with the
    product, its name, the quantity and the unit price of the cart. *)
Theorem created_order_reads_back (env env' : Env)
    (orderData : CreateOrderInput) (d : Db) (id : string) (total : float) :
  let x := run (createOrder env orderData) d in
  outcome x = Success (id, total) ->
  orders_consistent d ->
  auth env' = auth env ->
  store_error env' SelectOrder = false ->
  exists userId validated items cartTotal order,
    auth env = Some userId
    /\ createOrderSchema orderData = Some validated
    /\ getCartItems env d = CartOk items cartTotal
    /\ getOrder env' id (final_db x) = OrderOk order
    /\ ord_id order = id
    /\ ord_clerk_id order = userId
    /\ ord_total_amount order = total
    /\ ord_status order = pending
    /\ sa_address (ord_shipping_address order)
       = address (shippingAddress validated)
    /\ sa_phoneNumber (ord_shipping_address order)
       = phoneNumber (shippingAddress validated)
    /\ ord_order_items order = map order_line items.
Proof.
  intros x Hok Hcons Hauth' Hsel. subst x.
  pose proof (createOrder_run env orderData d) as Hrun.
  destruct Hrun as [| | | | | | |
                    |userId validated items cartTotal calculated lines
                       Hauth Hschema Hcart _ Hcheck _ _ Hallowed _];
    try discriminate.
  cbn [outcome fst] in Hok. injection Hok as <- <-.
  cbn [final_db snd db].
  apply check_lines_accepts in Hcheck as [_ Hlines]. cbn [app] in Hlines.
  set (order := pending_order env userId calculated validated) in *.
  pose proof (getOrder_with_order env' d
                (with_order d order (map (to_order_item (o_id order)) lines))
                order (map (to_order_item (o_id order)) lines)
                Hcons Hallowed) as Hread.
  rewrite order_item_view_to_order_item in Hread.
  eexists userId, validated, items, cartTotal, _.
  do 3 (split; [assumption|]).
  split.
  - apply Hread; try reflexivity; try assumption.
    + intros i Hi. apply in_map_iff in Hi as (l & <- & _). reflexivity.
    + now rewrite Hauth', Hauth.
  - cbn. repeat split; try reflexivity. exact Hlines.
Qed.

Lemma created_order_witness :
  exists order,
    getOrder (env_ok "-") "o1"
      (final_db (run (createOrder (env_ok "o1") sample_order_input) sample_db))
    = OrderOk order
    /\ ord_status order = pending
    /\ ord_order_items order = [mkOrderLine "p1" "P1" 2 10000%float].
Proof.
  destruct (created_order_reads_back (env_ok "o1") (env_ok "-")
              sample_order_input sample_db "o1" 20000%float)
    as (userId & validated & items & cartTotal & order & _ & _ & Hcart
        & Hread & _ & _ & _ & Hstatus & _ & _ & Hlines).
  - vm_compute. reflexivity.
  - split; [apply NoDup_singleton|intros i []].
  - reflexivity.
  - reflexivity.
  - exists order. repeat split; try assumption.
    rewrite Hlines.
    assert (getCartItems (env_ok "o1") sample_db
            = CartOk [mkCartItem "c1" "user_1" "p1" 2 sample_product]
                20000%float) as Hcart' by (vm_compute; reflexivity).
    rewrite Hcart' in Hcart. now injection Hcart as <- _.
Defined.



(** X21. [getOrder] answers only with an order of its caller, and an
    order of another user is answered exactly like an order that does not
    exist. *)
Theorem getOrder_answers_only_the_callers_order (env : Env)
    (orderId : string) (d : Db) :
  (forall order,
      getOrder env orderId d = OrderOk order ->
      ord_id order = orderId
      /\ auth env = Some (ord_clerk_id order)
      /\ (exists row,
             In row (orders d)
             /\ o_id row = orderId
             /\ o_clerk_id row = ord_clerk_id order
             /\ o_status row = ord_status order
             /\ o_total_amount row = ord_total_amount order)
      /\ forall l, In l (ord_order_items order) ->
                   exists i, In i (order_items d)
                             /\ oi_order_id i = orderId
                             /\ l = order_item_view i)
  /\
  (forall userId,
      auth env = Some userId ->
      store_error env SelectOrder = false ->
      (forall o, In o (orders d) -> o_id o = orderId ->
                 o_clerk_id o <> userId) ->
      getOrder env orderId d = OrderFail ReadNotFound).
Proof.
  split.
  - intros order. unfold getOrder.
    destruct (auth env) as [userId|]; [|discriminate].
    destruct (store_error env SelectOrder); [discriminate|].
    destruct (single _) as [row|] eqn:Hrow; [|discriminate].
    apply single_spec in Hrow.
    assert (row ∈ filter (fun o => o_id o = orderId ∧ o_clerk_id o = userId)
                         (orders d)) as Hin
      by (rewrite Hrow; apply list_elem_of_here).
    apply list_elem_of_filter in Hin as [[Hid Hclerk] Hin].
    apply list_elem_of_In in Hin.
    intros [= <-]. cbn.
    split; [assumption|]. split; [now rewrite Hclerk|].
    split; [exists row; repeat split; assumption|].
    intros l Hl. apply in_map_iff in Hl as (i & <- & Hi).
    apply list_elem_of_In, list_elem_of_filter in Hi as [Hoid Hi].
    exists i. repeat split; [now apply list_elem_of_In|congruence].
  - intros userId Hauth Hsel Hforeign. unfold getOrder.
    rewrite Hauth, Hsel.
    rewrite (filter_none (fun o => o_id o = orderId ∧ o_clerk_id o = userId)
               (orders d)); [reflexivity|].
    intros o Ho [Hid Hclerk]. exact (Hforeign o Ho Hid Hclerk).
Qed.

Lemma select_order_cancelled (orderId userId : string) (rows : list OrderRow) :
  filter (fun o => o_id o = orderId ∧ o_clerk_id o = userId)
         (cancel_rows orderId userId rows)
  = map (set_status cancelled)
        (filter (fun o => o_id o = orderId ∧ o_clerk_id o = userId) rows).
Proof.
  unfold cancel_rows.
  induction rows as [|o rows IH]; [reflexivity|].
  cbn [map]. rewrite !filter_cons.
  destruct (decide (o_id o = orderId ∧ o_clerk_id o = userId)) as [Ho|Ho].
  - cbn [set_status o_id o_clerk_id]. case_decide; [|contradiction].
    cbn [map]. now rewrite IH.
  - case_decide; [contradiction|]. apply IH.
Qed.

(** What a run of [cancelOrder] that answers with success has gone
    through. *)
Lemma cancelOrder_ok (env : Env) (orderId : string) (d : Db) (data : unit) :
  outcome (run (cancelOrder env orderId) d) = Success data ->
  exists userId order,
    auth env = Some userId
    /\ filter (fun o => o_id o = orderId ∧ o_clerk_id o = userId) (orders d)
       = [order]
    /\ o_status order = pending
    /\ final_db (run (cancelOrder env orderId) d)
       = set_orders d (cancel_rows orderId userId (orders d)).
Proof.
  unfold cancelOrder.
  destruct (auth env) as [userId|] eqn:Hauth; [|discriminate].
  exec.
  destruct (store_error env SelectOrder); [discriminate|].
  destruct (single _) as [order|] eqn:Horder; [|discriminate].
  apply single_spec in Horder.
  destruct (is_pending (o_status order)) eqn:Hpending; [|discriminate].
  apply is_pending_spec in Hpending.
  exec. destruct (store_error env UpdateOrder); [discriminate|].
  intros _. exists userId, order. repeat split; assumption || reflexivity.
Qed.

(** X22. An order can be cancelled once: after [cancelOrder] has answered
    with success, a second [cancelOrder] of the same order by the same
    caller is answered [InvalidState], sends no write and changes
    nothing. *)
Theorem cancelOrder_twice_is_invalid_state (env1 env2 : Env)
    (orderId : string) (d : Db) (data : unit) :
  let x1 := run (cancelOrder env1 orderId) d in
  outcome x1 = Success data ->
  auth env2 = auth env1 ->
  store_error env2 SelectOrder = false ->
  run (cancelOrder env2 orderId) (final_db x1)
  = (Fail InvalidState, mkWorld (final_db x1) []).
Proof.
  intros x1 Hok Hauth2 Hsel. subst x1.
  apply cancelOrder_ok in Hok as (userId & order & Hauth & Horder & _ & ->).
  rewrite (cancelOrder_found env2 orderId userId _
             (set_status cancelled order)); try assumption.
  - reflexivity.
  - now rewrite Hauth2.
  - cbn [set_orders orders].
    now rewrite select_order_cancelled, Horder.
Qed.

Lemma cancelOrder_twice_witness :
  outcome (run (cancelOrder (env_ok "-") "o1")
             (final_db (run (cancelOrder (env_ok "-") "o1") orders_db)))
  = Fail InvalidState.
Proof.
  rewrite (cancelOrder_twice_is_invalid_state (env_ok "-") (env_ok "-") "o1"
             orders_db tt eq_refl eq_refl eq_refl).
  reflexivity.
Defined.

(** X23. An order [createOrder] has just stored can be cancelled by its
    owner: [cancelOrder] with the identifier answered succeeds, the order
    is then read back with the status [cancelled], and products and cart
    are still as they were before the order was created. *)
Theorem created_order_can_be_cancelled (env env' : Env)
    (orderData : CreateOrderInput) (d : Db) (id : string) (total : float) :
  let x := run (createOrder env orderData) d in
  let y := run (cancelOrder env' id) (final_db x) in
  outcome x = Success (id, total) ->
  orders_consistent d ->
  auth env' = auth env ->
  (forall c, store_error env' c = false) ->
  outcome y = Success tt
  /\ (exists order,
         getOrder env' id (final_db y) = OrderOk order
         /\ ord_status order = cancelled
         /\ ord_total_amount order = total)
  /\ products (final_db y) = products d
  /\ cart_items (final_db y) = cart_items d.
Proof.
  intros x y Hok Hcons Hauth' Hstore. subst x y.
  pose proof (createOrder_run env orderData d) as Hrun.
  destruct Hrun as [| | | | | | |
                    |userId validated items cartTotal calculated lines
                       Hauth _ _ _ _ _ _ Hallowed _];
    try discriminate.
  cbn [outcome fst] in Hok. injection Hok as <- <-.
  cbn [final_db snd db].
  set (order := pending_order env userId calculated validated) in *.
  set (stored := map (to_order_item (gen_random_uuid env)) lines).
  assert (auth env' = Some userId) as Hauth2 by now rewrite Hauth', Hauth.
  pose proof Hallowed as Hfresh.
  rewrite order_insert_allowed_spec in Hfresh.
  assert (filter (fun o => o_id o = gen_random_uuid env ∧ o_clerk_id o = userId)
                 (orders (with_order d order stored)) = [order]) as Hfound.
  { cbn [with_order orders].
    rewrite filter_app, (select_order_none _ _ _ Hfresh), filter_cons.
    case_decide as Hn; [reflexivity|]. exfalso. apply Hn. now split. }
  rewrite (cancelOrder_found env' (gen_random_uuid env) userId _ order Hauth2
             (Hstore SelectOrder) Hfound).
  cbn [is_pending order pending_order o_status]. rewrite (Hstore UpdateOrder).
  cbn [outcome final_db fst snd db].
  split; [reflexivity|]. split; [|split; reflexivity].
  unfold getOrder. rewrite Hauth2, (Hstore SelectOrder).
  cbn [set_orders orders].
  rewrite select_order_cancelled, Hfound. cbn [map single].
  eexists. split; [reflexivity|]. split; reflexivity.
Qed.

Lemma created_order_cancel_witness :
  outcome (run (cancelOrder (env_ok "-") "o1")
             (final_db (run (createOrder (env_ok "o1") sample_order_input)
                          sample_db)))
  = Success tt.
Proof.
  refine (proj1 (created_order_can_be_cancelled (env_ok "o1") (env_ok "-")
                   sample_order_input sample_db "o1" 20000%float
                   _ _ eq_refl (fun _ => eq_refl))).
  - vm_compute. reflexivity.
  - split; [apply NoDup_singleton|intros i []].
Defined.

(** X24. A new order comes first in the caller's order list: after a
    successful [createOrder], [getOrders] answers with the new order, with
    the total answered and the status [pending], followed by the list it
    answered with before. *)
Theorem created_order_heads_the_order_list (env env' : Env)
    (orderData : CreateOrderInput) (d : Db) (id : string) (total : float)
    (previous : list OrderSummary) :
  let x := run (createOrder env orderData) d in
  outcome x = Success (id, total) ->
  auth env' = auth env ->
  getOrders env' d = OrdersOk previous ->
  exists userId,
    auth env = Some userId
    /\ getOrders env' (final_db x)
       = OrdersOk (mkOrderSummary id userId total pending :: previous).
Proof.
  intros x Hok Hauth' Hprevious. subst x.
  pose proof (createOrder_run env orderData d) as Hrun.
  destruct Hrun as [| | | | | | |
                    |userId validated items cartTotal calculated lines
                       Hauth _ _ _ _ _ _ _ _];
    try discriminate.
  cbn [outcome fst] in Hok. injection Hok as <- <-.
  exists userId. split; [exact Hauth|].
  revert Hprevious. unfold getOrders. rewrite Hauth', Hauth.
  destruct (store_error env' SelectOrder); [discriminate|].
  intros [= <-]. unfold final_db. cbn [snd db with_order orders].
  rewrite filter_app, filter_cons.
  cbn [pending_order o_clerk_id]. case_decide; [|contradiction].
  rewrite filter_nil, rev_app_distr. reflexivity.
Qed.

Lemma created_order_list_witness :
  getOrders (env_ok "-")
    (final_db (run (createOrder (env_ok "o1") sample_order_input) sample_db))
  = OrdersOk [mkOrderSummary "o1" "user_1" 20000%float pending].
Proof.
  destruct (created_order_heads_the_order_list (env_ok "o1") (env_ok "-")
              sample_order_input sample_db "o1" 20000%float [])
    as (userId & Hauth & Hlist).
  - vm_compute. reflexivity.
  - reflexivity.
  - reflexivity.
  - injection Hauth as <-. exact Hlist.
Defined.

Lemma createOrder_success (env : Env) (orderData : CreateOrderInput) (d : Db)
    (userId : string) (validated : CreateOrderInput) (items : list CartItem)
    (total calculated : float) (lines : list OrderLine) :
  auth env = Some userId ->
  createOrderSchema orderData = Some validated ->
  getCartItems env d = CartOk items total ->
  items <> [] ->
  check_lines items 0%float [] = inr (calculated, lines) ->
  store_error env InsertOrder = false ->
  order_insert_allowed (pending_order env userId calculated validated)
    (orders d) = true ->
  store_error env InsertOrderItems = false ->
  outcome (run (createOrder env orderData) d)
  = Success (gen_random_uuid env, decimal_10_2 calculated).
Proof.
  intros Hauth Hschema Hcart Hitems Hcheck Hinsert Hallowed Hlines.
  unfold createOrder. rewrite Hauth, Hschema. exec. rewrite Hcart.
  destruct items as [|item items]; [contradiction|].
  cbn [length Nat.eqb]. rewrite Hcheck.
  assert (amount_differs calculated total = false) as ->.
  { apply getCartItems_ok in Hcart as (_ & _ & _ & _ & ->).
    apply check_lines_accepts in Hcheck as [-> _].
    apply amount_differs_same. }
  exec. rewrite Hinsert, Hallowed. cbn [orb negb]. exec.
  rewrite Hlines. exec. reflexivity.
Qed.

(** X25. Nothing stops the same cart from being ordered twice: as
    [createOrder] leaves the cart in place, a second [createOrder] after a
    successful one, with a fresh identifier and a store that refuses
    nothing, succeeds again with the same total, and the caller then has
    two more orders than before. *)
Theorem createOrder_twice_orders_twice (env1 env2 : Env)
    (orderData : CreateOrderInput) (d : Db) (id : string) (total : float) :
  let x1 := run (createOrder env1 orderData) d in
  let x2 := run (createOrder env2 orderData) (final_db x1) in
  outcome x1 = Success (id, total) ->
  auth env2 = auth env1 ->
  (forall c, store_error env2 c = false) ->
  gen_random_uuid env2 <> id ->
  (forall o, In o (orders d) -> o_id o <> gen_random_uuid env2) ->
  outcome x2 = Success (gen_random_uuid env2, total)
  /\ length (orders (final_db x2)) = S (S (length (orders d))).
Proof.
  intros x1 x2 Hok Hauth2 Hstore Hnew Hfresh. subst x1 x2.
  pose proof (createOrder_run env1 orderData d) as Hrun.
  destruct Hrun as [| | | | | | |
                    |userId validated items cartTotal calculated lines
                       Hauth Hschema Hcart Hitems Hcheck _ _ _ _];
    try discriminate.
  cbn [outcome fst] in Hok. injection Hok as <- <-.
  unfold final_db at 2. unfold final_db at 2. cbn [snd db].
  set (d1 := with_order d (pending_order env1 userId calculated validated)
               (map (to_order_item (gen_random_uuid env1)) lines)).
  assert (auth env2 = Some userId) as Hauth2' by now rewrite Hauth2.
  assert (getCartItems env2 d1 = CartOk items cartTotal) as Hcart2.
  { apply getCartItems_ok in Hcart as (u & Hu & _ & Hi & Ht).
    rewrite Hauth in Hu. injection Hu as <-.
    rewrite (getCartItems_answers env2 d1 userId Hauth2'
               (Hstore SelectCartItems)).
    change (select_cart_items userId d1) with (select_cart_items userId d).
    now rewrite <- Hi, <- Ht. }
  assert (order_insert_allowed
            (pending_order env2 userId calculated validated) (orders d1)
          = true) as Hallowed2.
  { apply order_insert_allowed_spec. intros o Ho.
    cbn [d1 with_order orders] in Ho. apply in_app_or in Ho as [Ho|[<-|[]]].
    - now apply Hfresh.
    - cbn. congruence. }
  pose proof (createOrder_run env2 orderData d1) as Hrun2.
  pose proof (createOrder_success env2 orderData d1 userId validated items
                cartTotal calculated lines Hauth2' Hschema Hcart2 Hitems Hcheck
                (Hstore InsertOrder) Hallowed2 (Hstore InsertOrderItems))
    as Hok2.
  split; [exact Hok2|].
  destruct Hrun2 as [| | | | | | | |u2 v2 i2 t2 c2 l2 _ _ _ _ _ _ _ _ _];
    try discriminate.
  unfold final_db. cbn [snd db with_order orders d1].
  rewrite !length_app. cbn [length]. lia.
Qed.

Lemma createOrder_twice_witness :
  outcome (run (createOrder (env_ok "o2") sample_order_input)
             (final_db (run (createOrder (env_ok "o1") sample_order_input)
                          sample_db)))
  = Success ("o2", 20000%float).
Proof.
  refine (proj1 (createOrder_twice_orders_twice (env_ok "o1") (env_ok "o2")
                   sample_order_input sample_db "o1" 20000%float
                   _ eq_refl (fun _ => eq_refl) _ _)).
  - vm_compute. reflexivity.
  - discriminate.
  - intros o [<-|[]]. discriminate.
Defined.

(** ** Payment action *)

(** X26. In every run of [confirmPaymentAndCreateOrder] the gateway is
    called at most once, with the payment key, order identifier and amount
    the action was given, and before anything is written: the outward
    calls are either none at all, or the gateway call followed by writes
    to the store only. *)
Theorem gateway_called_once_before_any_write (env : Env)
    (paymentKey orderId : string) (amount : float)
    (shipping : option ShippingAddress) (note : option string) (d : Db) :
  let x := run (confirmPaymentAndCreateOrder env paymentKey orderId amount
                  shipping note) d in
  (calls x = [] /\ final_db x = d)
  \/ exists writes,
       calls x = CallToss paymentKey orderId amount :: writes
       /\ Forall (fun e => is_write e = true) writes
       /\ gateway_calls (calls x) = 1%nat.
Proof.
  intros x. subst x.
  pose proof (confirmPayment_run env paymentKey orderId amount shipping note d)
    as Hrun.
  destruct Hrun as [| | | | | | | | |
                    |userId items total w2 cleared w3 _ _ _ _ _ Hdec Hclear];
    cbn [calls final_db snd db trace];
    try (left; split; reflexivity);
    try (right; eexists; split; [reflexivity|];
         split; [repeat constructor|reflexivity]).
  right.
  destruct (payment_tail env _ _ _ _ _ Hdec Hclear) as (_ & _ & t & Ht & Hw).
  cbn [trace app] in Ht.
  exists ([Write InsertOrder; Write InsertOrderItems] ++ t).
  split; [exact Ht|]. split.
  - apply Forall_app. split; [repeat constructor|exact Hw].
  - unfold calls. cbn [snd]. rewrite Ht.
    change (CallToss paymentKey orderId amount
              :: Write InsertOrder :: Write InsertOrderItems :: t)
      with ([CallToss paymentKey orderId amount; Write InsertOrder;
             Write InsertOrderItems] ++ t).
    rewrite gateway_calls_app, (gateway_calls_writes t Hw). reflexivity.
Qed.

(** ** Input schemas *)

Lemma rx_digits_exactly_spec (n : nat) :
  forall s rest,
    In rest (rx_digits_exactly n s) <->
    exists ds, s = (ds ++ rest)%string
               /\ String.length ds = n /\ all_digits ds = true.
Proof.
  induction n as [|n IH]; intros s rest; cbn [rx_digits_exactly].
  - split.
    + intros [<-|[]]. exists ""%string. repeat split.
    + intros (ds & -> & Hlen & _). destruct ds; [now left|discriminate].
  - destruct s as [|c s].
    + split; [intros []|].
      intros ([|c ds] & Heq & Hlen & _); discriminate.
    + destruct (is_digit c) eqn:Hc.
      * rewrite IH. split.
        -- intros (ds & -> & <- & Hds). exists (String c ds).
           cbn. now rewrite Hc, Hds.
        -- intros ([|c' ds] & Heq & Hlen & Hds); [discriminate|].
           cbn in Heq, Hlen, Hds. injection Heq as <- ->. injection Hlen as <-.
           apply andb_true_iff in Hds as [_ Hds]. now exists ds.
      * split; [intros []|].
        intros ([|c' ds] & Heq & Hlen & Hds); [discriminate|].
        cbn in Heq, Hds. injection Heq as <- ->.
        rewrite Hc in Hds. discriminate.
Qed.

Lemma rx_digits_spec (lo hi : nat) (s rest : string) :
  In rest (rx_digits lo hi s) <->
  exists ds, s = (ds ++ rest)%string
             /\ (lo <= String.length ds <= hi)%nat /\ all_digits ds = true.
Proof.
  unfold rx_digits. rewrite in_flat_map. split.
  - intros (n & Hn & Hrest). apply in_seq in Hn.
    apply rx_digits_exactly_spec in Hrest as (ds & -> & <- & Hds).
    exists ds. repeat split; [lia..|assumption].
  - intros (ds & -> & Hlen & Hds). exists (String.length ds). split.
    + apply in_seq. lia.
    + apply rx_digits_exactly_spec. now exists ds.
Qed.

Lemma rx_char_spec (c : ascii) (s rest : string) :
  In rest (rx_char c s) <-> s = String c rest.
Proof.
  unfold rx_char. destruct s as [|c' s]; [split; [intros []|discriminate]|].
  destruct (Ascii.eqb c c') eqn:Hc.
  - apply Ascii.eqb_eq in Hc as <-. split.
    + now intros [<-|[]].
    + intros [= <-]. now left.
  - apply Ascii.eqb_neq in Hc. split; [intros []|].
    intros [= <- _]. contradiction.
Qed.

Lemma rx_opt_spec (c : ascii) (s rest : string) :
  In rest (rx_opt c s) <-> s = rest \/ s = String c rest.
Proof.
  unfold rx_opt. cbn [In]. now rewrite rx_char_spec.
Qed.

Lemma rx_seq_spec (m1 m2 : Matcher) (s rest : string) :
  In rest (rx_seq m1 m2 s) <-> exists mid, In mid (m1 s) /\ In rest (m2 mid).
Proof. unfold rx_seq. apply in_flat_map. Qed.

Lemma rx_test_spec (m : Matcher) (s : string) :
  rx_test m s = true <-> In ""%string (m s).
Proof.
  unfold rx_test. rewrite existsb_exists. split.
  - intros (rest & Hin & Heq). now apply String.eqb_eq in Heq as ->.
  - intros Hin. exists ""%string. split; [assumption|reflexivity].
Qed.

Lemma append_cons (c : ascii) (s t : string) :
  (String c s ++ t)%string = String c (s ++ t)%string.
Proof. reflexivity. Qed.

Lemma append_empty_r (s : string) : (s ++ "")%string = s.
Proof.
  induction s as [|c s IH]; [reflexivity|]. now rewrite append_cons, IH.
Qed.

Lemma postalCodeRegex_spec (s : string) :
  postalCodeRegex s = true <->
  String.length s = 5%nat /\ all_digits s = true.
Proof.
  unfold postalCodeRegex. rewrite rx_test_spec, rx_digits_spec. split.
  - intros (ds & -> & Hlen & Hds). rewrite append_empty_r.
    split; [lia|assumption].
  - intros [Hlen Hds]. exists s. rewrite append_empty_r.
    repeat split; [lia..|assumption].
Qed.

(** X27. [postalCodeRegex] accepts exactly the strings made of five
    digits; such a string holds no hyphen, so the hyphen-stripping the
    schema applies to an accepted postal code never changes it. *)
Theorem postalCodeRegex_accepts_exactly_five_digits (s : string) :
  (postalCodeRegex s = true <->
   String.length s = 5%nat /\ all_digits s = true)
  /\ (postalCodeRegex s = true -> remove_hyphens s = s).
Proof.
  split; [apply postalCodeRegex_spec|].
  intros [_ Hdigits]%postalCodeRegex_spec.
  induction s as [|c s IH]; [reflexivity|].
  cbn [all_digits] in Hdigits. apply andb_true_iff in Hdigits as [Hc Hs].
  cbn [remove_hyphens]. destruct (Ascii.eqb c "-") eqn:Heq.
  - apply Ascii.eqb_eq in Heq as ->. discriminate Hc.
  - now rewrite IH.
Qed.

Lemma append_assoc (a b c : string) :
  ((a ++ b) ++ c)%string = (a ++ (b ++ c))%string.
Proof.
  induction a as [|x a IH]; [reflexivity|].
  now rewrite !append_cons, IH.
Qed.

Lemma length_append (a b : string) :
  String.length (a ++ b)%string = (String.length a + String.length b)%nat.
Proof.
  induction a as [|x a IH]; [reflexivity|].
  rewrite append_cons. cbn [String.length]. now rewrite IH.
Qed.

Lemma all_digits_append (a b : string) :
  all_digits (a ++ b)%string = all_digits a && all_digits b.
Proof.
  induction a as [|x a IH]; [reflexivity|].
  rewrite append_cons. cbn [all_digits]. now rewrite IH, andb_assoc.
Qed.

Lemma remove_hyphens_append (a b : string) :
  remove_hyphens (a ++ b)%string
  = (remove_hyphens a ++ remove_hyphens b)%string.
Proof.
  induction a as [|x a IH]; [reflexivity|].
  rewrite append_cons. cbn [remove_hyphens].
  destruct (Ascii.eqb x "-"); [exact IH|]. now rewrite append_cons, IH.
Qed.

Lemma remove_hyphens_digits (ds : string) :
  all_digits ds = true -> remove_hyphens ds = ds.
Proof.
  induction ds as [|c ds IH]; [reflexivity|].
  cbn [all_digits remove_hyphens]. intros [Hc Hds]%andb_true_iff.
  destruct (Ascii.eqb c "-") eqn:Heq.
  - apply Ascii.eqb_eq in Heq as ->. discriminate Hc.
  - now rewrite IH.
Qed.

(** The strings [phoneNumberRegex] accepts: [0], one to three digits, three
    or four digits and four digits, with an optional hyphen before each of
    the last two groups. *)
Lemma phoneNumberRegex_spec (s : string) :
  phoneNumberRegex s = true <->
  exists d1 h1 d2 h2 d3,
    s = String "0" (d1 ++ h1 ++ d2 ++ h2 ++ d3)%string
    /\ all_digits d1 = true /\ (1 <= String.length d1 <= 3)%nat
    /\ (h1 = ""%string \/ h1 = "-"%string)
    /\ all_digits d2 = true /\ (3 <= String.length d2 <= 4)%nat
    /\ (h2 = ""%string \/ h2 = "-"%string)
    /\ all_digits d3 = true /\ String.length d3 = 4%nat.
Proof.
  unfold phoneNumberRegex. rewrite rx_test_spec. split.
  - intros Hin.
    apply rx_seq_spec in Hin as (m1 & H0 & Hin).
    apply rx_char_spec in H0 as ->.
    apply rx_seq_spec in Hin as (m2 & Hd1 & Hin).
    apply rx_digits_spec in Hd1 as (d1 & -> & Hl1 & Hd1).
    apply rx_seq_spec in Hin as (m3 & Hh1 & Hin).
    apply rx_opt_spec in Hh1.
    apply rx_seq_spec in Hin as (m4 & Hd2 & Hin).
    apply rx_digits_spec in Hd2 as (d2 & -> & Hl2 & Hd2).
    apply rx_seq_spec in Hin as (m5 & Hh2 & Hin).
    apply rx_opt_spec in Hh2.
    apply rx_digits_spec in Hin as (d3 & -> & Hl3 & Hd3).
    rewrite append_empty_r in Hh2.
    destruct Hh1 as [->| ->], Hh2 as [->| ->].
    + exists d1, ""%string, d2, ""%string, d3.
      repeat split; try assumption; try lia; now left.
    + exists d1, ""%string, d2, "-"%string, d3.
      repeat split; try assumption; try lia; (now left) || (now right).
    + exists d1, "-"%string, d2, ""%string, d3.
      repeat split; try assumption; try lia; (now left) || (now right).
    + exists d1, "-"%string, d2, "-"%string, d3.
      repeat split; try assumption; try lia; now right.
  - intros (d1 & h1 & d2 & h2 & d3 & -> & Hd1 & Hl1 & Hh1 & Hd2 & Hl2 & Hh2
            & Hd3 & Hl3).
    apply rx_seq_spec. eexists. split; [now apply rx_char_spec|].
    apply rx_seq_spec. eexists. split.
    { apply rx_digits_spec. exists d1. repeat split; [lia..|assumption]. }
    apply rx_seq_spec. exists (d2 ++ h2 ++ d3)%string. split.
    { apply rx_opt_spec. destruct Hh1 as [->| ->]; [now left|now right]. }
    apply rx_seq_spec. eexists. split.
    { apply rx_digits_spec. exists d2. repeat split; [lia..|assumption]. }
    apply rx_seq_spec. exists d3. split.
    { apply rx_opt_spec. destruct Hh2 as [->| ->]; [now left|now right]. }
    apply rx_digits_spec. exists d3.
    rewrite append_empty_r. repeat split; [lia..|assumption].
Qed.

(** The phone number the schema hands on: the digits of the groups. *)
Lemma accepted_phone_number (s : string) :
  phoneNumberRegex s = true ->
  exists ds,
    remove_hyphens s = String "0" ds
    /\ all_digits ds = true
    /\ (8 <= String.length ds <= 11)%nat
    /\ phoneNumberRegex (String "0" ds) = true.
Proof.
  intros (d1 & h1 & d2 & h2 & d3 & -> & Hd1 & Hl1 & Hh1 & Hd2 & Hl2 & Hh2
          & Hd3 & Hl3)%phoneNumberRegex_spec.
  exists (d1 ++ d2 ++ d3)%string.
  assert (remove_hyphens h1 = ""%string) as Hr1
    by (destruct Hh1 as [->| ->]; reflexivity).
  assert (remove_hyphens h2 = ""%string) as Hr2
    by (destruct Hh2 as [->| ->]; reflexivity).
  repeat split.
  - cbn [remove_hyphens]. change (Ascii.eqb "0" "-") with false. cbn iota.
    rewrite !remove_hyphens_append, Hr1, Hr2,
      !remove_hyphens_digits by assumption.
    reflexivity.
  - now rewrite !all_digits_append, Hd1, Hd2, Hd3.
  - rewrite !length_append. lia.
  - rewrite !length_append. lia.
  - apply phoneNumberRegex_spec.
    exists d1, ""%string, d2, ""%string, d3.
    repeat split; try assumption; try lia; now left.
Qed.

Lemma shippingAddressSchema_ok (a a' : ShippingAddress) :
  shippingAddressSchema a = Some a' ->
  length_between 2 50 (customerName a) = true
  /\ length_between 5 200 (address a) = true
  /\ postalCodeRegex (postalCode a) = true
  /\ max_length_opt 200 (addressDetail a) = true
  /\ phoneNumberRegex (phoneNumber a) = true
  /\ a' = mkShippingAddress (customerName a) (address a)
            (remove_hyphens (postalCode a))
            (blank_to_undefined (addressDetail a))
            (remove_hyphens (phoneNumber a)).
Proof.
  unfold shippingAddressSchema.
  destruct (length_between 2 50 (customerName a)); [|discriminate].
  destruct (length_between 5 200 (address a)); [|discriminate].
  destruct (postalCodeRegex (postalCode a)); [|discriminate].
  destruct (max_length_opt 200 (addressDetail a)); [|discriminate].
  destruct (phoneNumberRegex (phoneNumber a)); [|discriminate].
  cbn. intros [= <-]. repeat split.
Qed.

(** X28. What [shippingAddressSchema] hands on when it accepts a form:
    name and address as typed; the postal code as typed, five digits (its
    hyphen-stripping never removes anything); the phone number as digits
    only, nine to twelve of them starting with [0]; and never an empty
    address detail. *)
Theorem parsed_address_is_normalised (a a' : ShippingAddress) :
  shippingAddressSchema a = Some a' ->
  customerName a' = customerName a
  /\ address a' = address a
  /\ postalCode a' = postalCode a
  /\ String.length (postalCode a') = 5%nat
  /\ all_digits (postalCode a') = true
  /\ all_digits (phoneNumber a') = true
  /\ (9 <= String.length (phoneNumber a') <= 12)%nat
  /\ (exists rest, phoneNumber a' = String "0" rest)
  /\ phoneNumber a' = remove_hyphens (phoneNumber a)
  /\ addressDetail a' <> Some ""%string.
Proof.
  intros (_ & _ & Hpostal & _ & Hphone & ->)%shippingAddressSchema_ok.
  cbn [customerName address postalCode phoneNumber addressDetail].
  apply postalCodeRegex_spec in Hpostal as [Hlen Hdigits].
  apply accepted_phone_number in Hphone as (ds & -> & Hds & Hl & _).
  rewrite (remove_hyphens_digits _ Hdigits).
  repeat split; try assumption; try reflexivity.
  - cbn [String.length]. lia.
  - cbn [String.length]. lia.
  - now exists ds.
  - destruct (addressDetail a) as [[|c s]|]; discriminate.
Qed.

Lemma parsed_address_witness :
  exists a',
    shippingAddressSchema (shippingAddress sample_order_input) = Some a'
    /\ postalCode a' = "04524"%string
    /\ phoneNumber a' = "01012345678"%string.
Proof.
  eexists. split; [vm_compute; reflexivity|].
  destruct (parsed_address_is_normalised (shippingAddress sample_order_input) _
              eq_refl)
    as (_ & _ & Hpostal & _ & _ & _ & _ & _ & Hphone & _).
  split; [exact Hpostal|exact Hphone].
Defined.

Lemma blank_to_undefined_twice (o : option string) :
  blank_to_undefined (blank_to_undefined o) = blank_to_undefined o.
Proof. now destruct o as [[|c s]|]. Qed.

Lemma max_length_opt_blank (hi : nat) (o : option string) :
  max_length_opt hi o = true ->
  max_length_opt hi (blank_to_undefined o) = true.
Proof. now destruct o as [[|c s]|]. Qed.

(** X29. A form that [createOrderSchema] has accepted is accepted again,
    unchanged: parsing the parsed value gives the parsed value. This is
    what lets [createOrder] re-validate on the server the value the
    checkout form has already validated and normalised. *)
Theorem validated_form_passes_again (i i' : CreateOrderInput) :
  createOrderSchema i = Some i' -> createOrderSchema i' = Some i'.
Proof.
  unfold createOrderSchema.
  destruct (shippingAddressSchema (shippingAddress i)) as [a'|] eqn:Ha;
    [|discriminate].
  unfold orderNoteSchema.
  destruct (max_length_opt 500 (orderNote i)) eqn:Hnote; [|discriminate].
  intros [= <-]. cbn [shippingAddress orderNote].
  rewrite (max_length_opt_blank _ _ Hnote), blank_to_undefined_twice.
  apply shippingAddressSchema_ok in Ha
    as (Hname & Haddress & Hpostal & Hdetail & Hphone & ->).
  unfold shippingAddressSchema.
  cbn [customerName address postalCode addressDetail phoneNumber].
  rewrite Hname, Haddress, (max_length_opt_blank _ _ Hdetail),
    blank_to_undefined_twice.
  pose proof Hpostal as Hdigits.
  apply postalCodeRegex_spec in Hdigits as [_ Hdigits].
  rewrite !(remove_hyphens_digits _ Hdigits), Hpostal.
  apply accepted_phone_number in Hphone as (ds & -> & Hds & _ & Hagain).
  rewrite Hagain.
  assert (remove_hyphens (String "0" ds) = String "0" ds) as ->
    by (apply remove_hyphens_digits; cbn [all_digits]; now rewrite Hds).
  reflexivity.
Qed.

Lemma validated_form_witness :
  exists i',
    createOrderSchema sample_order_input = Some i'
    /\ createOrderSchema i' = Some i'.
Proof.
  eexists. split; [vm_compute; reflexivity|].
  apply (validated_form_passes_again sample_order_input). reflexivity.
Defined.

Lemma length_between_nonempty (lo hi : nat) (s : string) :
  (0 < lo)%nat -> length_between lo hi s = true -> nonempty s = true.
Proof.
  intros Hlo. destruct s; [|reflexivity].
  unfold length_between. cbn [js_length].
  intros [Hle _]%andb_true_iff. apply Nat.leb_le in Hle. lia.
Qed.

(** X30. An address that [shippingAddressSchema] has accepted always
    passes the address part of [confirmPaymentSchema]: with it, the
    payment action's validation comes down to a non-empty payment key, a
    non-empty order identifier and a positive amount. *)
Theorem validated_address_passes_payment_schema (a a' : ShippingAddress)
    (paymentKey orderId : string) (amount : float) (note : option string) :
  shippingAddressSchema a = Some a' ->
  confirmPaymentSchema paymentKey orderId amount (Some a') note
  = nonempty paymentKey && nonempty orderId && PrimFloat.ltb 0%float amount.
Proof.
  intros (Hname & Haddress & Hpostal & _ & Hphone & ->)%shippingAddressSchema_ok.
  apply postalCodeRegex_spec in Hpostal as [Hlen Hdigits].
  apply accepted_phone_number in Hphone as (ds & Hphone & _).
  unfold confirmPaymentSchema.
  cbn [customerName address postalCode phoneNumber].
  rewrite Hphone, (remove_hyphens_digits _ Hdigits),
    (length_between_nonempty 2 50 _ ltac:(lia) Hname),
    (length_between_nonempty 5 200 _ ltac:(lia) Haddress).
  destruct (postalCode a) as [|c s]; [discriminate Hlen|].
  cbn [nonempty andb]. now rewrite andb_true_r.
Qed.

Lemma validated_address_witness :
  confirmPaymentSchema "pay_1" "tmp_1" 20000%float
    (Some (mkShippingAddress "Hong Gildong" "1 Sejong-daero, Seoul" "04524"
             None "01012345678"))
    None
  = true.
Proof.
  rewrite (validated_address_passes_payment_schema
             (shippingAddress sample_order_input)
             (mkShippingAddress "Hong Gildong" "1 Sejong-daero, Seoul" "04524"
                None "01012345678")
             "pay_1" "tmp_1" 20000%float None eq_refl).
  reflexivity.
Defined.
